(** * CusDesktop reporting core: SLA rules, time buckets, aggregations

    A shallow embedding of the analytical functions of
    [backend/app/views/reports_sla.py], [reports_sla_overdue.py] and
    [reports_ticket.py], and of the form numbers of
    [backend/app/services/sequence.py], with the properties stated for
    them.

    Conventions of the embedding.
    - A Python [str] is a [string] holding its UTF-8 bytes.  [str.strip]
      and [int] read the characters these bytes encode and know the white
      space and the decimal digits of Unicode.  [str.lower] changes the
      letters A to Z only: the lower case of a letter outside ASCII is not
      part of the model.
    - A Python [float] is an exact rational ([Q]); rounding error of the
      binary representation is not part of the model.
    - A raised exception is the [Raise] outcome of [result].
    - [datetime.utcnow()] is the explicit argument [now]; the ticket table
      is the explicit argument [db]. *)

From Stdlib Require Import ZArith QArith Qround Qminmax String Ascii List Lia Lra Lqa.
From Stdlib Require Import Sorting.Sorted Sorting.Permutation.
From stdpp Require Import base option gmap strings list pretty.

Open Scope Z_scope.

(** ** Python built-ins used by the reports *)

Module Py.

Inductive exn : Type :=
| ValueError
| OverflowError
| KeyError
| IndexError.

(** Outcome of a call: a value, an exception, or [OutOfFuel] when a
    [while] loop was cut by the recursion budget of its embedding (the
    theorems show that the budget given by each caller is never
    exhausted). *)
Inductive result (A : Type) : Type :=
| Ok (a : A)
| Raise (e : exn)
| OutOfFuel.
Arguments Ok {A} a.
Arguments Raise {A} e.
Arguments OutOfFuel {A}.

Definition bind {A B} (r : result A) (k : A -> result B) : result B :=
  match r with
  | Ok a => k a
  | Raise e => Raise e
  | OutOfFuel => OutOfFuel
  end.

(** Values found under a key of the [params] dictionary of a query. *)
Inductive value : Type :=
| VNone
| VInt (z : Z)
| VStr (s : string).

(** [ch.isspace()] for a character given by its code point: the
    twenty-nine white space characters of Unicode, the control characters
    FS, GS, RS and US among them. *)
Definition isspace (cp : N) : bool :=
  ((9 <=? cp) && (cp <=? 13) || (28 <=? cp) && (cp <=? 32) ||
   (cp =? 0x85) || (cp =? 0xA0) || (cp =? 0x1680) ||
   (0x2000 <=? cp) && (cp <=? 0x200A) ||
   (cp =? 0x2028) || (cp =? 0x2029) || (cp =? 0x202F) || (cp =? 0x205F) ||
   (cp =? 0x3000))%N.

(** The six low bits a continuation byte of UTF-8 carries. *)
Definition cont (c : ascii) : option N :=
  let n := N_of_ascii c in
  if ((0x80 <=? n) && (n <? 0xC0))%N then Some (n - 0x80)%N else None.

(** The character that one, two, three or four bytes encode; [None] when
    the bytes are not the encoding of a character. *)
Definition utf8_1 (c1 : ascii) : option N :=
  let a := N_of_ascii c1 in
  if (a <? 0x80)%N then Some a else None.

Definition utf8_2 (c1 c2 : ascii) : option N :=
  let a := N_of_ascii c1 in
  if ((0xC2 <=? a) && (a <? 0xE0))%N then
    match cont c2 with
    | Some b => Some ((a - 0xC0) * 64 + b)%N
    | None => None
    end
  else None.

Definition utf8_3 (c1 c2 c3 : ascii) : option N :=
  let a := N_of_ascii c1 in
  if ((0xE0 <=? a) && (a <? 0xF0))%N then
    match cont c2, cont c3 with
    | Some b, Some c =>
        let cp := (((a - 0xE0) * 64 + b) * 64 + c)%N in
        if (0x800 <=? cp)%N then Some cp else None
    | _, _ => None
    end
  else None.

Definition utf8_4 (c1 c2 c3 c4 : ascii) : option N :=
  let a := N_of_ascii c1 in
  if ((0xF0 <=? a) && (a <? 0xF5))%N then
    match cont c2, cont c3, cont c4 with
    | Some b, Some c, Some d =>
        let cp := ((((a - 0xF0) * 64 + b) * 64 + c) * 64 + d)%N in
        if ((0x10000 <=? cp) && (cp <? 0x110000))%N then Some cp else None
    | _, _, _ => None
    end
  else None.

Definition space_at (cp : option N) : bool :=
  match cp with
  | Some n => isspace n
  | None => false
  end.

Definition is_upper (c : ascii) : bool :=
  let n := N_of_ascii c in ((65 <=? n) && (n <=? 90))%N.

Definition lower_char (c : ascii) : ascii :=
  if is_upper c then ascii_of_N (N_of_ascii c + 32) else c.

(** [s.lower()] for a string whose cased letters are those of ASCII: the
    letters A to Z are replaced, every other byte is kept.  This is what
    [str.lower] does to a string of ASCII characters, of CJK characters,
    of digits and punctuation; the lower case of a letter outside ASCII
    (É, Σ, a full-width P) is taken from the Unicode tables of the
    interpreter and is not part of the model. *)
Fixpoint lower (s : string) : string :=
  match s with
  | EmptyString => EmptyString
  | String c r => String (lower_char c) (lower r)
  end.

(** [s.lstrip()]: the characters of white space, of one, two or three
    bytes, are dropped from the front. *)
Fixpoint lstrip (s : string) : string :=
  match s with
  | EmptyString => s
  | String c1 r1 =>
      if space_at (utf8_1 c1) then lstrip r1
      else
        match r1 with
        | EmptyString => s
        | String c2 r2 =>
            if space_at (utf8_2 c1 c2) then lstrip r2
            else
              match r2 with
              | EmptyString => s
              | String c3 r3 =>
                  if space_at (utf8_3 c1 c2 c3) then lstrip r3 else s
              end
        end
  end.

(** [s.rstrip()]: a string of white space only becomes empty; any other
    string keeps its first byte, and what follows that byte is stripped in
    turn.  What follows a byte inside a character starts with a
    continuation byte and so never reads as white space. *)
Fixpoint rstrip (s : string) : string :=
  match s with
  | EmptyString => EmptyString
  | String c r =>
      match lstrip s with
      | EmptyString => EmptyString
      | _ => String c (rstrip r)
      end
  end.

(** [s.strip()] *)
Definition strip (s : string) : string := rstrip (lstrip s).

(** [k in s] for two strings. *)
Fixpoint contains (k s : string) : bool :=
  String.prefix k s ||
  match s with
  | EmptyString => false
  | String _ r => contains k r
  end.

(** [x in l] for a list of strings. *)
Definition str_in (x : string) (l : list string) : bool :=
  existsb (String.eqb x) l.

(** [s or ""] for an optional string. *)
Definition or_empty (s : option string) : string :=
  match s with
  | Some x => x
  | None => EmptyString
  end.

(** The characters of a string, by their code points; U+FFFD stands for
    bytes that encode no character. *)
Fixpoint code_points (s : string) : list N :=
  match s with
  | EmptyString => []
  | String c1 r1 =>
      match utf8_1 c1 with
      | Some cp => cp :: code_points r1
      | None =>
          match r1 with
          | EmptyString => [0xFFFD%N]
          | String c2 r2 =>
              match utf8_2 c1 c2 with
              | Some cp => cp :: code_points r2
              | None =>
                  match r2 with
                  | EmptyString => [0xFFFD%N]
                  | String c3 r3 =>
                      match utf8_3 c1 c2 c3 with
                      | Some cp => cp :: code_points r3
                      | None =>
                          match r3 with
                          | EmptyString => [0xFFFD%N]
                          | String c4 r4 =>
                              match utf8_4 c1 c2 c3 c4 with
                              | Some cp => cp :: code_points r4
                              | None => [0xFFFD%N]
                              end
                          end
                      end
                  end
              end
          end
      end
  end.

(** The digit zero of each script that has decimal digits (Unicode 14, the
    tables of Python 3.11); the digits one to nine follow it. *)
Definition decimal_zeros : list N :=
  [0x30; 0x660; 0x6F0; 0x7C0; 0x966; 0x9E6; 0xA66; 0xAE6; 0xB66; 0xBE6;
   0xC66; 0xCE6; 0xD66; 0xDE6; 0xE50; 0xED0; 0xF20; 0x1040; 0x1090;
   0x17E0; 0x1810; 0x1946; 0x19D0; 0x1A80; 0x1A90; 0x1B50; 0x1BB0;
   0x1C40; 0x1C50; 0xA620; 0xA8D0; 0xA900; 0xA9D0; 0xA9F0; 0xAA50;
   0xABF0; 0xFF10; 0x104A0; 0x10D30; 0x11066; 0x110F0; 0x11136; 0x111D0;
   0x112F0; 0x11450; 0x114D0; 0x11650; 0x116C0; 0x11730; 0x118E0;
   0x11950; 0x11C50; 0x11D50; 0x11DA0; 0x16A60; 0x16AC0; 0x16B50;
   0x1D7CE; 0x1D7D8; 0x1D7E2; 0x1D7EC; 0x1D7F6; 0x1E140; 0x1E2F0;
   0x1E950; 0x1FBF0]%N.

(** [unicodedata.decimal(ch, None)] *)
Definition decimal (cp : N) : option N :=
  match List.find (fun z => (z <=? cp) && (cp <? z + 10))%N decimal_zeros with
  | Some z => Some (cp - z)%N
  | None => None
  end.

(** What [int] reads in place of a character: a character below 127 as it
    is, a space for white space, the ASCII digit for a decimal digit of
    any script, and a question mark, which ends no number, for the
    rest. *)
Definition to_ascii (cp : N) : N :=
  if (cp <? 127)%N then cp
  else if isspace cp then 32%N
  else
    match decimal cp with
    | Some d => (48 + d)%N
    | None => 63%N
    end.

(** The white space [int] skips around the number, once the characters
    are replaced: tab, LF, VT, FF, CR and space. *)
Definition c_isspace (c : N) : bool :=
  ((9 <=? c) && (c <=? 13) || (c =? 32))%N.

Definition is_digit (c : N) : bool := ((48 <=? c) && (c <=? 57))%N.

Fixpoint skip_spaces (cs : list N) : list N :=
  match cs with
  | [] => []
  | c :: r => if c_isspace c then skip_spaces r else cs
  end.

(** Decimal digits with single underscores between digits, up to the
    white space that ends the text: the value and the number of
    digits. *)
Fixpoint digits (cs : list N) (after_digit : bool) (count : nat) (acc : Z)
    : option (Z * nat) :=
  match cs with
  | [] => if after_digit then Some (acc, count) else None
  | c :: r =>
      if is_digit c then digits r true (S count) (10 * acc + (Z.of_N c - 48))
      else if (c =? 95)%N then
        if after_digit then digits r false count acc else None
      else if after_digit && forallb c_isspace cs then Some (acc, count)
      else None
  end.

(** [sys.int_info.default_max_str_digits], the longest number [int] reads
    since Python 3.11. *)
Definition max_str_digits : nat := 4300.

(** [int(s)] for a string: white space, an optional sign, decimal digits,
    white space. *)
Definition int_of_str (s : string) : result Z :=
  let body (neg : bool) (r : list N) :=
    match digits r false 0 0 with
    | Some (n, count) =>
        if (count <=? max_str_digits)%nat then Ok (if neg then - n else n)
        else Raise ValueError
    | None => Raise ValueError
    end in
  match skip_spaces (map to_ascii (code_points s)) with
  | c :: r =>
      if (c =? 45)%N then body true r
      else if (c =? 43)%N then body false r
      else body false (c :: r)
  | [] => Raise ValueError
  end.
(** [int(v)] is only reached for [v is not None]. *)
Definition int (v : value) : result Z :=
  match v with
  | VNone => Raise ValueError
  | VInt z => Ok z
  | VStr s => int_of_str s
  end.

(** [round(x / 1, n)] on rationals: nearest multiple of [10^-n], ties to
    the even one. *)
Definition round_half_even (x : Q) : Z :=
  let f := Qfloor x in
  let d := (x - inject_Z f)%Q in
  match (d ?= 1 # 2)%Q with
  | Lt => f
  | Gt => f + 1
  | Eq => if Z.even f then f else f + 1
  end.

Definition round (x : Q) (ndigits : nat) : Q :=
  let m := 10 ^ Z.of_nat ndigits in
  (inject_Z (round_half_even (x * inject_Z m)) / inject_Z m)%Q.

(** A float that is not negative. *)
Definition nonneg (x : Q) : Prop := (0 <= x)%Q.

(** [a > b] on floats. *)
Definition gtb (a b : Q) : bool := negb (Qle_bool a b).

(** [int(x)] for a float: truncation towards zero. *)
Definition trunc (x : Q) : Z :=
  if Qle_bool 0 x then Qfloor x else Qceiling x.

(** [l[i]] with Python's negative indices. *)
Definition index {A} (l : list A) (i : Z) : result A :=
  let n := Z.of_nat (length l) in
  let j := if i <? 0 then i + n else i in
  if (0 <=? j) && (j <? n) then
    match l !! Z.to_nat j with
    | Some x => Ok x
    | None => Raise IndexError
    end
  else Raise IndexError.

(** [sum(l)] on integers. *)
Definition sum (l : list Z) : Z := fold_left Z.add l 0.

End Py.

(** ** Dates: the part of Python's [datetime] module the reports use *)

Module Calendar.

Record date : Type := Date { year : Z; month : Z; day : Z }.

Record datetime : Type := Datetime {
  dt_date : date;
  hour : Z;
  minute : Z;
  second : Z;
  microsecond : Z
}.

Definition MAXYEAR : Z := 9999.
Definition _MAXORDINAL : Z := 3652059.

Definition _is_leap (y : Z) : bool :=
  (y mod 4 =? 0) && (negb (y mod 100 =? 0) || (y mod 400 =? 0)).

Definition _days_before_year (y0 : Z) : Z :=
  let y := y0 - 1 in y * 365 + y / 4 - y / 100 + y / 400.

Definition _DAYS_IN_MONTH (m : Z) : Z :=
  match m with
  | 1 => 31 | 2 => 28 | 3 => 31 | 4 => 30 | 5 => 31 | 6 => 30
  | 7 => 31 | 8 => 31 | 9 => 30 | 10 => 31 | 11 => 30 | 12 => 31
  | _ => -1
  end.

Definition _DAYS_BEFORE_MONTH (m : Z) : Z :=
  match m with
  | 1 => 0 | 2 => 31 | 3 => 59 | 4 => 90 | 5 => 120 | 6 => 151
  | 7 => 181 | 8 => 212 | 9 => 243 | 10 => 273 | 11 => 304 | 12 => 334
  | _ => -1
  end.

Definition _days_in_month (y m : Z) : Z :=
  if (m =? 2) && _is_leap y then 29 else _DAYS_IN_MONTH m.

Definition _days_before_month (y m : Z) : Z :=
  _DAYS_BEFORE_MONTH m + (if (2 <? m) && _is_leap y then 1 else 0).

Definition _ymd2ord (y m d : Z) : Z :=
  _days_before_year y + _days_before_month y m + d.

Definition _DI400Y : Z := 146097.
Definition _DI100Y : Z := 36524.
Definition _DI4Y : Z := 1461.

Definition _ord2ymd (n0 : Z) : date :=
  let n := n0 - 1 in
  let n400 := n / _DI400Y in
  let n := n mod _DI400Y in
  let y := n400 * 400 + 1 in
  let n100 := n / _DI100Y in
  let n := n mod _DI100Y in
  let n4 := n / _DI4Y in
  let n := n mod _DI4Y in
  let n1 := n / 365 in
  let n := n mod 365 in
  let y := y + n100 * 100 + n4 * 4 + n1 in
  if (n1 =? 4) || (n100 =? 4) then Date (y - 1) 12 31
  else
    let leapyear := (n1 =? 3) && (negb (n4 =? 24) || (n100 =? 3)) in
    let m := Z.shiftr (n + 50) 5 in
    let preceding :=
      _DAYS_BEFORE_MONTH m + (if (2 <? m) && leapyear then 1 else 0) in
    if n <? preceding then
      let m := m - 1 in
      let preceding :=
        preceding -
        (_DAYS_IN_MONTH m + (if (m =? 2) && leapyear then 1 else 0)) in
      Date y m (n - preceding + 1)
    else Date y m (n - preceding + 1).

(** The invariant of every [date] object ([_check_date_fields]). *)
Definition valid_date (d : date) : bool :=
  (1 <=? year d) && (year d <=? MAXYEAR) &&
  (1 <=? month d) && (month d <=? 12) &&
  (1 <=? day d) && (day d <=? _days_in_month (year d) (month d)).

Definition valid_datetime (t : datetime) : bool :=
  valid_date (dt_date t) &&
  (0 <=? hour t) && (hour t <? 24) &&
  (0 <=? minute t) && (minute t <? 60) &&
  (0 <=? second t) && (second t <? 60) &&
  (0 <=? microsecond t) && (microsecond t <? 1000000).

(** [date(y, m, d)] *)
Definition mkdate (y m d : Z) : Py.result date :=
  if valid_date (Date y m d) then Py.Ok (Date y m d)
  else Py.Raise Py.ValueError.

Definition toordinal (d : date) : Z := _ymd2ord (year d) (month d) (day d).

Definition fromordinal (n : Z) : date := _ord2ymd n.

(** [d.weekday()]: Monday is 0. *)
Definition weekday (d : date) : Z := (toordinal d + 6) mod 7.

(** [d + timedelta(days=n)] *)
Definition add_days (d : date) (n : Z) : Py.result date :=
  let o := toordinal d + n in
  if (0 <? o) && (o <=? _MAXORDINAL) then Py.Ok (fromordinal o)
  else Py.Raise Py.OverflowError.

(** Comparison of field tuples, as [_cmp] does on them. *)
Fixpoint cmp_fields (a b : list Z) : comparison :=
  match a, b with
  | x :: a', y :: b' =>
      match x ?= y with
      | Eq => cmp_fields a' b'
      | c => c
      end
  | [], [] => Eq
  | [], _ :: _ => Lt
  | _ :: _, [] => Gt
  end.

Definition date_fields (d : date) : list Z := [year d; month d; day d].

Definition datetime_fields (t : datetime) : list Z :=
  date_fields (dt_date t) ++ [hour t; minute t; second t; microsecond t].

Definition is_le (c : comparison) : bool :=
  match c with
  | Gt => false
  | _ => true
  end.

(** [a <= b] on dates and on datetimes. *)
Definition date_leb (a b : date) : bool :=
  is_le (cmp_fields (date_fields a) (date_fields b)).

Definition datetime_leb (a b : datetime) : bool :=
  is_le (cmp_fields (datetime_fields a) (datetime_fields b)).

(** [a < b] on dates. *)
Definition date_ltb (a b : date) : bool :=
  match cmp_fields (date_fields a) (date_fields b) with
  | Lt => true
  | _ => false
  end.

Definition date_eqb (a b : date) : bool :=
  (year a =? year b) && (month a =? month b) && (day a =? day b).

(** [(a - b)] in microseconds: the three fields of the [timedelta], put
    together as [total_seconds] does. *)
Definition sub_microseconds (a b : datetime) : Z :=
  let days := toordinal (dt_date a) - toordinal (dt_date b) in
  let secs := (second a + minute a * 60 + hour a * 3600)
              - (second b + minute b * 60 + hour b * 3600) in
  (days * 86400 + secs) * 1000000 + (microsecond a - microsecond b).

(** [(a - b).total_seconds()] *)
Definition total_seconds (a b : datetime) : Q :=
  (inject_Z (sub_microseconds a b) / inject_Z 1000000)%Q.

(** The month and day [_ord2ymd] finds for the [n]-th day of a year, and
    the check that they are the right ones. *)
Definition month_day (leapyear : bool) (n : Z) : Z * Z :=
  let m := Z.shiftr (n + 50) 5 in
  let preceding :=
    _DAYS_BEFORE_MONTH m + (if (2 <? m) && leapyear then 1 else 0) in
  if n <? preceding then
    let m := m - 1 in
    let preceding :=
      preceding -
      (_DAYS_IN_MONTH m + (if (m =? 2) && leapyear then 1 else 0)) in
    (m, n - preceding + 1)
  else (m, n - preceding + 1).

Definition month_day_ok (leap : bool) (n : Z) : bool :=
  let '(m, d) := month_day leap n in
  (1 <=? m) && (m <=? 12) && (1 <=? d) &&
  (d <=? _DAYS_IN_MONTH m + (if (m =? 2) && leap then 1 else 0)) &&
  (_DAYS_BEFORE_MONTH m + (if (2 <? m) && leap then 1 else 0) + d =? n + 1).

(** A date of the proleptic Gregorian calendar, of any year from 1 on. *)
Definition fields_ok (d : date) : Prop :=
  1 <= year d /\ 1 <= month d <= 12 /\
  1 <= day d <= _days_in_month (year d) (month d).

End Calendar.

#[global] Instance result_ret : MRet Py.result := @Py.Ok.
#[global] Instance result_bind : MBind Py.result :=
  fun A B k r => Py.bind r k.

(** ** The rows and the request parameters *)

Module Models.

(** The columns of [PDTicket] ([pd_ticket_master]) the reports read.
    [create_dt] is [NOT NULL]; [update_dt] is nullable. *)
Record PDTicket : Type := {
  ticket_sid : Z;
  project_sid : Z;
  ticket_name : string;
  ticket_no : string;
  ticket_type : option Z;
  ticket_status : option string;
  ticket_priority : option string;
  status : Z;
  create_dt : Calendar.datetime;
  update_dt : option Calendar.datetime
}.

(** The columns of [PDType] ([pd_type_master]) the category report
    reads. *)
Record PDType : Type := {
  type_sid : Z;
  type_name : string;
  type_group : option string
}.

End Models.

Module Params.

(** The [params] dictionary a route hands to its query function. *)
Record t : Type := {
  project_sid : option Z;
  date_from : Calendar.datetime;
  date_to : Calendar.datetime;
  interval : option string;
  type_group : option string;
  p1h : Py.value;
  p2h : Py.value;
  p3h : Py.value;
  p4h : Py.value;
  defh : Py.value
}.

(** [params.get("interval") or "day"] *)
Definition interval_or_day (params : t) : string :=
  match interval params with
  | Some EmptyString | None => "day"
  | Some i => i
  end.

(** [if project_sid:] with the filter it guards. *)
Definition project_filter (params : t) (r : Models.PDTicket) : bool :=
  match project_sid params with
  | Some p => if p =? 0 then true else Models.project_sid r =? p
  | None => true
  end.

End Params.

(** Stable insertion sort: [sorted], [list.sort] and [ORDER BY] keep the
    given order of elements that compare equal. *)
Section Sort.
Context {A : Type} (leb : A -> A -> bool).

Fixpoint insert_sorted (x : A) (l : list A) : list A :=
  match l with
  | [] => [x]
  | y :: l' => if leb x y then x :: l else y :: insert_sorted x l'
  end.

Fixpoint sort_by (l : list A) : list A :=
  match l with
  | [] => []
  | x :: l' => insert_sorted x (sort_by l')
  end.
End Sort.

(** ** Completion keywords: [_is_done], the same in the three files *)

Module Done.

Definition DONE_KEYWORDS : list string :=
  ["done"; "closed"; "resolve"; "resolved"; "finish"; "finished";
   "complete"; "completed";
   "完成"; "已完成"; "結案"; "已結案"; "關閉"; "已關閉"; "已處理"; "已解決"].

Definition _DONE_KEYWORDS_LOWER : list string := map Py.lower DONE_KEYWORDS.

Definition _is_done (status : option string) : bool :=
  let s := Py.lower (Py.or_empty status) in
  existsb (fun k => Py.contains k s) _DONE_KEYWORDS_LOWER.

End Done.

(** ** Time buckets: [_iter_buckets] and [_bucket_key], the same in the
    three files *)

Module Buckets.
Import Calendar.

(** The [while cur <= end] loop shared by the three branches of
    [_iter_buckets]; [next] is the assignment to [cur] that ends the loop
    body. *)
Fixpoint bucket_loop (fuel : nat) (next : date -> Py.result date)
    (cur end_ : date) : Py.result (list date) :=
  if date_leb cur end_ then
    match fuel with
    | O => Py.OutOfFuel
    | S fuel' =>
        match next cur with
        | Py.Ok cur' =>
            match bucket_loop fuel' next cur' end_ with
            | Py.Ok l => Py.Ok (cur :: l)
            | r => r
            end
        | Py.Raise e => Py.Raise e
        | Py.OutOfFuel => Py.OutOfFuel
        end
    end
  else Py.Ok [].

(** [date(cur.year + (1 if cur.month == 12 else 0),
          1 if cur.month == 12 else cur.month + 1, 1)] *)
Definition next_month (cur : date) : Py.result date :=
  mkdate (year cur + (if month cur =? 12 then 1 else 0))
         (if month cur =? 12 then 1 else month cur + 1) 1.

(** [d - timedelta(days=d.weekday())] *)
Definition monday_of (d : date) : Py.result date :=
  add_days d (- weekday d).

Definition month_index (d : date) : Z := year d * 12 + month d.

Definition _iter_buckets (date_from date_to : datetime) (interval : string)
    : Py.result (list date) :=
  if String.eqb interval "month" then
    cur ← mkdate (year (dt_date date_from)) (month (dt_date date_from)) 1;
    end_ ← mkdate (year (dt_date date_to)) (month (dt_date date_to)) 1;
    bucket_loop (Z.to_nat (month_index end_ - month_index cur + 1))
      next_month cur end_
  else if String.eqb interval "week" then
    start ← monday_of (dt_date date_from);
    end_ ← monday_of (dt_date date_to);
    bucket_loop (Z.to_nat (toordinal end_ - toordinal start + 1))
      (fun cur => add_days cur 7) start end_
  else
    let cur := dt_date date_from in
    let end_ := dt_date date_to in
    bucket_loop (Z.to_nat (toordinal end_ - toordinal cur + 1))
      (fun cur => add_days cur 1) cur end_.

(** The assignment to [cur] at the end of the loop body, by interval. *)
Definition step_of (interval : string) (cur : date) : Py.result date :=
  if String.eqb interval "month" then next_month cur
  else if String.eqb interval "week" then add_days cur 7
  else add_days cur 1.

Definition _bucket_key (dt : datetime) (interval : string)
    : Py.result date :=
  if String.eqb interval "month" then
    mkdate (year (dt_date dt)) (month (dt_date dt)) 1
  else if String.eqb interval "week" then monday_of (dt_date dt)
  else Py.Ok (dt_date dt).

(** The date that follows the bucket of [date_to] exists: the loop can
    leave its last turn. *)
Definition has_next (date_to : datetime) (interval : string) : bool :=
  match end_ ← _bucket_key date_to interval; step_of interval end_ with
  | Py.Ok _ => true
  | _ => false
  end.

(** The alignment rules in the words of the specification: [start] is the
    first day of the month of [dt], the Monday of its week, or its
    calendar day. *)
Definition bucket_start_of (interval : string) (dt : datetime)
    (start : date) : Prop :=
  if String.eqb interval "month" then
    start = Date (year (dt_date dt)) (month (dt_date dt)) 1
  else if String.eqb interval "week" then
    weekday start = 0 /\
    toordinal start <= toordinal (dt_date dt) < toordinal start + 7
  else start = dt_date dt.

(** [b] is the bucket after [a]: the first of the next month (January of
    the next year after December), seven days later, or the next day. *)
Definition bucket_follows (interval : string) (a b : date) : Prop :=
  if String.eqb interval "month" then
    b = if month a =? 12 then Date (year a + 1) 1 1
        else Date (year a) (month a + 1) 1
  else if String.eqb interval "week" then toordinal b = toordinal a + 7
  else toordinal b = toordinal a + 1.

(** [idx = {b: i for i, b in enumerate(bucket_starts)}], read as
    [idx.get(b)]: a later entry for the same date replaces an earlier
    one. *)
Fixpoint idx_from (i : nat) (bucket_starts : list date) (b : date)
    : option nat :=
  match bucket_starts with
  | [] => None
  | x :: rest =>
      match idx_from (S i) rest b with
      | Some j => Some j
      | None => if date_eqb x b then Some i else None
      end
  end.

Definition idx : list date -> date -> option nat := idx_from 0.

(** [if bucket in idx: series[idx[bucket]] += 1] *)
Definition bump (bucket_starts : list date) (bucket : date)
    (series : list Z) : list Z :=
  match idx bucket_starts bucket with
  | Some i => alter Z.succ i series
  | None => series
  end.

End Buckets.

(** ** SLA rules: [reports_sla.py] and [reports_sla_overdue.py] *)

Module Rules.

Definition SLA_RULES_DEFAULT : gmap string Z :=
  <["p1" := 4]> (<["critical" := 4]> (<["urgent" := 4]> (
  <["p2" := 8]> (<["high" := 8]> (
  <["p3" := 24]> (<["medium" := 24]> (
  <["p4" := 72]> (<["low" := 72]> (
  <["__default__" := 24]> ∅))))))))).

(** [_normalize_priority] ([_norm_pri] in the overdue report):
    [(s or "").strip().lower()]. *)
Definition _normalize_priority (s : option string) : string :=
  Py.lower (Py.strip (Py.or_empty s)).

(** [params.get(key)] for the override keys. *)
Definition params_get (params : Params.t) (key : string) : Py.value :=
  if String.eqb key "p1h" then Params.p1h params
  else if String.eqb key "p2h" then Params.p2h params
  else if String.eqb key "p3h" then Params.p3h params
  else if String.eqb key "p4h" then Params.p4h params
  else if String.eqb key "defh" then Params.defh params
  else Py.VNone.

Definition override_keys : list (string * string) :=
  [("p1h", "p1"); ("p2h", "p2"); ("p3h", "p3"); ("p4h", "p4");
   ("defh", "__default__")].

(** One turn of the loop of [_compose_rules_from_params]: the [try] keeps
    the rules as they are when [int(v)] raises. *)
Definition apply_override (params : Params.t) (rules : gmap string Z)
    (kn : string * string) : gmap string Z :=
  match params_get params (fst kn) with
  | Py.VNone => rules
  | v =>
      match Py.int v with
      | Py.Ok n => <[snd kn := Z.max 0 n]> rules
      | _ => rules
      end
  end.

(** [_compose_rules_from_params] ([_compose_rules] in the overdue
    report). *)
Definition _compose_rules_from_params (params : Params.t) : gmap string Z :=
  fold_left (apply_override params) override_keys SLA_RULES_DEFAULT.

Definition alias : gmap string string :=
  <["critical" := "p1"]> (<["urgent" := "p1"]> (<["high" := "p2"]> (
  <["medium" := "p3"]> (<["normal" := "p3"]> (<["standard" := "p3"]> (
  <["low" := "p4"]> ∅)))))).

(** The invariant of a composed rule table: every key of the defaults is
    still there and no entry is negative. *)
Definition rules_ok (rules : gmap string Z) : Prop :=
  (forall k, is_Some (SLA_RULES_DEFAULT !! k) -> is_Some (rules !! k)) /\
  map_Forall (fun _ h => 0 <= h) rules.

(** What one override makes of the entry [base] of its tier. *)
Definition override_result (base : option Z) (v : Py.value) : option Z :=
  match v with
  | Py.VNone => base
  | _ =>
      match Py.int v with
      | Py.Ok n => Some (Z.max 0 n)
      | _ => base
      end
  end.

(** [rules[k]] *)
Definition getitem (rules : gmap string Z) (k : string) : Py.result Z :=
  match rules !! k with
  | Some h => Py.Ok h
  | None => Py.Raise Py.KeyError
  end.

(** [_target_hours(priority, rules)]; in [reports_sla.py] it is a closure
    over the composed [rules]. *)
Definition _target_hours (priority : option string) (rules : gmap string Z)
    : Py.result Z :=
  let p := _normalize_priority priority in
  match rules !! p with
  | Some h => Py.Ok h
  | None =>
      match alias !! p with
      | Some a =>
          match rules !! a with
          | Some h => Py.Ok h
          | None => getitem rules "__default__"
          end
      | None => getitem rules "__default__"
      end
  end.

End Rules.

(** ** SLA achievement: [_query_sla_achievement] of [reports_sla.py] *)

Module ReportsSla.
Import Calendar Models Rules Done Buckets.

(** An entry of the overdue sample list.  [created_at] and [resolved_at]
    are kept as datetimes ([resolved_at] is [None] where the source puts
    the empty string); the source formats them with [strftime]. *)
Record sample : Type := {
  s_ticket_no : string;
  s_ticket_name : string;
  s_priority : string;
  s_created_at : datetime;
  s_resolved_at : option datetime;
  target_h : Z;
  tat_h : Q;
  overdue_h : Q
}.

(** The local variables the loop over [rows] updates. *)
Record acc : Type := {
  pr_keys : list string;
  per_pr_ach : gmap string Z;
  per_pr_bre : gmap string Z;
  closed_ach_series : list Z;
  closed_bre_series : list Z;
  closed : Z;
  achieved_closed : Z;
  breached_closed : Z;
  open_ : Z;
  open_within : Z;
  open_breach : Z;
  samples : list sample
}.

Record kpi : Type := {
  kpi_total : Z;
  kpi_closed : Z;
  kpi_open : Z;
  kpi_achieved_closed : Z;
  kpi_breached_closed : Z;
  kpi_achieve_rate_closed : Q;
  kpi_achieved_all_now : Z;
  kpi_achieve_rate_all_now : Q;
  kpi_open_within_sla : Z;
  kpi_open_breach : Z
}.

(** The returned payload.  Labels of the trend are the bucket starts
    themselves (the source formats them with [_format_label]); the
    palette of the pie is left out. *)
Record report : Type := {
  r_kpi : kpi;
  pie_counts : list Z;
  bar_labels : list string;
  bar_achieved : list Z;
  bar_breached : list Z;
  trend_labels : list date;
  trend_closed_achieved : list Z;
  trend_closed_breached : list Z;
  trend_rate : list Q;
  breached_samples : list sample;
  rules_by_priority_hours : list (string * Z)
}.

(** The sample query: active tickets created in [[date_from, date_to]],
    of the project when one is given, by ascending [create_dt]. *)
Definition in_sample (params : Params.t) (r : PDTicket) : bool :=
  (status r =? 1) &&
  datetime_leb (Params.date_from params) (create_dt r) &&
  datetime_leb (create_dt r) (Params.date_to params) &&
  Params.project_filter params r.

Definition query_rows (db : list PDTicket) (params : Params.t)
    : list PDTicket :=
  sort_by (fun a b => datetime_leb (create_dt a) (create_dt b))
    (List.filter (in_sample params) db).

(** [_normalize_priority(r.ticket_priority) or "未設定"] *)
Definition priority_key (priority : option string) : string :=
  match _normalize_priority priority with
  | EmptyString => "未設定"
  | p => p
  end.

(** [max(0.0, (a - b).total_seconds()/3600.0)] *)
Definition hours_between (a b : datetime) : Q :=
  Qmax 0 (total_seconds a b / 3600).

(** [d[k] = d.get(k, 0) + 1] *)
Definition count_up (k : string) (d : gmap string Z) : gmap string Z :=
  <[k := default 0 (d !! k) + 1]> d.

(** [_is_done(r.ticket_status) and r.update_dt] *)
Definition closed_at (r : PDTicket) : option datetime :=
  if _is_done (ticket_status r) then update_dt r else None.

(** The body of [for r in rows]. *)
Definition step (rules : gmap string Z) (interval : string)
    (bucket_starts : list date) (now : datetime) (st : acc) (r : PDTicket)
    : Py.result acc :=
  let pr := priority_key (ticket_priority r) in
  let pr_keys' :=
    if Py.str_in pr (pr_keys st) then pr_keys st else pr_keys st ++ [pr] in
  tgt ← _target_hours (ticket_priority r) rules;
  match closed_at r with
  | Some u =>
      let tat_hours := hours_between u (create_dt r) in
      bucket ← _bucket_key u interval;
      if Qle_bool tat_hours (inject_Z tgt) then
        Py.Ok {|
          pr_keys := pr_keys';
          per_pr_ach := count_up pr (per_pr_ach st);
          per_pr_bre := per_pr_bre st;
          closed_ach_series :=
            bump bucket_starts bucket (closed_ach_series st);
          closed_bre_series := closed_bre_series st;
          closed := closed st + 1;
          achieved_closed := achieved_closed st + 1;
          breached_closed := breached_closed st;
          open_ := open_ st;
          open_within := open_within st;
          open_breach := open_breach st;
          samples := samples st |}
      else
        let overdue := (tat_hours - inject_Z tgt)%Q in
        Py.Ok {|
          pr_keys := pr_keys';
          per_pr_ach := per_pr_ach st;
          per_pr_bre := count_up pr (per_pr_bre st);
          closed_ach_series := closed_ach_series st;
          closed_bre_series :=
            bump bucket_starts bucket (closed_bre_series st);
          closed := closed st + 1;
          achieved_closed := achieved_closed st;
          breached_closed := breached_closed st + 1;
          open_ := open_ st;
          open_within := open_within st;
          open_breach := open_breach st;
          samples := samples st ++ [{|
            s_ticket_no := ticket_no r;
            s_ticket_name := ticket_name r;
            s_priority := Py.or_empty (ticket_priority r);
            s_created_at := create_dt r;
            s_resolved_at := Some u;
            target_h := tgt;
            tat_h := Py.round tat_hours 2;
            overdue_h := Py.round overdue 2 |}] |}
  | None =>
      let age_hours := hours_between now (create_dt r) in
      if Qle_bool age_hours (inject_Z tgt) then
        Py.Ok {|
          pr_keys := pr_keys';
          per_pr_ach := per_pr_ach st;
          per_pr_bre := per_pr_bre st;
          closed_ach_series := closed_ach_series st;
          closed_bre_series := closed_bre_series st;
          closed := closed st;
          achieved_closed := achieved_closed st;
          breached_closed := breached_closed st;
          open_ := open_ st + 1;
          open_within := open_within st + 1;
          open_breach := open_breach st;
          samples := samples st |}
      else
        let overdue := (age_hours - inject_Z tgt)%Q in
        Py.Ok {|
          pr_keys := pr_keys';
          per_pr_ach := per_pr_ach st;
          per_pr_bre := per_pr_bre st;
          closed_ach_series := closed_ach_series st;
          closed_bre_series := closed_bre_series st;
          closed := closed st;
          achieved_closed := achieved_closed st;
          breached_closed := breached_closed st;
          open_ := open_ st + 1;
          open_within := open_within st;
          open_breach := open_breach st + 1;
          samples := samples st ++ [{|
            s_ticket_no := ticket_no r;
            s_ticket_name := ticket_name r;
            s_priority := Py.or_empty (ticket_priority r);
            s_created_at := create_dt r;
            s_resolved_at := None;
            target_h := tgt;
            tat_h := Py.round age_hours 2;
            overdue_h := Py.round overdue 2 |}] |}
  end.

(** [for r in rows: ...]; an exception leaves the loop. *)
Fixpoint run_loop (f : acc -> PDTicket -> Py.result acc) (st : acc)
    (rows : list PDTicket) : Py.result acc :=
  match rows with
  | [] => Py.Ok st
  | r :: rest =>
      match f st r with
      | Py.Ok st' => run_loop f st' rest
      | e => e
      end
  end.

Definition init (n_buckets : nat) : acc := {|
  pr_keys := [];
  per_pr_ach := ∅;
  per_pr_bre := ∅;
  closed_ach_series := replicate n_buckets 0;
  closed_bre_series := replicate n_buckets 0;
  closed := 0;
  achieved_closed := 0;
  breached_closed := 0;
  open_ := 0;
  open_within := 0;
  open_breach := 0;
  samples := [] |}.

(** [round(a/c*100.0, 1) if c else 0.0] *)
Definition rate (a c : Z) : Q :=
  if c =? 0 then 0 else Py.round (inject_Z a / inject_Z c * 100) 1.

(** [samples.sort(key=lambda s: s["overdue_h"], reverse=True)] *)
Definition sort_samples : list sample -> list sample :=
  sort_by (fun a b => Qle_bool (overdue_h b) (overdue_h a)).

(** [rules.get(k, SLA_RULES_DEFAULT[k])] for the five tiers. *)
Definition by_priority_hours (rules : gmap string Z) : list (string * Z) :=
  map (fun k => (k, default (default 0 (SLA_RULES_DEFAULT !! k)) (rules !! k)))
    ["p1"; "p2"; "p3"; "p4"; "__default__"].

Definition _query_sla_achievement (db : list PDTicket) (now : datetime)
    (params : Params.t) : Py.result report :=
  let interval := Params.interval_or_day params in
  let rules := _compose_rules_from_params params in
  let rows := query_rows db params in
  let total := Z.of_nat (length rows) in
  bucket_starts ←
    _iter_buckets (Params.date_from params) (Params.date_to params) interval;
  st ← run_loop (step rules interval bucket_starts now)
         (init (length bucket_starts)) rows;
  let breached_samples := take 50 (sort_samples (samples st)) in
  let _total_for_pr (pr : string) :=
    default 0 (per_pr_ach st !! pr) + default 0 (per_pr_bre st !! pr) in
  let pr_keys :=
    sort_by (fun a b => _total_for_pr b <=? _total_for_pr a) (pr_keys st) in
  let kpi := {|
    kpi_total := total;
    kpi_closed := closed st;
    kpi_open := open_ st;
    kpi_achieved_closed := achieved_closed st;
    kpi_breached_closed := breached_closed st;
    kpi_achieve_rate_closed := rate (achieved_closed st) (closed st);
    kpi_achieved_all_now := achieved_closed st + open_within st;
    kpi_achieve_rate_all_now :=
      rate (achieved_closed st + open_within st) total;
    kpi_open_within_sla := open_within st;
    kpi_open_breach := open_breach st |} in
  let rate_series :=
    zip_with (fun a b => rate a (a + b))
      (closed_ach_series st) (closed_bre_series st) in
  Py.Ok {|
    r_kpi := kpi;
    pie_counts := [achieved_closed st; breached_closed st];
    bar_labels := pr_keys;
    bar_achieved := map (fun pr => default 0 (per_pr_ach st !! pr)) pr_keys;
    bar_breached := map (fun pr => default 0 (per_pr_bre st !! pr)) pr_keys;
    trend_labels := bucket_starts;
    trend_closed_achieved := closed_ach_series st;
    trend_closed_breached := closed_bre_series st;
    trend_rate := rate_series;
    breached_samples := breached_samples;
    rules_by_priority_hours := by_priority_hours rules |}.

(** The classification in the words of the specification: a ticket is
    closed when its status matches a completion keyword and [update_dt]
    is present; a closed ticket is achieved when its turnaround hours are
    at most the resolved target hours. *)
Definition is_closed (r : PDTicket) : bool :=
  _is_done (ticket_status r) &&
  match update_dt r with
  | Some _ => true
  | None => false
  end.

Definition turnaround_hours (r : PDTicket) : Q :=
  match update_dt r with
  | Some u => Qmax 0 (total_seconds u (create_dt r) / 3600)
  | None => 0
  end.

Definition within_target (rules : gmap string Z) (r : PDTicket) : bool :=
  match _target_hours (ticket_priority r) rules with
  | Py.Ok tgt => Qle_bool (turnaround_hours r) (inject_Z tgt)
  | _ => false
  end.

(** The number of rows that pass a test. *)
Definition count_rows (f : PDTicket -> bool) (rows : list PDTicket) : Z :=
  Z.of_nat (length (List.filter f rows)).

(** The datetimes of a stored ticket are dates of the calendar. *)
Definition ticket_valid (r : PDTicket) : Prop :=
  valid_datetime (create_dt r) = true /\
  forall u, update_dt r = Some u -> valid_datetime u = true.

(** No hours field of a sample is negative. *)
Definition sample_ok (s : sample) : Prop :=
  0 <= target_h s /\ (0 <= tat_h s)%Q /\ (0 <= overdue_h s)%Q.

End ReportsSla.

(** ** Overdue tickets: [_query_overdue] of [reports_sla_overdue.py] *)

Module ReportsSlaOverdue.
Import Calendar Models Rules Done Buckets.

Record sample : Type := {
  s_ticket_no : string;
  s_ticket_name : string;
  s_priority : string;
  s_status : string;
  s_created_at : datetime;
  s_resolved_at : option datetime;
  target_h : Z;
  tat_h : Q;
  overdue_h : Q
}.

Record acc : Type := {
  pr_list : list string;
  per_pr_open : gmap string Z;
  per_pr_closed : gmap string Z;
  trend_open_bre : list Z;
  trend_closed_bre : list Z;
  overdue_open : Z;
  overdue_closed : Z;
  samples : list sample
}.

Record report : Type := {
  kpi_overdue_total : Z;
  kpi_overdue_open : Z;
  kpi_overdue_closed : Z;
  bar_labels : list string;
  bar_open_breached : list Z;
  bar_closed_breached : list Z;
  trend_labels : list date;
  trend_open_breached : list Z;
  trend_closed_breached : list Z;
  trend_total : list Z;
  top_samples : list sample;
  rules_by_priority_hours : list (string * Z)
}.

(** The body of [for r in rows]. *)
Definition step (rules : gmap string Z) (interval : string)
    (buckets : list date) (now : datetime) (st : acc) (r : PDTicket)
    : Py.result acc :=
  tgt_h ← _target_hours (ticket_priority r) rules;
  let pr := ReportsSla.priority_key (ticket_priority r) in
  let pr_list' :=
    if Py.str_in pr (pr_list st) then pr_list st else pr_list st ++ [pr] in
  match ReportsSla.closed_at r with
  | Some u =>
      let tat_h_ := ReportsSla.hours_between u (create_dt r) in
      if Py.gtb tat_h_ (inject_Z tgt_h) then
        b ← _bucket_key u interval;
        Py.Ok {|
          pr_list := pr_list';
          per_pr_open := per_pr_open st;
          per_pr_closed := ReportsSla.count_up pr (per_pr_closed st);
          trend_open_bre := trend_open_bre st;
          trend_closed_bre := bump buckets b (trend_closed_bre st);
          overdue_open := overdue_open st;
          overdue_closed := overdue_closed st + 1;
          samples := samples st ++ [{|
            s_ticket_no := ticket_no r;
            s_ticket_name := ticket_name r;
            s_priority := Py.or_empty (ticket_priority r);
            s_status := Py.or_empty (ticket_status r);
            s_created_at := create_dt r;
            s_resolved_at := Some u;
            target_h := tgt_h;
            tat_h := Py.round tat_h_ 2;
            overdue_h := Py.round (tat_h_ - inject_Z tgt_h) 2 |}] |}
      else
        Py.Ok {|
          pr_list := pr_list';
          per_pr_open := per_pr_open st;
          per_pr_closed := per_pr_closed st;
          trend_open_bre := trend_open_bre st;
          trend_closed_bre := trend_closed_bre st;
          overdue_open := overdue_open st;
          overdue_closed := overdue_closed st;
          samples := samples st |}
  | None =>
      let age_h := ReportsSla.hours_between now (create_dt r) in
      if Py.gtb age_h (inject_Z tgt_h) then
        b ← _bucket_key (create_dt r) interval;
        Py.Ok {|
          pr_list := pr_list';
          per_pr_open := ReportsSla.count_up pr (per_pr_open st);
          per_pr_closed := per_pr_closed st;
          trend_open_bre := bump buckets b (trend_open_bre st);
          trend_closed_bre := trend_closed_bre st;
          overdue_open := overdue_open st + 1;
          overdue_closed := overdue_closed st;
          samples := samples st ++ [{|
            s_ticket_no := ticket_no r;
            s_ticket_name := ticket_name r;
            s_priority := Py.or_empty (ticket_priority r);
            s_status := Py.or_empty (ticket_status r);
            s_created_at := create_dt r;
            s_resolved_at := None;
            target_h := tgt_h;
            tat_h := Py.round age_h 2;
            overdue_h := Py.round (age_h - inject_Z tgt_h) 2 |}] |}
      else
        Py.Ok {|
          pr_list := pr_list';
          per_pr_open := per_pr_open st;
          per_pr_closed := per_pr_closed st;
          trend_open_bre := trend_open_bre st;
          trend_closed_bre := trend_closed_bre st;
          overdue_open := overdue_open st;
          overdue_closed := overdue_closed st;
          samples := samples st |}
  end.

Fixpoint run_loop (f : acc -> PDTicket -> Py.result acc) (st : acc)
    (rows : list PDTicket) : Py.result acc :=
  match rows with
  | [] => Py.Ok st
  | r :: rest =>
      match f st r with
      | Py.Ok st' => run_loop f st' rest
      | e => e
      end
  end.

Definition init (n_buckets : nat) : acc := {|
  pr_list := [];
  per_pr_open := ∅;
  per_pr_closed := ∅;
  trend_open_bre := replicate n_buckets 0;
  trend_closed_bre := replicate n_buckets 0;
  overdue_open := 0;
  overdue_closed := 0;
  samples := [] |}.

(** [samples.sort(key=lambda s: s["overdue_h"], reverse=True)] *)
Definition sort_samples : list sample -> list sample :=
  sort_by (fun a b => Qle_bool (overdue_h b) (overdue_h a)).

Definition _query_overdue (db : list PDTicket) (now : datetime)
    (params : Params.t) : Py.result report :=
  let interval := Params.interval_or_day params in
  let rules := _compose_rules_from_params params in
  let rows := ReportsSla.query_rows db params in
  buckets ←
    _iter_buckets (Params.date_from params) (Params.date_to params) interval;
  st ← run_loop (step rules interval buckets now)
         (init (length buckets)) rows;
  let top_samples := take 50 (sort_samples (samples st)) in
  let _total (pr : string) :=
    default 0 (per_pr_open st !! pr) + default 0 (per_pr_closed st !! pr) in
  let pr_list := sort_by (fun a b => _total b <=? _total a) (pr_list st) in
  Py.Ok {|
    kpi_overdue_total := overdue_open st + overdue_closed st;
    kpi_overdue_open := overdue_open st;
    kpi_overdue_closed := overdue_closed st;
    bar_labels := pr_list;
    bar_open_breached :=
      map (fun p => default 0 (per_pr_open st !! p)) pr_list;
    bar_closed_breached :=
      map (fun p => default 0 (per_pr_closed st !! p)) pr_list;
    trend_labels := buckets;
    trend_open_breached := trend_open_bre st;
    trend_closed_breached := trend_closed_bre st;
    trend_total := zip_with Z.add (trend_open_bre st) (trend_closed_bre st);
    top_samples := top_samples;
    rules_by_priority_hours := ReportsSla.by_priority_hours rules |}.

(** No hours field of a sample is negative. *)
Definition sample_ok (s : sample) : Prop :=
  0 <= target_h s /\ (0 <= tat_h s)%Q /\ (0 <= overdue_h s)%Q.

End ReportsSlaOverdue.

(** ** Ticket and project reports: [reports_ticket.py] *)

Module ReportsTicket.
Import Calendar Models Done.

(** [_percentile(values, p)] *)
Definition _percentile (values : list Q) (p : Q) : Py.result Q :=
  match values with
  | [] => Py.Ok 0%Q
  | _ =>
      let s := sort_by Qle_bool values in
      let k := (inject_Z (Z.of_nat (length s) - 1) * p)%Q in
      let f := Py.trunc k in
      let c := Z.min (f + 1) (Z.of_nat (length s) - 1) in
      if f =? c then Py.index s (Py.trunc k)
      else
        sf ← Py.index s f;
        sc ← Py.index s c;
        Py.Ok (sf + (sc - sf) * (k - inject_Z f))%Q
  end.

(** [_pctile(v, p)], the local copy inside [_query_projects_overview]. *)
Definition _pctile (v : list Q) (p : Q) : Py.result Q :=
  match v with
  | [] => Py.Ok 0%Q
  | _ =>
      let s := sort_by Qle_bool v in
      let k := (inject_Z (Z.of_nat (length s) - 1) * p)%Q in
      let f := Py.trunc k in
      let c := Z.min (f + 1) (Z.of_nat (length s) - 1) in
      if f =? c then Py.index s f
      else
        sf ← Py.index s f;
        sc ← Py.index s c;
        Py.Ok (sf + (sc - sf) * (k - inject_Z f))%Q
  end.

(** The percentile in the words of the specification: on the ascending
    values [s], the value at the virtual index [k] lies between
    [s[floor k]] and the next element, in proportion to the fraction of
    [k]. *)
Definition interpolate (s : list Q) (k : Q) : Q :=
  let n := Z.of_nat (length s) in
  let f := Qfloor k in
  let c := Z.min (f + 1) (n - 1) in
  if f =? c then nth (Z.to_nat f) s 0%Q
  else (nth (Z.to_nat f) s 0 +
        (nth (Z.to_nat c) s 0 - nth (Z.to_nat f) s 0) * (k - inject_Z f))%Q.

Definition percentile_spec (values : list Q) (p : Q) : Q :=
  match values with
  | [] => 0%Q
  | _ =>
      let s := sort_by Qle_bool values in
      interpolate s (inject_Z (Z.of_nat (length s) - 1) * p)
  end.

(** *** Handling efficiency: [_query_efficiency] *)

(** [(lo, hi, label)]; [None] is [float("inf")]. *)
Definition _BUCKETS : list (Z * option Z * string) :=
  [(0, Some (60 * 60), "< 1 小時");
   (60 * 60, Some (4 * 60 * 60), "1–4 小時");
   (4 * 60 * 60, Some (8 * 60 * 60), "4–8 小時");
   (8 * 60 * 60, Some (24 * 60 * 60), "8–24 小時");
   (24 * 60 * 60, Some (3 * 24 * 60 * 60), "1–3 天");
   (3 * 24 * 60 * 60, Some (7 * 24 * 60 * 60), "3–7 天");
   (7 * 24 * 60 * 60, None, "≥ 7 天")].

(** [lo <= sec < hi] *)
Definition in_bucket (sec : Q) (b : Z * option Z * string) : bool :=
  let '(lo, hi, _) := b in
  Qle_bool (inject_Z lo) sec &&
  match hi with
  | Some h => Py.gtb (inject_Z h) sec
  | None => true
  end.

(** The [for i, (lo, hi, _) in enumerate(_BUCKETS)] loop with its
    [break]. *)
Fixpoint count_in_bucket (sec : Q) (i : nat)
    (bs : list (Z * option Z * string)) (bucket_counts : list Z) : list Z :=
  match bs with
  | [] => bucket_counts
  | b :: rest =>
      if in_bucket sec b then alter Z.succ i bucket_counts
      else count_in_bucket sec (S i) rest bucket_counts
  end.

Record eff_sample : Type := {
  e_ticket_sid : Z;
  e_ticket_no : string;
  e_ticket_name : string;
  e_project_sid : Z;
  e_created_at : datetime;
  e_resolved_at : datetime;
  resolved_hours : Q
}.

Record eff_acc : Type := {
  done_secs : list Q;
  bucket_counts : list Z;
  samples : list eff_sample
}.

Record eff_kpi : Type := {
  done_count : Z;
  avg_hours : Q;
  median_hours : Q;
  p90_hours : Q;
  open_count : Z;
  open_avg_age_hours : Q
}.

Record eff_report : Type := {
  eff_buckets : list (string * Z * Q);
  eff_series : list Z;
  eff_kpi_ : eff_kpi;
  eff_samples : list eff_sample
}.

(** [q_done]: active tickets updated in [[date_from, date_to]], newest
    update first, at most 2000.  A row without [update_dt] fails both
    comparisons. *)
Definition q_done (db : list PDTicket) (params : Params.t)
    : list (datetime * PDTicket) :=
  take 2000
    (sort_by (fun a b => datetime_leb (fst b) (fst a))
       (omap (fun r =>
          match update_dt r with
          | Some u =>
              if (status r =? 1) &&
                 datetime_leb (Params.date_from params) u &&
                 datetime_leb u (Params.date_to params) &&
                 Params.project_filter params r
              then Some (u, r) else None
          | None => None
          end) db)).

(** The body of [for row in q_done...]. *)
Definition eff_step (st : eff_acc) (ur : datetime * PDTicket) : eff_acc :=
  let '(u, row) := ur in
  if negb (_is_done (ticket_status row)) then st
  else
    let sec := total_seconds u (create_dt row) in
    if Py.gtb 0 sec then st
    else {|
      done_secs := done_secs st ++ [sec];
      bucket_counts := count_in_bucket sec 0 _BUCKETS (bucket_counts st);
      samples :=
        if (length (samples st) <? 50)%nat then
          samples st ++ [{|
            e_ticket_sid := ticket_sid row;
            e_ticket_no := ticket_no row;
            e_ticket_name := ticket_name row;
            e_project_sid := project_sid row;
            e_created_at := create_dt row;
            e_resolved_at := u;
            resolved_hours := Py.round (sec / 3600) 2 |}]
        else samples st |}.

(** [sum(l)] on floats. *)
Definition Qsum (l : list Q) : Q := fold_left Qplus l 0%Q.

(** The ages of the tickets of [q_open] that are not done, kept when
    [age >= 0]. *)
Definition open_secs (db : list PDTicket) (now : datetime)
    (params : Params.t) : list Q :=
  omap (fun r =>
    if _is_done (ticket_status r) then None
    else
      let age := total_seconds now (create_dt r) in
      if Qle_bool 0 age then Some age else None)
    (List.filter (ReportsSla.in_sample params) db).

Definition _query_efficiency (db : list PDTicket) (now : datetime)
    (params : Params.t) : Py.result eff_report :=
  let st := fold_left eff_step (q_done db params) {|
    done_secs := [];
    bucket_counts := replicate (length _BUCKETS) 0;
    samples := [] |} in
  let done_count := Z.of_nat (length (done_secs st)) in
  let avg_hours :=
    if done_count =? 0 then 0%Q
    else Py.round (Qsum (done_secs st) / inject_Z done_count / 3600) 2 in
  median ← (if done_count =? 0 then Py.Ok 0%Q
            else m ← _percentile (done_secs st) (1 # 2);
                 Py.Ok (Py.round (m / 3600) 2));
  p90 ← (if done_count =? 0 then Py.Ok 0%Q
         else m ← _percentile (done_secs st) (9 # 10);
              Py.Ok (Py.round (m / 3600) 2));
  let open_secs := open_secs db now params in
  let open_count := Z.of_nat (length open_secs) in
  let open_avg_age_hours :=
    if open_count =? 0 then 0%Q
    else Py.round (Qsum open_secs / inject_Z open_count / 3600) 2 in
  let total_for_pct := if done_count =? 0 then 1 else done_count in
  Py.Ok {|
    eff_buckets :=
      zip_with (fun b n =>
        (snd b, n, Py.round (inject_Z n / inject_Z total_for_pct * 100) 2))
        _BUCKETS (bucket_counts st);
    eff_series := bucket_counts st;
    eff_kpi_ := {|
      done_count := done_count;
      avg_hours := avg_hours;
      median_hours := median;
      p90_hours := p90;
      open_count := open_count;
      open_avg_age_hours := open_avg_age_hours |};
    eff_samples := samples st |}.

(** *** Category distribution: [_query_project_category] *)

(** [_done_sql_expr()]: [lower(ticket_status) LIKE '%k%'] for some
    keyword; [NULL] matches nothing. *)
Definition _done_sql_expr (r : PDTicket) : bool :=
  match ticket_status r with
  | Some s =>
      existsb (fun k => Py.contains k (Py.lower s)) _DONE_KEYWORDS_LOWER
  | None => false
  end.

(** The [type_group] of the joined [PDType] row, [None] when the outer
    join finds none. *)
Definition joined_type_group (types : list PDType) (r : PDTicket)
    : option string :=
  match ticket_type r with
  | Some sid =>
      match List.find (fun t => type_sid t =? sid) types with
      | Some t => type_group t
      | None => None
      end
  | None => None
  end.

(** [if type_group:] with the filter it guards. *)
Definition type_group_filter (types : list PDType) (params : Params.t)
    (r : PDTicket) : bool :=
  match Params.type_group params with
  | Some EmptyString | None => true
  | Some g =>
      match joined_type_group types r with
      | Some g' => String.eqb g' g
      | None => false
      end
  end.

(** The filter of [base]: tickets created in the period. *)
Definition in_base (types : list PDType) (params : Params.t)
    (r : PDTicket) : bool :=
  (status r =? 1) &&
  datetime_leb (Params.date_from params) (create_dt r) &&
  datetime_leb (create_dt r) (Params.date_to params) &&
  Params.project_filter params r &&
  type_group_filter types params r.

(** [PDTicket.update_dt <= date_to]; [NULL] fails it. *)
Definition updated_by (date_to : datetime) (r : PDTicket) : bool :=
  match update_dt r with
  | Some u => datetime_leb u date_to
  | None => false
  end.

(** The filter of [closed_q]. *)
Definition in_closed (types : list PDType) (params : Params.t)
    (r : PDTicket) : bool :=
  in_base types params r &&
  updated_by (Params.date_to params) r &&
  _done_sql_expr r.

Definition type_eqb (a b : option Z) : bool :=
  match a, b with
  | Some x, Some y => x =? y
  | None, None => true
  | _, _ => false
  end.

(** [COUNT(ticket_sid)] of one group. *)
Definition count_type (sid : option Z) (rows : list PDTicket) : Z :=
  Z.of_nat (length (List.filter (fun r => type_eqb (ticket_type r) sid) rows)).

(** [GROUP BY ticket_type] with the count of each group.  The database
    chooses the order of the groups; here it is that of the last ticket of
    each type. *)
Definition group_by_type (rows : list PDTicket) : list (option Z * Z) :=
  map (fun sid => (sid, count_type sid rows))
    (remove_dups (map ticket_type rows)).

(** [d.get(k, dflt)] for a dictionary built from rows with distinct
    keys. *)
Definition dict_get {V} (d : list (option Z * V)) (k : option Z) (dflt : V)
    : V :=
  match List.find (fun kv => type_eqb (fst kv) k) d with
  | Some kv => snd kv
  | None => dflt
  end.

Record cat_row : Type := {
  c_type_sid : option Z;
  c_type_name : string;
  c_count : Z;
  c_percent : Q;
  c_open : Z;
  c_closed : Z
}.

Record cat_report : Type := {
  pie_labels : list string;
  pie_counts : list Z;
  stack_open : list Z;
  stack_closed : list Z;
  cat_total : Z;
  cat_categories : Z;
  cat_top_label : string;
  cat_top_count : Z;
  cat_top_pct : Q;
  cat_closed_pct : Q;
  cat_rows : list cat_row
}.

(** [name_map]: the names of the types met in [base_rows]. *)
Definition name_map (types : list PDType) (sid : option Z) : string :=
  match sid with
  | Some i =>
      match List.find (fun t => type_sid t =? i) types with
      | Some t => type_name t
      | None => "未分類"
      end
  | None => "未分類"
  end.

(** [round(a/total*100.0, n) if total else 0.0] *)
Definition pct (a total : Z) (n : nat) : Q :=
  if total =? 0 then 0%Q
  else Py.round (inject_Z a / inject_Z total * 100) n.

Definition _query_project_category (db : list PDTicket)
    (types : list PDType) (params : Params.t) : cat_report :=
  let base_rows := group_by_type (List.filter (in_base types params) db) in
  match base_rows with
  | [] => {|
      pie_labels := []; pie_counts := [];
      stack_open := []; stack_closed := [];
      cat_total := 0; cat_categories := 0;
      cat_top_label := ""; cat_top_count := 0; cat_top_pct := 0;
      cat_closed_pct := 0; cat_rows := [] |}
  | _ =>
      let closed_rows :=
        group_by_type (List.filter (in_closed types params) db) in
      let total := fold_left Z.add (map snd base_rows) 0 in
      let counts_map := base_rows in
      let closed_map := closed_rows in
      let all_keys :=
        sort_by (fun a b => dict_get counts_map b 0 <=? dict_get counts_map a 0)
          (map fst counts_map) in
      let rows := map (fun sid =>
        let cnt := dict_get counts_map sid 0 in
        let cls := dict_get closed_map sid 0 in
        {| c_type_sid := sid;
           c_type_name := name_map types sid;
           c_count := cnt;
           c_percent := pct cnt total 2;
           c_open := Z.max (cnt - cls) 0;
           c_closed := cls |}) all_keys in
      let top := fold_left (fun (t : string * Z) (row : cat_row) =>
        if snd t <? c_count row then (c_type_name row, c_count row) else t)
        rows ("", 0) in
      let closed_total := fold_left Z.add (map c_closed rows) 0 in
      {| pie_labels := map c_type_name rows;
         pie_counts := map c_count rows;
         stack_open := map c_open rows;
         stack_closed := map c_closed rows;
         cat_total := total;
         cat_categories := Z.of_nat (length all_keys);
         cat_top_label := fst top;
         cat_top_count := snd top;
         cat_top_pct := pct (snd top) total 1;
         cat_closed_pct := pct closed_total total 1;
         cat_rows := rows |}
  end.

(** *** Project progress: the open tickets of [_query_project_progress] *)

(** [~db.func.lower(PDTicket.ticket_status).in_(_DONE_KEYWORDS_LOWER)];
    [NULL] passes no filter. *)
Definition not_in_done_keywords (r : PDTicket) : bool :=
  match ticket_status r with
  | Some s => negb (Py.str_in (Py.lower s) _DONE_KEYWORDS_LOWER)
  | None => false
  end.

(** The filter shared by the [open_now] count and the [open_rows]
    query. *)
Definition is_open_now (project_sid_ : Z) (r : PDTicket) : bool :=
  (status r =? 1) && (project_sid r =? project_sid_) &&
  not_in_done_keywords r.

(** The [open_now] KPI. *)
Definition open_now (db : list PDTicket) (project_sid_ : Z) : Z :=
  Z.of_nat (length (List.filter (is_open_now project_sid_) db)).

(** [open_rows]: the twenty oldest open tickets. *)
Definition open_rows (db : list PDTicket) (project_sid_ : Z)
    : list PDTicket :=
  take 20
    (sort_by (fun a b => datetime_leb (create_dt a) (create_dt b))
       (List.filter (is_open_now project_sid_) db)).

(** [closed_rows] and [closed_items]: the twenty tickets updated last in
    the period, those of them that are done, with their lead time. *)
Record closed_item : Type := {
  ci_ticket_sid : Z;
  ci_ticket_no : string;
  ci_ticket_name : string;
  ci_created_at : datetime;
  ci_closed_at : datetime;
  lead_hours : Q
}.

Definition closed_rows (db : list PDTicket) (project_sid_ : Z)
    (date_from date_to : datetime) : list (datetime * PDTicket) :=
  take 20
    (sort_by (fun a b => datetime_leb (fst b) (fst a))
       (omap (fun r =>
          match update_dt r with
          | Some u =>
              if (status r =? 1) && (project_sid r =? project_sid_) &&
                 datetime_leb date_from u && datetime_leb u date_to
              then Some (u, r) else None
          | None => None
          end) db)).

Definition closed_items (db : list PDTicket) (project_sid_ : Z)
    (date_from date_to : datetime) : list closed_item :=
  omap (fun ur : datetime * PDTicket =>
    let '(u, r) := ur in
    if negb (_is_done (ticket_status r)) then None
    else
      let hrs := (total_seconds u (create_dt r) / 3600)%Q in
      Some {|
        ci_ticket_sid := ticket_sid r;
        ci_ticket_no := ticket_no r;
        ci_ticket_name := ticket_name r;
        ci_created_at := create_dt r;
        ci_closed_at := u;
        lead_hours := Py.round hrs 2 |})
    (closed_rows db project_sid_ date_from date_to).

(** The invariant of the loop of [_query_efficiency]. *)
Definition eff_ok (st : eff_acc) : Prop :=
  Forall Py.nonneg (done_secs st) /\
  Forall (fun s => Py.nonneg (resolved_hours s)) (samples st).


End ReportsTicket.

(** ** Sample data *)

Module Examples.
Import Calendar Models.

Definition at_ (y m d h mi : Z) : datetime := Datetime (Date y m d) h mi 0 0.

(** What [_parse_date(s, end=True)] makes of a day. *)
Definition end_of (y m d : Z) : datetime :=
  Datetime (Date y m d) 23 59 59 999999.

Definition ticket (sid : Z) (priority : option string) (status_ : string)
    (created : datetime) (updated : option datetime) : PDTicket := {|
  ticket_sid := sid;
  project_sid := 1;
  ticket_name := "ticket";
  ticket_no := "T";
  ticket_type := Some 1;
  ticket_status := Some status_;
  ticket_priority := priority;
  status := 1;
  create_dt := created;
  update_dt := updated |}.

Definition request (date_from date_to : datetime) (interval : string)
    : Params.t := {|
  Params.project_sid := Some 1;
  Params.date_from := date_from;
  Params.date_to := date_to;
  Params.interval := Some interval;
  Params.type_group := None;
  Params.p1h := Py.VNone;
  Params.p2h := Py.VNone;
  Params.p3h := Py.VNone;
  Params.p4h := Py.VNone;
  Params.defh := Py.VNone |}.

Definition first_days : Params.t :=
  request (at_ 2024 1 1 0 0) (end_of 2024 1 3) "day".

Definition now_ : datetime := at_ 2024 1 11 0 0.

(** Scenarios A, B and C of the specification. *)
Definition scenarios : list PDTicket :=
  [ticket 1 (Some "p1") "Closed" (at_ 2024 1 1 0 0) (Some (at_ 2024 1 1 2 0));
   ticket 2 (Some "P1") "closed" (at_ 2024 1 1 0 0) (Some (at_ 2024 1 1 6 0));
   ticket 3 None "open" (at_ 2024 1 1 0 0) None].

(** Two tickets that breach their target by the same two hours. *)
Definition tied : list PDTicket :=
  [ticket 1 (Some "p1") "closed" (at_ 2024 1 1 0 0) (Some (at_ 2024 1 1 6 0));
   ticket 2 (Some "p1") "closed" (at_ 2024 1 2 0 0) (Some (at_ 2024 1 2 6 0))].

(** A done ticket whose update is stamped an hour before its creation. *)
Definition skewed : list PDTicket :=
  [ticket 1 (Some "p1") "closed" (at_ 2024 1 2 10 0) (Some (at_ 2024 1 2 9 0))].

(** A ticket of January closed in February, and one whose status holds a
    keyword without being one. *)
Definition closed_late : PDTicket :=
  ticket 1 (Some "p2") "done" (at_ 2024 1 2 0 0) (Some (at_ 2024 2 5 0 0)).

Definition verified : PDTicket :=
  ticket 2 (Some "p2") "Closed - Verified" (at_ 2024 1 2 0 0)
    (Some (at_ 2024 1 2 5 0)).

Definition override (v : Py.value) : Params.t := {|
  Params.project_sid := Some 1;
  Params.date_from := at_ 2024 1 1 0 0;
  Params.date_to := end_of 2024 1 3;
  Params.interval := Some "day";
  Params.type_group := None;
  Params.p1h := v;
  Params.p2h := Py.VNone;
  Params.p3h := Py.VNone;
  Params.p4h := Py.VNone;
  Params.defh := Py.VNone |}.

End Examples.

(** ** Creation and completion trend: [_query_trend] of [reports_ticket.py] *)

Module Trend.
Import Calendar Models Done Buckets.

(** [for dt in ...: key = _bucket_key(dt, interval);
     if key in idx: series[idx[key]] += 1] *)
Fixpoint fill_series (interval : string) (bucket_starts : list date)
    (dts : list datetime) (series : list Z) : Py.result (list Z) :=
  match dts with
  | [] => Py.Ok series
  | dt :: rest =>
      key ← _bucket_key dt interval;
      fill_series interval bucket_starts rest (bump bucket_starts key series)
  end.

(** The rows of [q_new]: the creation times of the sample tickets. *)
Definition q_new (db : list PDTicket) (params : Params.t) : list datetime :=
  map create_dt (List.filter (ReportsSla.in_sample params) db).

(** The filter of [q_close]: active tickets updated in
    [[date_from, date_to]]; a row without [update_dt] fails it. *)
Definition in_close (params : Params.t) (r : PDTicket) : bool :=
  match update_dt r with
  | Some u =>
      (status r =? 1) &&
      datetime_leb (Params.date_from params) u &&
      datetime_leb u (Params.date_to params) &&
      Params.project_filter params r
  | None => false
  end.

(** The rows of [q_close] that pass [if not _is_done(st): continue]. *)
Definition q_close_done (db : list PDTicket) (params : Params.t)
    : list datetime :=
  omap (fun r => if _is_done (ticket_status r) then update_dt r else None)
    (List.filter (in_close params) db).

(** The returned payload.  The labels are the bucket starts themselves
    (the source formats them with [_format_label]); the two series are
    kept without their names. *)
Record report : Type := {
  labels : list date;
  created_series : list Z;
  closed_series : list Z;
  totals_created : Z;
  totals_closed : Z
}.

Definition _query_trend (db : list PDTicket) (params : Params.t)
    : Py.result report :=
  let interval := Params.interval_or_day params in
  bucket_starts ←
    _iter_buckets (Params.date_from params) (Params.date_to params) interval;
  let zeros := replicate (length bucket_starts) 0 in
  created ← fill_series interval bucket_starts (q_new db params) zeros;
  closed ← fill_series interval bucket_starts (q_close_done db params) zeros;
  Py.Ok {|
    labels := bucket_starts;
    created_series := created;
    closed_series := closed;
    totals_created := Py.sum created;
    totals_closed := Py.sum closed |}.

(** A valid datetime of the period. *)
Definition in_range (date_from date_to dt : datetime) : Prop :=
  valid_datetime dt = true /\
  datetime_leb date_from dt = true /\ datetime_leb dt date_to = true.

End Trend.

(** ** Loop invariants of the two SLA reports *)

Module SlaInvariants.
Import Calendar Models Rules Done Buckets.

(** [[d.get(k, 0) for k in keys]] *)
Definition bar_of (d : gmap string Z) (keys : list string) : list Z :=
  map (fun k => default 0 (d !! k)) keys.

(** The priority list and one of the per-priority dictionaries: the keys
    are listed once, every counted key is listed, and the counts add up to
    [total]. *)
Definition bar_ok (keys : list string) (d : gmap string Z) (total : Z)
    : Prop :=
  (forall k, ~ In k keys -> d !! k = None) /\
  Py.sum (bar_of d keys) = total.

(** A trend series: one slot per bucket, no slot negative. *)
Definition series_ok (n : nat) (s : list Z) : Prop :=
  length s = n /\ Forall (fun x => 0 <= x) s.

(** [_query_sla_achievement] after [seen] rows. *)
Definition ach_inv (n : nat) (seen : Z) (st : ReportsSla.acc) : Prop :=
  ReportsSla.closed st + ReportsSla.open_ st = seen /\
  ReportsSla.closed st =
    ReportsSla.achieved_closed st + ReportsSla.breached_closed st /\
  ReportsSla.open_ st = ReportsSla.open_within st + ReportsSla.open_breach st /\
  Z.of_nat (length (ReportsSla.samples st)) =
    ReportsSla.breached_closed st + ReportsSla.open_breach st /\
  (0 <= ReportsSla.achieved_closed st /\ 0 <= ReportsSla.breached_closed st /\
   0 <= ReportsSla.open_within st /\ 0 <= ReportsSla.open_breach st) /\
  series_ok n (ReportsSla.closed_ach_series st) /\
  series_ok n (ReportsSla.closed_bre_series st) /\
  Py.sum (ReportsSla.closed_ach_series st) <= ReportsSla.achieved_closed st /\
  Py.sum (ReportsSla.closed_bre_series st) <= ReportsSla.breached_closed st /\
  NoDup (ReportsSla.pr_keys st) /\
  bar_ok (ReportsSla.pr_keys st) (ReportsSla.per_pr_ach st)
    (ReportsSla.achieved_closed st) /\
  bar_ok (ReportsSla.pr_keys st) (ReportsSla.per_pr_bre st)
    (ReportsSla.breached_closed st).

(** [_query_overdue] in the course of its loop. *)
Definition ovd_inv (n : nat) (st : ReportsSlaOverdue.acc) : Prop :=
  Z.of_nat (length (ReportsSlaOverdue.samples st)) =
    ReportsSlaOverdue.overdue_open st + ReportsSlaOverdue.overdue_closed st /\
  (0 <= ReportsSlaOverdue.overdue_open st /\
   0 <= ReportsSlaOverdue.overdue_closed st) /\
  series_ok n (ReportsSlaOverdue.trend_open_bre st) /\
  series_ok n (ReportsSlaOverdue.trend_closed_bre st) /\
  Py.sum (ReportsSlaOverdue.trend_open_bre st) =
    ReportsSlaOverdue.overdue_open st /\
  Py.sum (ReportsSlaOverdue.trend_closed_bre st) <=
    ReportsSlaOverdue.overdue_closed st /\
  NoDup (ReportsSlaOverdue.pr_list st) /\
  bar_ok (ReportsSlaOverdue.pr_list st) (ReportsSlaOverdue.per_pr_open st)
    (ReportsSlaOverdue.overdue_open st) /\
  bar_ok (ReportsSlaOverdue.pr_list st) (ReportsSlaOverdue.per_pr_closed st)
    (ReportsSlaOverdue.overdue_closed st).

(** [if pr not in keys: keys.append(pr)] *)
Definition with_key (pr : string) (keys : list string) : list string :=
  if Py.str_in pr keys then keys else keys ++ [pr].

(** What the two reports show of a sample: the ticket, its target, its
    hours so far and the hours over the target. *)
Definition ach_view (s : ReportsSla.sample) : string * Z * Q * Q :=
  (ReportsSla.s_ticket_no s, ReportsSla.target_h s, ReportsSla.tat_h s,
   ReportsSla.overdue_h s).

Definition ovd_view (s : ReportsSlaOverdue.sample) : string * Z * Q * Q :=
  (ReportsSlaOverdue.s_ticket_no s, ReportsSlaOverdue.target_h s,
   ReportsSlaOverdue.tat_h s, ReportsSlaOverdue.overdue_h s).

Definition agree (a : ReportsSla.acc) (o : ReportsSlaOverdue.acc) : Prop :=
  ReportsSla.breached_closed a = ReportsSlaOverdue.overdue_closed o /\
  ReportsSla.open_breach a = ReportsSlaOverdue.overdue_open o /\
  map ach_view (ReportsSla.samples a) =
    map ovd_view (ReportsSlaOverdue.samples o).

End SlaInvariants.

(** ** More sample data *)

Module Samples.
Import Calendar Models.

(** A request that overrides [p3h] and, with a string, [defh]. *)
Definition tiers : Params.t := {|
  Params.project_sid := Some 1;
  Params.date_from := Examples.at_ 2024 1 1 0 0;
  Params.date_to := Examples.end_of 2024 1 3;
  Params.interval := Some "day";
  Params.type_group := None;
  Params.p1h := Py.VNone;
  Params.p2h := Py.VNone;
  Params.p3h := Py.VInt 12;
  Params.p4h := Py.VNone;
  Params.defh := Py.VStr " 48 " |}.

End Samples.

(** ** Strings of ASCII characters *)

Module Text.

(** [s.isascii()]: on such a string [Py.lower] is [str.lower]. *)
Fixpoint isascii (s : string) : bool :=
  match s with
  | EmptyString => true
  | String c r => (N_of_ascii c <? 128)%N && isascii r
  end.

End Text.

(** ** The durations behind the efficiency report *)

Module Durations.
Import Calendar Models Done ReportsTicket.

(** The resolution times [_query_efficiency] keeps: those of the rows of
    [q_done] that are done and were not updated before their creation. *)
Definition done_durations (db : list PDTicket) (params : Params.t) : list Q :=
  omap (fun ur : datetime * PDTicket =>
    let sec := total_seconds (fst ur) (create_dt (snd ur)) in
    if _is_done (ticket_status (snd ur)) && Qle_bool 0 sec then Some sec
    else None)
    (q_done db params).

(** The number of durations that lie in a bucket. *)
Definition count_in (b : Z * option Z * string) (l : list Q) : Z :=
  Z.of_nat (length (List.filter (fun sec => in_bucket sec b) l)).

(** The state of the loop of [_query_efficiency]: each slot counts the
    durations of its bucket, the slots add up to the number of durations,
    and the samples are the first fifty. *)
Definition buckets_ok (st : eff_acc) : Prop :=
  length (bucket_counts st) = 7%nat /\
  (forall i b, _BUCKETS !! i = Some b ->
     bucket_counts st !! i = Some (count_in b (done_secs st))) /\
  Py.sum (bucket_counts st) = Z.of_nat (length (done_secs st)) /\
  length (samples st) = Nat.min 50 (length (done_secs st)).

End Durations.

(** ** The rows of the category report, from the two samples *)

Module CategoryRows.
Import Calendar Models Done ReportsTicket.

(** The tickets created in the period, and those of them that count as
    closed. *)
Definition sample (db : list PDTicket) (types : list PDType)
    (params : Params.t) : list PDTicket :=
  List.filter (in_base types params) db.

Definition closed_sample (db : list PDTicket) (types : list PDType)
    (params : Params.t) : list PDTicket :=
  List.filter (in_closed types params) db.

(** The row of a category. *)
Definition row_of (db : list PDTicket) (types : list PDType)
    (params : Params.t) (sid : option Z) : cat_row :=
  let base := sample db types params in
  let closed := closed_sample db types params in
  {| c_type_sid := sid;
     c_type_name := name_map types sid;
     c_count := count_type sid base;
     c_percent := pct (count_type sid base) (Z.of_nat (length base)) 2;
     c_open := Z.max (count_type sid base - count_type sid closed) 0;
     c_closed := count_type sid closed |}.

End CategoryRows.

(** ** The default period: [_default_range_if_empty], the same in the
    three files *)

Module DefaultRange.
Import Calendar.

(** [t.replace(hour=23, minute=59, second=59, microsecond=999999)] *)
Definition end_of_day (t : datetime) : datetime :=
  Datetime (dt_date t) 23 59 59 999999.

(** [t.replace(hour=0, minute=0, second=0, microsecond=0)] *)
Definition start_of_day (t : datetime) : datetime :=
  Datetime (dt_date t) 0 0 0 0.

(** [t - timedelta(days=n)]: the time of day stays; a date out of the
    calendar and a number of days no [timedelta] holds both raise
    [OverflowError]. *)
Definition sub_days (t : datetime) (n : Z) : Py.result datetime :=
  d ← add_days (dt_date t) (- n);
  Py.Ok (Datetime d (hour t) (minute t) (second t) (microsecond t)).

Definition _default_range_if_empty (now : datetime)
    (date_from date_to : option datetime) (days : Z)
    : Py.result (datetime * datetime) :=
  let date_to :=
    match date_to with
    | Some t => t
    | None => end_of_day now
    end in
  match date_from with
  | Some f => Py.Ok (f, date_to)
  | None =>
      f ← sub_days date_to (days - 1);
      Py.Ok (start_of_day f, date_to)
  end.

End DefaultRange.

(** ** Project progress: [_query_project_progress] of [reports_ticket.py] *)

Module Progress.
Import Calendar Models Done Buckets ReportsTicket Trend.

(** [a < b] on datetimes. *)
Definition datetime_ltb (a b : datetime) : bool :=
  match cmp_fields (datetime_fields a) (datetime_fields b) with
  | Lt => true
  | _ => false
  end.

(** The filter of [q_new]: active tickets of the project created in
    [[date_from, date_to]]. *)
Definition in_new (pid : Z) (date_from date_to : datetime) (r : PDTicket)
    : bool :=
  (status r =? 1) && (project_sid r =? pid) &&
  datetime_leb date_from (create_dt r) && datetime_leb (create_dt r) date_to.

(** The filter of [q_closed]: active tickets of the project updated in
    [[date_from, date_to]]. *)
Definition in_updated (pid : Z) (date_from date_to : datetime) (r : PDTicket)
    : bool :=
  match update_dt r with
  | Some u =>
      (status r =? 1) && (project_sid r =? pid) &&
      datetime_leb date_from u && datetime_leb u date_to
  | None => false
  end.

(** The rows of [q_closed] that pass [if not _is_done(st): continue]. *)
Definition closed_updates (db : list PDTicket) (pid : Z)
    (date_from date_to : datetime) : list datetime :=
  omap (fun r => if _is_done (ticket_status r) then update_dt r else None)
    (List.filter (in_updated pid date_from date_to) db).

(** The filter of [q_pre]: active tickets of the project created before
    the period. *)
Definition in_pre (pid : Z) (date_from : datetime) (r : PDTicket) : bool :=
  (status r =? 1) && (project_sid r =? pid) &&
  datetime_ltb (create_dt r) date_from.

(** [_is_done(st) and udt and udt < date_from] *)
Definition closed_before (date_from : datetime) (r : PDTicket) : bool :=
  _is_done (ticket_status r) &&
  match update_dt r with
  | Some u => datetime_ltb u date_from
  | None => false
  end.

(** The number [backlog_start] ends with. *)
Definition backlog_start_of (db : list PDTicket) (pid : Z)
    (date_from : datetime) : Z :=
  Z.of_nat (length (List.filter
    (fun r => in_pre pid date_from r && negb (closed_before date_from r)) db)).

(** [for i in range(len(bucket_starts)):
       running += created_series[i] - closed_series[i]
       backlog_series.append(running)];
    the result is the series with the last value of [running]. *)
Fixpoint backlog_loop (range_ : list nat) (running : Z)
    (created_series closed_series : list Z) : Py.result (list Z * Z) :=
  match range_ with
  | [] => Py.Ok ([], running)
  | i :: rest =>
      c ← Py.index created_series (Z.of_nat i);
      d ← Py.index closed_series (Z.of_nat i);
      let running := running + (c - d) in
      r ← backlog_loop rest running created_series closed_series;
      Py.Ok (running :: fst r, snd r)
  end.

(** [total_exist] and [closed_up_to] of the progress percentage. *)
Definition total_exist (db : list PDTicket) (pid : Z) (date_to : datetime)
    : Z :=
  Z.of_nat (length (List.filter (fun r =>
    (status r =? 1) && (project_sid r =? pid) &&
    datetime_leb (create_dt r) date_to) db)).

Definition closed_up_to (db : list PDTicket) (pid : Z) (date_to : datetime)
    : Z :=
  Z.of_nat (length (List.filter (fun r =>
    (status r =? 1) && (project_sid r =? pid) &&
    updated_by date_to r && _done_sql_expr r) db)).

Record open_item : Type := {
  oi_ticket_sid : Z;
  oi_ticket_no : string;
  oi_ticket_name : string;
  oi_created_at : datetime;
  age_hours : Q
}.

(** [open_items]: the rows of [open_rows] with their age. *)
Definition open_items (db : list PDTicket) (pid : Z) (now : datetime)
    : list open_item :=
  map (fun r => {|
    oi_ticket_sid := ticket_sid r;
    oi_ticket_no := ticket_no r;
    oi_ticket_name := ticket_name r;
    oi_created_at := create_dt r;
    age_hours := Py.round (total_seconds now (create_dt r) / 3600) 1 |})
    (open_rows db pid).

(** The returned payload.  The labels are the bucket starts themselves
    (the source formats them with [_format_label]), the three series are
    kept without their names, and [created_at] of an item is kept as a
    datetime. *)
Record report : Type := {
  labels : list date;
  created_series : list Z;
  closed_series : list Z;
  backlog_series : list Z;
  kpi_created : Z;
  kpi_closed : Z;
  kpi_backlog_start : Z;
  kpi_backlog_end : Z;
  kpi_open_now : Z;
  kpi_progress_pct : Q;
  r_open_items : list open_item;
  r_closed_items : list closed_item
}.

(** What the function returns without a project. *)
Definition no_project : report := {|
  labels := []; created_series := []; closed_series := [];
  backlog_series := [];
  kpi_created := 0; kpi_closed := 0; kpi_backlog_start := 0;
  kpi_backlog_end := 0; kpi_open_now := 0; kpi_progress_pct := 0;
  r_open_items := []; r_closed_items := [] |}.

(** [if not project_sid] *)
Definition project_of (params : Params.t) : option Z :=
  match Params.project_sid params with
  | Some p => if p =? 0 then None else Some p
  | None => None
  end.

Definition _query_project_progress (db : list PDTicket) (now : datetime)
    (params : Params.t) : Py.result report :=
  match project_of params with
  | None => Py.Ok no_project
  | Some pid =>
      let date_from := Params.date_from params in
      let date_to := Params.date_to params in
      let interval := Params.interval_or_day params in
      bucket_starts ← _iter_buckets date_from date_to interval;
      let zeros := replicate (length bucket_starts) 0 in
      created ←
        fill_series interval bucket_starts
          (map create_dt (List.filter (in_new pid date_from date_to) db)) zeros;
      closed ←
        fill_series interval bucket_starts
          (closed_updates db pid date_from date_to) zeros;
      let backlog_start := backlog_start_of db pid date_from in
      b ← backlog_loop (seq 0 (length bucket_starts)) backlog_start
             created closed;
      Py.Ok {|
        labels := bucket_starts;
        created_series := created;
        closed_series := closed;
        backlog_series := fst b;
        kpi_created := Py.sum created;
        kpi_closed := Py.sum closed;
        kpi_backlog_start := backlog_start;
        kpi_backlog_end := snd b;
        kpi_open_now := open_now db pid;
        kpi_progress_pct :=
          pct (closed_up_to db pid date_to) (total_exist db pid date_to) 1;
        r_open_items := open_items db pid now;
        r_closed_items := closed_items db pid date_from date_to |}
  end.

End Progress.

(** ** Chart colours: [_palette] of [reports_sla.py] and
    [reports_ticket.py] *)

Module Palette.

(** [(i*37)%360] *)
Definition hue (i : Z) : Z := (i * 37) mod 360.

(** [f"hsl({(i*37)%360} 60% 52%)"]; [pretty] writes an integer in decimal
    digits, as [str] does. *)
Definition colour (i : Z) : string :=
  "hsl(" +:+ pretty (hue i) +:+ " 60% 52%)".

(** [[... for i in range(max(n,0))]] *)
Definition _palette (n : Z) : list string :=
  map (fun i => colour (Z.of_nat i)) (seq 0 (Z.to_nat (Z.max n 0))).

End Palette.

(** ** Form numbers: [services/sequence.py] *)

Module Sequence.
Import Calendar.

(** The columns of [PDSequence] ([pd_sequence]) the service reads. *)
Record PDSequence : Type := {
  code : string;
  prefix : string;
  current_no : Z;
  reset_rule : string
}.

(** [width] zeros at most, put before [s] to make it [width] long. *)
Definition zero_pad (width : nat) (s : string) : string :=
  Nat.iter (width - String.length s) (String "0"%char) s.

(** [f"{n:0{width}d}"]: the sign, when there is one, counts for the
    width. *)
Definition format_0d (width : nat) (n : Z) : string :=
  if n <? 0 then String "-"%char (zero_pad (width - 1) (pretty (- n)))
  else zero_pad width (pretty n).

(** [s.replace(old, new)] for a pattern [old] that is not empty: the
    occurrences are taken from the left and do not overlap.  [skip] counts
    the characters of an occurrence still to be dropped. *)
Fixpoint replace_from (old new : string) (skip : nat) (s : string) : string :=
  match s with
  | EmptyString => EmptyString
  | String c r =>
      match skip with
      | S k => replace_from old new k r
      | O =>
          if String.prefix old s
          then new +:+ replace_from old new (String.length old - 1) r
          else String c (replace_from old new 0 r)
      end
  end.

Definition replace (old new s : string) : string := replace_from old new 0 s.

(** [_today_tokens()], for a year of four digits. *)
Definition _today_tokens (now : datetime) : list (string * string) :=
  [("YYYY", format_0d 4 (year (dt_date now)));
   ("MM", format_0d 2 (month (dt_date now)));
   ("DD", format_0d 2 (day (dt_date now)))].

(** [for k,v in tokens.items(): prefix = prefix.replace('{%s}'%k, v)] *)
Definition expand (tokens : list (string * string)) (prefix_ : string)
    : string :=
  fold_left (fun p kv => replace ("{" +:+ fst kv +:+ "}") (snd kv) p)
    tokens prefix_.

(** [next_form_no(code)] from the row [seq] that [scalar_one()] found: the
    form number and the row as it is flushed. *)
Definition next_form_no (now : datetime) (seq : PDSequence)
    : string * PDSequence :=
  let tokens := _today_tokens now in
  let prefix_ := expand tokens (prefix seq) in
  let yyyy := format_0d 4 (year (dt_date now)) in
  let current :=
    if String.eqb (reset_rule seq) "DAILY" &&
       negb (String.prefix yyyy (pretty (current_no seq)))
    then 0 else current_no seq in
  let current := current + 1 in
  (prefix_ +:+ format_0d 4 current,
   {| code := code seq; prefix := prefix seq; current_no := current;
      reset_rule := reset_rule seq |}).

End Sequence.

(** * Properties *)

(** ** The calendar: ordinals and dates determine each other *)

Module CalendarFacts.
Import Calendar.

Ltac divmod := Z.div_mod_to_equations; lia.

Lemma is_leap_spec y :
  _is_leap y = true <-> (y mod 4 = 0 /\ (y mod 100 <> 0 \/ y mod 400 = 0)).
Proof.
  unfold _is_leap.
  rewrite andb_true_iff, orb_true_iff, negb_true_iff, !Z.eqb_eq, Z.eqb_neq.
  tauto.
Qed.

Lemma days_before_year_succ y :
  _days_before_year (y + 1) =
  _days_before_year y + 365 + (if _is_leap y then 1 else 0).
Proof.
  unfold _days_before_year.
  replace (y + 1 - 1) with y by lia.
  destruct (_is_leap y) eqn:E.
  - apply is_leap_spec in E. divmod.
  - assert (H : ~ (y mod 4 = 0 /\ (y mod 100 <> 0 \/ y mod 400 = 0))).
    { rewrite <- is_leap_spec. congruence. }
    divmod.
Qed.

Lemma month_day_check leap n :
  0 <= n < 365 -> month_day_ok leap n = true.
Proof.
  intros H.
  assert (A : forallb (fun k => month_day_ok true (Z.of_nat k) && month_day_ok false (Z.of_nat k)) (seq 0 365) = true) by (vm_compute; reflexivity).
  rewrite forallb_forall in A.
  specialize (A (Z.to_nat n)).
  rewrite Z2Nat.id in A by lia.
  assert (I : In (Z.to_nat n) (seq 0 365)) by (apply in_seq; lia).
  apply A in I. apply andb_true_iff in I. destruct leap; tauto.
Qed.

Lemma ord2ymd_month_day n :
  1 <= n ->
  let n0 := n - 1 in
  let n400 := n0 / 146097 in
  let r400 := n0 mod 146097 in
  let n100 := r400 / 36524 in
  let r100 := r400 mod 36524 in
  let n4 := r100 / 1461 in
  let r4 := r100 mod 1461 in
  let n1 := r4 / 365 in
  let r1 := r4 mod 365 in
  let y := n400 * 400 + 1 + n100 * 100 + n4 * 4 + n1 in
  _ord2ymd n =
  if (n1 =? 4) || (n100 =? 4) then Date (y - 1) 12 31
  else let leap := (n1 =? 3) && (negb (n4 =? 24) || (n100 =? 3)) in
       Date y (fst (month_day leap r1)) (snd (month_day leap r1)).
Proof.
  intros H. cbv zeta. unfold _ord2ymd, month_day, _DI400Y, _DI100Y, _DI4Y. cbv zeta.
  destruct (_ || _); [reflexivity|].
  destruct (_ <? _); reflexivity.
Qed.

Lemma fromordinal_spec n :
  1 <= n -> toordinal (fromordinal n) = n /\ fields_ok (fromordinal n).
Proof.
  intros Hn. unfold fromordinal. rewrite ord2ymd_month_day by assumption.
  cbv zeta.
  set (n0 := n - 1).
  set (n400 := n0 / 146097). set (r400 := n0 mod 146097).
  set (n100 := r400 / 36524). set (r100 := r400 mod 36524).
  set (n4 := r100 / 1461). set (r4 := r100 mod 1461).
  set (n1 := r4 / 365). set (r1 := r4 mod 365).
  assert (E400 : n0 = 146097 * n400 + r400 /\ 0 <= r400 < 146097 /\ 0 <= n400)
    by (subst n400 r400; divmod).
  assert (E100 : r400 = 36524 * n100 + r100 /\ 0 <= r100 < 36524 /\ 0 <= n100 <= 4)
    by (subst n100 r100; divmod).
  assert (E4 : r100 = 1461 * n4 + r4 /\ 0 <= r4 < 1461 /\ 0 <= n4 <= 24)
    by (subst n4 r4; divmod).
  assert (E1 : r4 = 365 * n1 + r1 /\ 0 <= r1 < 365 /\ 0 <= n1 <= 4)
    by (subst n1 r1; divmod).
  clearbody n400 r400 n100 r100 n4 r4 n1 r1.
  set (y := n400 * 400 + 1 + n100 * 100 + n4 * 4 + n1).
  destruct ((n1 =? 4) || (n100 =? 4)) eqn:Sp.
  - assert (Hs : n1 = 4 \/ n100 = 4) by (apply orb_true_iff in Sp; lia).
    assert (Hy : (y - 1) mod 4 = 0 /\ ((y - 1) mod 100 <> 0 \/ (y - 1) mod 400 = 0)).
    { subst y. divmod. }
    apply is_leap_spec in Hy.
    unfold toordinal, fields_ok, _ymd2ord, _days_before_month, _days_in_month, _days_before_year; simpl.
    rewrite Hy. simpl. subst y n0. split; [divmod | divmod].
  - apply orb_false_iff in Sp. destruct Sp as [S1 S2].
    apply Z.eqb_neq in S1, S2.
    set (leap := (n1 =? 3) && (negb (n4 =? 24) || (n100 =? 3))).
    assert (HL : _is_leap y = leap).
    { subst leap. destruct (_is_leap y) eqn:E.
      - apply is_leap_spec in E. symmetry.
        rewrite andb_true_iff, orb_true_iff, negb_true_iff, Z.eqb_neq, !Z.eqb_eq.
        subst y. divmod.
      - assert (H : ~ (y mod 4 = 0 /\ (y mod 100 <> 0 \/ y mod 400 = 0))).
        { rewrite <- is_leap_spec. congruence. }
        symmetry. apply not_true_iff_false. intros C. apply H.
        rewrite andb_true_iff, orb_true_iff, negb_true_iff, Z.eqb_neq, !Z.eqb_eq in C.
        subst y. divmod. }
    pose proof (month_day_check leap r1 ltac:(lia)) as MD.
    unfold month_day_ok in MD. destruct (month_day leap r1) as [m d]. simpl.
    rewrite !andb_true_iff in MD.
    destruct MD as [[[[M1 M2] D1] D2] Eq].
    apply Z.leb_le in M1, M2, D1, D2. apply Z.eqb_eq in Eq.
    unfold toordinal, fields_ok, _ymd2ord, _days_before_month, _days_in_month; simpl.
    rewrite HL. split.
    + unfold _days_before_year. subst y n0. divmod.
    + split; [subst y; lia|]. split; [lia|]. split; [lia|].
      destruct ((m =? 2) && leap) eqn:E2.
      * apply andb_true_iff in E2. destruct E2 as [E2 _]. apply Z.eqb_eq in E2. subst m. simpl in D2. lia.
      * lia.
Qed.

Ltac month_cases m :=
  let H := fresh in
  assert (H : m = 1 \/ m = 2 \/ m = 3 \/ m = 4 \/ m = 5 \/ m = 6 \/ m = 7 \/
              m = 8 \/ m = 9 \/ m = 10 \/ m = 11 \/ m = 12) by lia;
  repeat (destruct H as [H | H]; [subst m | ]); [.. | subst m].

Lemma days_before_year_mono y1 y2 :
  y1 <= y2 -> _days_before_year y1 <= _days_before_year y2.
Proof. unfold _days_before_year. intros. divmod. Qed.

Lemma day_of_year_bound d :
  fields_ok d ->
  1 <= _days_before_month (year d) (month d) + day d
    <= 365 + (if _is_leap (year d) then 1 else 0).
Proof.
  destruct d as [y m d]. unfold fields_ok, _days_before_month, _days_in_month. simpl.
  intros (Hy & Hm & Hd).
  month_cases m; simpl in *; destruct (_is_leap y); simpl in *; lia.
Qed.

Lemma days_before_month_step y m1 m2 :
  1 <= m1 -> m1 < m2 -> m2 <= 12 ->
  _days_before_month y m1 + _days_in_month y m1 <= _days_before_month y m2.
Proof.
  unfold _days_before_month, _days_in_month. intros H1 H2 H3.
  month_cases m1; month_cases m2; try lia; simpl; destruct (_is_leap y); simpl; lia.
Qed.

Lemma cmp_date_ordinal a b :
  fields_ok a -> fields_ok b ->
  cmp_fields (date_fields a) (date_fields b) = (toordinal a ?= toordinal b).
Proof.
  intros Ha Hb.
  pose proof (day_of_year_bound a Ha) as Ba.
  pose proof (day_of_year_bound b Hb) as Bb.
  destruct a as [y1 m1 d1], b as [y2 m2 d2].
  unfold fields_ok, toordinal, _ymd2ord, date_fields in *. simpl in *.
  destruct Ha as (Hy1 & Hm1 & Hd1), Hb as (Hy2 & Hm2 & Hd2).
  symmetry.
  destruct (Z.compare_spec y1 y2) as [Ey | Ly | Gy].
  - subst y2.
    destruct (Z.compare_spec m1 m2) as [Em | Lm | Gm].
    + subst m2. destruct (Z.compare_spec d1 d2); [apply Z.compare_eq_iff | apply Z.compare_lt_iff | apply Z.compare_gt_iff]; lia.
    + apply Z.compare_lt_iff.
      pose proof (days_before_month_step y1 m1 m2 ltac:(lia) Lm ltac:(lia)). lia.
    + apply Z.compare_gt_iff.
      pose proof (days_before_month_step y1 m2 m1 ltac:(lia) Gm ltac:(lia)). lia.
  - apply Z.compare_lt_iff.
    pose proof (days_before_year_succ y1).
    pose proof (days_before_year_mono (y1 + 1) y2 ltac:(lia)). lia.
  - apply Z.compare_gt_iff.
    pose proof (days_before_year_succ y2).
    pose proof (days_before_year_mono (y2 + 1) y1 ltac:(lia)). lia.
Qed.

Lemma valid_date_fields d :
  valid_date d = true <-> fields_ok d /\ year d <= MAXYEAR.
Proof.
  unfold valid_date, fields_ok. rewrite !andb_true_iff, !Z.leb_le. tauto.
Qed.

Lemma toordinal_range d :
  valid_date d = true -> 1 <= toordinal d <= _MAXORDINAL.
Proof.
  intros V. apply valid_date_fields in V. destruct V as [F Y].
  pose proof (day_of_year_bound d F) as B.
  unfold toordinal, _ymd2ord, _MAXORDINAL, MAXYEAR in *.
  pose proof (days_before_year_succ (year d)).
  pose proof (days_before_year_mono (year d + 1) 10000 ltac:(lia)) as M.
  pose proof (days_before_year_mono 1 (year d) ltac:(destruct F; lia)) as M1.
  change (_days_before_year 10000) with 3652059 in M.
  change (_days_before_year 1) with 0 in M1. lia.
Qed.

Lemma fromordinal_valid n :
  1 <= n <= _MAXORDINAL -> valid_date (fromordinal n) = true.
Proof.
  intros H. destruct (fromordinal_spec n ltac:(lia)) as [E F].
  apply valid_date_fields. split; [assumption|].
  destruct (Z_le_gt_dec (year (fromordinal n)) MAXYEAR) as [L|G]; [assumption|exfalso].
  pose proof (day_of_year_bound _ F) as B.
  unfold toordinal, _ymd2ord in E.
  pose proof (days_before_year_mono 10000 (year (fromordinal n)) ltac:(unfold MAXYEAR in G; lia)) as M.
  change (_days_before_year 10000) with 3652059 in M.
  unfold _MAXORDINAL in H. lia.
Qed.

Lemma toordinal_inj a b :
  fields_ok a -> fields_ok b -> toordinal a = toordinal b -> a = b.
Proof.
  intros Ha Hb E. pose proof (cmp_date_ordinal a b Ha Hb) as C.
  rewrite E, Z.compare_refl in C.
  destruct a as [y1 m1 d1], b as [y2 m2 d2]. unfold date_fields in C. simpl in C.
  destruct (Z.compare_spec y1 y2); try discriminate.
  destruct (Z.compare_spec m1 m2); try discriminate.
  destruct (Z.compare_spec d1 d2); try discriminate.
  congruence.
Qed.

Lemma fromordinal_toordinal d :
  fields_ok d -> fromordinal (toordinal d) = d.
Proof.
  intros F.
  pose proof (day_of_year_bound d F) as B.
  assert (P : 1 <= toordinal d).
  { unfold toordinal, _ymd2ord.
    pose proof (days_before_year_mono 1 (year d) ltac:(destruct F; lia)) as M1.
    change (_days_before_year 1) with 0 in M1. lia. }
  destruct (fromordinal_spec _ P) as [E F'].
  apply toordinal_inj; assumption.
Qed.

End CalendarFacts.

(** ** Time buckets *)

Module BucketFacts.
Import Calendar CalendarFacts Buckets.

Section Loop.
Variable next : date -> Py.result date.
Variable ord : date -> Z.
Variable Inv : date -> Prop.
Variable step : Z.
Hypothesis step_pos : 0 < step.
Hypothesis cmp_ord : forall a b, Inv a -> Inv b ->
  cmp_fields (date_fields a) (date_fields b) = (ord a ?= ord b).
Hypothesis next_ok : forall a b, Inv a -> next a = Py.Ok b ->
  Inv b /\ ord b = ord a + step.
Hypothesis next_no_fuel : forall a, next a <> Py.OutOfFuel.

Lemma leb_ord a b : Inv a -> Inv b -> date_leb a b = (ord a <=? ord b).
Proof.
  intros Ha Hb. unfold date_leb. rewrite cmp_ord by assumption.
  unfold Z.leb. destruct (ord a ?= ord b); reflexivity.
Qed.

Lemma ltb_ord a b : Inv a -> Inv b -> date_ltb a b = (ord a <? ord b).
Proof.
  intros Ha Hb. unfold date_ltb. rewrite cmp_ord by assumption.
  unfold Z.ltb. destruct (ord a ?= ord b); reflexivity.
Qed.

(** The lists the loop can build from [cur] up to [end_]. *)
Inductive chain (end_ : date) : date -> list date -> Prop :=
| chain_nil cur : ord end_ < ord cur -> chain end_ cur []
| chain_cons cur cur' l :
    ord cur <= ord end_ -> next cur = Py.Ok cur' -> chain end_ cur' l ->
    chain end_ cur (cur :: l).

Lemma loop_chain end_ fuel : forall cur l,
  Inv cur -> Inv end_ ->
  bucket_loop fuel next cur end_ = Py.Ok l -> chain end_ cur l.
Proof.
  induction fuel as [|fuel IH]; intros cur l Hc He; simpl;
    rewrite (leb_ord cur end_ Hc He);
    destruct (Z.leb_spec (ord cur) (ord end_)) as [L|G]; intros H;
    try discriminate;
    try (injection H as <-; apply chain_nil; assumption).
  destruct (next cur) as [cur'| |] eqn:N; try discriminate.
  destruct (next_ok _ _ Hc N) as [Hc' _].
  destruct (bucket_loop fuel next cur' end_) as [l'| |] eqn:R; try discriminate.
  injection H as <-. eapply chain_cons; eauto.
Qed.

Lemma loop_result end_ fuel : forall cur,
  Inv cur -> Inv end_ ->
  ord end_ - ord cur < Z.of_nat fuel * step ->
  (forall a, Inv a -> ord a <= ord end_ -> exists b, next a = Py.Ok b) ->
  exists l, bucket_loop fuel next cur end_ = Py.Ok l.
Proof.
  induction fuel as [|fuel IH]; intros cur Hc He F T; simpl;
    rewrite (leb_ord cur end_ Hc He);
    destruct (Z.leb_spec (ord cur) (ord end_)) as [L|G];
    try (eexists; reflexivity).
  - lia.
  - destruct (T cur Hc L) as [cur' N]. rewrite N.
    destruct (next_ok _ _ Hc N) as [Hc' O].
    destruct (IH cur' Hc' He ltac:(nia) T) as [l R]. rewrite R. eauto.
Qed.

Lemma chain_head end_ cur l :
  chain end_ cur l -> ord cur <= ord end_ -> exists l', l = cur :: l'.
Proof. intros [] L; [lia | eauto]. Qed.

Lemma chain_bounds end_ cur l :
  Inv cur -> chain end_ cur l ->
  Forall (fun a => Inv a /\ ord cur <= ord a <= ord end_ /\
                   (ord a - ord cur) mod step = 0) l.
Proof.
  intros Hc C. induction C as [|cur cur' l L N C IH]; constructor.
  - split; [assumption|]. split; [lia|]. rewrite Z.sub_diag. apply Z.mod_0_l. lia.
  - destruct (next_ok _ _ Hc N) as [Hc' O].
    eapply Forall_impl; [apply IH; assumption|].
    intros a (Ia & Ba & Ma). split; [assumption|]. split; [lia|].
    replace (ord a - ord cur) with (ord a - ord cur' + 1 * step) by lia.
    rewrite Z.mod_add by lia. assumption.
Qed.

Lemma chain_sorted end_ cur l :
  Inv cur -> chain end_ cur l ->
  StronglySorted (fun a b => date_ltb a b = true) l.
Proof.
  intros Hc C. induction C as [|cur cur' l L N C IH]; constructor.
  - destruct (next_ok _ _ Hc N) as [Hc' O]. apply IH; assumption.
  - destruct (next_ok _ _ Hc N) as [Hc' O].
    eapply Forall_impl; [apply (chain_bounds _ _ _ Hc' C)|].
    intros a (Ia & Ba & _). rewrite ltb_ord by assumption.
    apply Z.ltb_lt. lia.
Qed.

Lemma chain_next end_ cur l :
  chain end_ cur l ->
  forall i a b, l !! i = Some a -> l !! S i = Some b -> next a = Py.Ok b.
Proof.
  intros C. induction C as [|cur cur' l L N C IH]; intros i a b Ha Hb.
  - discriminate.
  - destruct i as [|i]; simpl in *.
    + injection Ha as <-. destruct C; simpl in Hb; [discriminate|].
      injection Hb as <-. assumption.
    + eapply IH; eassumption.
Qed.

Lemma chain_last end_ cur l :
  Inv cur -> chain end_ cur l -> ord cur <= ord end_ ->
  exists x, last l = Some x /\ Inv x /\
    ord x <= ord end_ < ord x + step /\ (ord x - ord cur) mod step = 0.
Proof.
  intros Hc C. induction C as [|cur cur' l L N C IH]; intros L'; [lia|].
  destruct (next_ok _ _ Hc N) as [Hc' O].
  destruct C as [cur' G | cur' cur'' l L2 N2 C].
  - exists cur. simpl. split; [reflexivity|]. split; [assumption|].
    split; [lia|]. rewrite Z.sub_diag. apply Z.mod_0_l. lia.
  - destruct (IH Hc' L2) as (x & Hl & Ix & Bx & Mx).
    exists x. split; [exact Hl|]. split; [assumption|]. split; [assumption|].
    replace (ord x - ord cur) with (ord x - ord cur' + 1 * step) by lia.
    rewrite Z.mod_add by lia. assumption.
Qed.
End Loop.


(** *** The three instances of the loop *)

Definition day_inv (d : date) : Prop := valid_date d = true.

Definition month_inv (d : date) : Prop := valid_date d = true /\ day d = 1.

Lemma valid_fields_ok d : valid_date d = true -> fields_ok d.
Proof. intros V. apply valid_date_fields in V. tauto. Qed.

Lemma cmp_toordinal a b :
  day_inv a -> day_inv b ->
  cmp_fields (date_fields a) (date_fields b) = (toordinal a ?= toordinal b).
Proof. intros Ha Hb. apply cmp_date_ordinal; apply valid_fields_ok; assumption. Qed.

Lemma add_days_ok s a b :
  0 < s -> day_inv a -> add_days a s = Py.Ok b ->
  day_inv b /\ toordinal b = toordinal a + s.
Proof.
  unfold add_days, day_inv. intros Hs Ha H.
  pose proof (toordinal_range a Ha) as R.
  destruct (_ && _) eqn:E; [|discriminate]. injection H as <-.
  apply andb_true_iff in E. destruct E as [E1 E2].
  apply Z.ltb_lt in E1. apply Z.leb_le in E2.
  split; [apply fromordinal_valid; lia|].
  apply fromordinal_spec. lia.
Qed.

Lemma add_days_no_fuel s a : add_days a s <> Py.OutOfFuel.
Proof. unfold add_days. destruct (_ && _); discriminate. Qed.

Lemma add_days_in_range s a :
  0 < toordinal a + s <= _MAXORDINAL ->
  add_days a s = Py.Ok (fromordinal (toordinal a + s)).
Proof.
  intros [H1 H2]. unfold add_days.
  apply Z.ltb_lt in H1. apply Z.leb_le in H2. rewrite H1, H2. reflexivity.
Qed.

Lemma cmp_month_index a b :
  month_inv a -> month_inv b ->
  cmp_fields (date_fields a) (date_fields b) = (month_index a ?= month_index b).
Proof.
  intros [Va Da] [Vb Db].
  apply valid_date_fields in Va, Vb.
  destruct Va as [(_ & Ma & _) _], Vb as [(_ & Mb & _) _].
  destruct a as [y1 m1 d1], b as [y2 m2 d2].
  unfold month_index, date_fields. simpl in *. subst d1 d2.
  symmetry.
  destruct (Z.compare_spec y1 y2) as [Ey | Ly | Gy].
  - subst y2. destruct (Z.compare_spec m1 m2);
      [apply Z.compare_eq_iff | apply Z.compare_lt_iff | apply Z.compare_gt_iff]; lia.
  - apply Z.compare_lt_iff. lia.
  - apply Z.compare_gt_iff. lia.
Qed.

Lemma mkdate_ok y m d b : mkdate y m d = Py.Ok b -> b = Date y m d /\ valid_date b = true.
Proof.
  unfold mkdate. destruct (valid_date (Date y m d)) eqn:V; [|discriminate].
  intros H. injection H as <-. split; [reflexivity | assumption].
Qed.

Lemma first_of_month_valid y m :
  1 <= y <= MAXYEAR -> 1 <= m <= 12 -> valid_date (Date y m 1) = true.
Proof.
  intros Hy Hm. apply valid_date_fields. unfold fields_ok, _days_in_month. simpl.
  split; [|lia]. split; [lia|]. split; [lia|].
  destruct ((m =? 2) && _is_leap y); [lia|].
  month_cases m; simpl; lia.
Qed.

Lemma next_month_ok a b :
  month_inv a -> next_month a = Py.Ok b ->
  month_inv b /\ month_index b = month_index a + 1.
Proof.
  intros [Va Da] H. unfold next_month in H.
  apply mkdate_ok in H. destruct H as [-> V].
  split; [split; [assumption | reflexivity]|].
  unfold month_index. simpl.
  apply valid_date_fields in Va. destruct Va as [(_ & Ma & _) _].
  destruct (Z.eqb_spec (month a) 12); lia.
Qed.

Lemma next_month_no_fuel a : next_month a <> Py.OutOfFuel.
Proof. unfold next_month, mkdate. destruct (valid_date _); discriminate. Qed.

Lemma month_index_inj a b :
  month_inv a -> month_inv b -> month_index a = month_index b -> a = b.
Proof.
  intros [Va Da] [Vb Db] E.
  apply valid_date_fields in Va, Vb.
  destruct Va as [(_ & Ma & _) _], Vb as [(_ & Mb & _) _].
  destruct a as [y1 m1 d1], b as [y2 m2 d2].
  unfold month_index in E. simpl in *. subst.
  assert (y1 = y2) by lia. subst. f_equal. lia.
Qed.

(** *** Bucket keys of valid datetimes *)

Lemma weekday_range d : 0 <= weekday d < 7.
Proof. unfold weekday. apply Z.mod_pos_bound. lia. Qed.

Lemma monday_of_ok d :
  valid_date d = true ->
  exists m, monday_of d = Py.Ok m /\ valid_date m = true /\
            toordinal m = toordinal d - weekday d /\ weekday m = 0.
Proof.
  intros V. pose proof (toordinal_range d V) as R.
  pose proof (weekday_range d) as W.
  assert (P : 1 <= toordinal d - weekday d <= _MAXORDINAL).
  { unfold weekday in *. divmod. }
  exists (fromordinal (toordinal d + - weekday d)).
  replace (toordinal d + - weekday d) with (toordinal d - weekday d) by lia.
  split.
  { unfold monday_of. rewrite add_days_in_range; [f_equal; f_equal; lia | lia]. }
  split; [apply fromordinal_valid; assumption|].
  destruct (fromordinal_spec (toordinal d - weekday d) ltac:(lia)) as [E _].
  split; [assumption|].
  unfold weekday at 1. rewrite E. unfold weekday. divmod.
Qed.

Lemma first_of_month_ok d :
  valid_date d = true ->
  mkdate (year d) (month d) 1 = Py.Ok (Date (year d) (month d) 1) /\
  month_inv (Date (year d) (month d) 1).
Proof.
  intros V. apply valid_date_fields in V. destruct V as [(Y & M & _) Y'].
  assert (V1 : valid_date (Date (year d) (month d) 1) = true)
    by (apply first_of_month_valid; lia).
  unfold mkdate. rewrite V1. split; [reflexivity|]. split; [assumption | reflexivity].
Qed.


(** *** Order of the field tuples *)

Lemma cmp_fields_antisym a : forall b,
  cmp_fields b a = CompOpp (cmp_fields a b).
Proof.
  induction a as [|x a IH]; intros [|y b]; simpl; try reflexivity.
  rewrite (Z.compare_antisym x y).
  destruct (x ?= y); simpl; auto.
Qed.

Lemma date_ltb_not_leb a b : date_ltb b a = true -> date_leb a b = false.
Proof.
  unfold date_ltb, date_leb.
  rewrite (cmp_fields_antisym (date_fields a) (date_fields b)).
  destruct (cmp_fields (date_fields a) (date_fields b)); simpl; congruence.
Qed.

Lemma cmp_fields_app a : forall b x y,
  length a = length b ->
  is_le (cmp_fields (a ++ x) (b ++ y)) = true -> is_le (cmp_fields a b) = true.
Proof.
  induction a as [|u a IH]; intros [|v b] x y L H; simpl in *;
    try reflexivity; try discriminate.
  destruct (u ?= v); [|reflexivity|discriminate].
  eapply IH; [|eassumption]. simpl in L. lia.
Qed.

Lemma datetime_leb_date a b :
  datetime_leb a b = true -> date_leb (dt_date a) (dt_date b) = true.
Proof.
  unfold datetime_leb, date_leb, datetime_fields.
  apply cmp_fields_app. reflexivity.
Qed.


(** *** What each loop returns *)

Lemma day_loop s fuel cur end_ :
  0 < s -> day_inv cur -> day_inv end_ ->
  toordinal end_ - toordinal cur < Z.of_nat fuel * s ->
  date_leb cur end_ = true ->
  toordinal end_ + s <= _MAXORDINAL ->
  (toordinal end_ - toordinal cur) mod s = 0 ->
  exists l,
    bucket_loop fuel (fun c => add_days c s) cur end_ = Py.Ok l /\
    head l = Some cur /\ last l = Some end_ /\
    StronglySorted (fun a b => date_ltb a b = true) l /\
    Forall (fun d => valid_date d = true) l /\
    (forall i a b, l !! i = Some a -> l !! S i = Some b ->
       toordinal b = toordinal a + s).
Proof.
  intros Hs Hc He F L M D.
  set (next := fun c => add_days c s).
  assert (NO : forall a b, day_inv a -> next a = Py.Ok b ->
                 day_inv b /\ toordinal b = toordinal a + s)
    by (intros a b; apply add_days_ok; assumption).
  rewrite (leb_ord toordinal day_inv cmp_toordinal cur end_ Hc He) in L.
  apply Z.leb_le in L.
  destruct (loop_result next toordinal day_inv s Hs cmp_toordinal NO end_ fuel cur Hc He F)
    as [l R].
  { intros a Ha La. pose proof (toordinal_range a Ha).
    eexists. apply add_days_in_range. lia. }
  exists l. split; [exact R|].
  pose proof (loop_chain next toordinal day_inv s cmp_toordinal NO end_ fuel cur l Hc He R) as C.
  destruct (chain_head next toordinal end_ cur l C L) as [l' ->].
  split; [reflexivity|].
  destruct (chain_last next toordinal day_inv s Hs NO end_ cur _ Hc C L)
    as (x & Hl & Ix & Bx & Mx).
  split.
  { rewrite Hl. f_equal.
    apply toordinal_inj; [apply valid_fields_ok; exact Ix | apply valid_fields_ok; exact He |].
    apply Z.mod_divide in D, Mx; try lia.
    destruct (Z.divide_sub_r _ _ _ D Mx) as [k K].
    assert (k = 0) by (destruct (Z.lt_trichotomy k 0) as [|[|]]; nia).
    subst k. lia. }
  split; [exact (chain_sorted next toordinal day_inv s Hs cmp_toordinal NO end_ cur _ Hc C)|].
  pose proof (chain_bounds next toordinal day_inv s Hs NO end_ cur _ Hc C) as B.
  split; [eapply Forall_impl; [exact B|]; intros a (Ia & _); exact Ia|].
  intros i a b Ha Hb.
  pose proof (chain_next next toordinal end_ cur _ C i a b Ha Hb) as N.
  rewrite Forall_lookup in B. destruct (B i a Ha) as (Ia & _).
  apply (NO a b Ia N).
Qed.

Lemma month_loop fuel cur end_ :
  month_inv cur -> month_inv end_ ->
  month_index end_ - month_index cur < Z.of_nat fuel ->
  date_leb cur end_ = true ->
  (exists b, next_month end_ = Py.Ok b) ->
  exists l,
    bucket_loop fuel next_month cur end_ = Py.Ok l /\
    head l = Some cur /\ last l = Some end_ /\
    StronglySorted (fun a b => date_ltb a b = true) l /\
    Forall (fun d => valid_date d = true) l /\
    (forall i a b, l !! i = Some a -> l !! S i = Some b ->
       next_month a = Py.Ok b).
Proof.
  intros Hc He F L [nb NB].
  rewrite (leb_ord month_index month_inv cmp_month_index cur end_ Hc He) in L.
  apply Z.leb_le in L.
  destruct (loop_result next_month month_index month_inv 1 ltac:(lia)
              cmp_month_index next_month_ok end_ fuel cur Hc He ltac:(lia))
    as [l R].
  { intros a [Va Da] La. unfold next_month.
    destruct (next_month_ok end_ nb He NB) as [[Vn _] In].
    apply valid_date_fields in Vn, Va.
    destruct Vn as [(Yn & Mn & _) Yn'], Va as [(Ya & Ma & _) Ya'].
    unfold month_index, MAXYEAR in *.
    eexists. unfold mkdate. rewrite first_of_month_valid; [reflexivity | |].
    - unfold MAXYEAR. destruct (Z.eqb_spec (month a) 12); lia.
    - destruct (Z.eqb_spec (month a) 12); lia. }
  exists l. split; [exact R|].
  pose proof (loop_chain next_month month_index month_inv 1 cmp_month_index
                next_month_ok end_ fuel cur l Hc He R) as C.
  destruct (chain_head next_month month_index end_ cur l C L) as [l' ->].
  split; [reflexivity|].
  destruct (chain_last next_month month_index month_inv 1 ltac:(lia)
              next_month_ok end_ cur _ Hc C L) as (x & Hl & Ix & Bx & Mx).
  split.
  { rewrite Hl. f_equal. apply month_index_inj; [assumption..|lia]. }
  split; [exact (chain_sorted next_month month_index month_inv 1 ltac:(lia)
                  cmp_month_index next_month_ok end_ cur _ Hc C)|].
  pose proof (chain_bounds next_month month_index month_inv 1 ltac:(lia)
                next_month_ok end_ cur _ Hc C) as B.
  split; [eapply Forall_impl; [exact B|]; intros a ((Ia & _) & _); exact Ia|].
  intros i a b Ha Hb.
  exact (chain_next next_month month_index end_ cur _ C i a b Ha Hb).
Qed.


Lemma date_leb_first_of_month a b :
  date_leb a b = true ->
  date_leb (Date (year a) (month a) 1) (Date (year b) (month b) 1) = true.
Proof.
  unfold date_leb, date_fields. simpl.
  destruct (year a ?= year b); try (intros; assumption || reflexivity).
  destruct (month a ?= month b); intros; assumption || reflexivity.
Qed.

Lemma bind_ok {A B} (x : A) (k : A -> Py.result B) :
  (Py.Ok x ≫= k) = k x.
Proof. reflexivity. Qed.

Ltac interval_cases interval :=
  unfold has_next, _iter_buckets, bucket_start_of, bucket_follows in *;
  unfold _bucket_key, step_of in *;
  destruct (String.eqb interval "month") eqn:?;
  [|destruct (String.eqb interval "week") eqn:?].

(** For a range whose last bucket has a successor, the buckets run
    from the bucket of [date_from] to the bucket of [date_to], each one
    following the one before. *)
Lemma iter_buckets_range date_from date_to interval :
  valid_datetime date_from = true ->
  valid_datetime date_to = true ->
  datetime_leb date_from date_to = true ->
  has_next date_to interval = true ->
  exists l first last_,
    _iter_buckets date_from date_to interval = Py.Ok l /\
    head l = Some first /\ last l = Some last_ /\
    bucket_start_of interval date_from first /\
    bucket_start_of interval date_to last_ /\
    StronglySorted (fun a b => date_ltb a b = true) l /\
    Forall (fun d => valid_date d = true) l /\
    (forall i a b, l !! i = Some a -> l !! S i = Some b ->
       bucket_follows interval a b).
Proof.
  intros Vf Vt L N.
  assert (Df : valid_date (dt_date date_from) = true).
  { unfold valid_datetime in Vf. rewrite !andb_true_iff in Vf. tauto. }
  assert (Dt : valid_date (dt_date date_to) = true).
  { unfold valid_datetime in Vt. rewrite !andb_true_iff in Vt. tauto. }
  apply datetime_leb_date in L.
  revert N. interval_cases interval; intros N.
  - destruct (first_of_month_ok _ Df) as [Ef If].
    destruct (first_of_month_ok _ Dt) as [Et It].
    rewrite Ef, Et, !bind_ok. rewrite Et, bind_ok in N.
    set (cur := Date (year (dt_date date_from)) (month (dt_date date_from)) 1) in *.
    set (end_ := Date (year (dt_date date_to)) (month (dt_date date_to)) 1) in *.
    destruct (month_loop (Z.to_nat (month_index end_ - month_index cur + 1))
                cur end_ If It) as (l & R & Hh & Hl & S & V & C).
    + pose proof (date_leb_first_of_month _ _ L) as L'.
      change (date_leb cur end_ = true) in L'.
      rewrite (leb_ord month_index month_inv cmp_month_index cur end_ If It) in L'.
      apply Z.leb_le in L'. lia.
    + apply date_leb_first_of_month. exact L.
    + destruct (next_month end_) as [b| |]; [eauto | discriminate | discriminate].
    + exists l, cur, end_. repeat (split; [first [assumption | reflexivity]|]).
      intros i a b Ha Hb. specialize (C i a b Ha Hb).
      unfold next_month in C. apply mkdate_ok in C. destruct C as [-> _].
      destruct (month a =? 12); [reflexivity | rewrite Z.add_0_r; reflexivity].
  - destruct (monday_of_ok _ Df) as (cur & Ef & Vc & Oc & Wc).
    destruct (monday_of_ok _ Dt) as (end_ & Et & Ve & Oe & We).
    rewrite Ef, Et, !bind_ok. rewrite Et, bind_ok in N.
    rewrite (leb_ord toordinal day_inv cmp_toordinal _ _ Df Dt) in L.
    apply Z.leb_le in L.
    pose proof (weekday_range (dt_date date_from)) as Rf.
    pose proof (weekday_range (dt_date date_to)) as Rt.
    assert (LL : toordinal cur <= toordinal end_).
    { rewrite Oc, Oe. unfold weekday in *. divmod. }
    destruct (day_loop 7 (Z.to_nat (toordinal end_ - toordinal cur + 1))
                cur end_ ltac:(lia) Vc Ve) as (l & R & Hh & Hl & S & V & C).
    + lia.
    + rewrite (leb_ord toordinal day_inv cmp_toordinal _ _ Vc Ve).
      apply Z.leb_le. exact LL.
    + unfold add_days in N. destruct (_ && _) eqn:E in N; [|discriminate].
      apply andb_true_iff in E. destruct E as [_ E]. apply Z.leb_le in E. exact E.
    + unfold weekday in Wc, We. divmod.
    + exists l, cur, end_. repeat (split; [first [assumption | reflexivity | lia]|]).
      exact C.
  - set (cur := dt_date date_from) in *. set (end_ := dt_date date_to) in *.
    rewrite bind_ok in N.
    rewrite (leb_ord toordinal day_inv cmp_toordinal _ _ Df Dt) in L.
    apply Z.leb_le in L.
    destruct (day_loop 1 (Z.to_nat (toordinal end_ - toordinal cur + 1))
                cur end_ ltac:(lia) Df Dt) as (l & R & Hh & Hl & S & V & C).
    + lia.
    + rewrite (leb_ord toordinal day_inv cmp_toordinal _ _ Df Dt).
      apply Z.leb_le. exact L.
    + unfold add_days in N. destruct (_ && _) eqn:E in N; [|discriminate].
      apply andb_true_iff in E. destruct E as [_ E]. apply Z.leb_le in E. exact E.
    + apply Z.mod_1_r.
    + exists l, cur, end_. repeat (split; [first [assumption | reflexivity]|]).
      exact C.
Qed.

(** When the bucket of [date_from] starts after the bucket of [date_to],
    no loop body runs. *)
Lemma iter_buckets_none date_from date_to interval cur end_ :
  _bucket_key date_from interval = Py.Ok cur ->
  _bucket_key date_to interval = Py.Ok end_ ->
  date_ltb end_ cur = true ->
  _iter_buckets date_from date_to interval = Py.Ok [].
Proof.
  intros Kf Kt L. apply date_ltb_not_leb in L.
  revert Kf Kt. interval_cases interval; intros Kf Kt.
  - rewrite Kf, Kt, !bind_ok. destruct (Z.to_nat _); simpl; rewrite L; reflexivity.
  - rewrite Kf, Kt, !bind_ok. destruct (Z.to_nat _); simpl; rewrite L; reflexivity.
  - injection Kf as <-. injection Kt as <-.
    destruct (Z.to_nat _); simpl; rewrite L; reflexivity.
Qed.

(** *** Ranges that end in the bucket they start in *)

Lemma cmp_fields_refl a : cmp_fields a a = Eq.
Proof.
  induction a as [|x a IH]; [reflexivity|]. simpl.
  rewrite Z.compare_refl. exact IH.
Qed.

Lemma date_leb_refl d : date_leb d d = true.
Proof. unfold date_leb. rewrite cmp_fields_refl. reflexivity. Qed.

Lemma cmp_fields_eq a : forall b,
  length a = length b -> cmp_fields a b = Eq -> a = b.
Proof.
  induction a as [|x a IH]; intros [|y b] L H; simpl in *;
    try reflexivity; try discriminate.
  destruct (Z.compare_spec x y) as [->| |]; try discriminate.
  f_equal. apply IH; [lia | exact H].
Qed.

Lemma date_leb_cases a b :
  date_leb a b = true -> date_ltb a b = true \/ a = b.
Proof.
  unfold date_leb, date_ltb.
  destruct (cmp_fields (date_fields a) (date_fields b)) eqn:C;
    [|left; reflexivity|discriminate].
  intros _. right. apply cmp_fields_eq in C; [|reflexivity].
  destruct a, b. unfold date_fields in C. simpl in C. congruence.
Qed.

Lemma datetime_gt_date a b :
  datetime_leb a b = false -> date_leb (dt_date b) (dt_date a) = true.
Proof.
  intros H. apply datetime_leb_date. revert H. unfold datetime_leb.
  rewrite (cmp_fields_antisym (datetime_fields a) (datetime_fields b)).
  destruct (cmp_fields (datetime_fields a) (datetime_fields b));
    simpl; congruence.
Qed.

(** One turn of the loop: the bucket, and a next start that is past it. *)
Lemma bucket_loop_one next cur b fuel :
  next cur = Py.Ok b -> date_leb b cur = false ->
  bucket_loop (S fuel) next cur cur = Py.Ok [cur].
Proof.
  intros N G. cbn [bucket_loop]. rewrite date_leb_refl, N.
  destruct fuel; cbn [bucket_loop]; rewrite G; reflexivity.
Qed.

Lemma bucket_loop_raises next cur e fuel :
  next cur = Py.Raise e -> bucket_loop (S fuel) next cur cur = Py.Raise e.
Proof. intros N. cbn [bucket_loop]. rewrite date_leb_refl, N. reflexivity. Qed.

Lemma bucket_key_valid dt interval k :
  valid_datetime dt = true -> _bucket_key dt interval = Py.Ok k ->
  if String.eqb interval "month" then month_inv k else day_inv k.
Proof.
  intros V K.
  assert (D : valid_date (dt_date dt) = true).
  { unfold valid_datetime in V. rewrite !andb_true_iff in V. tauto. }
  unfold _bucket_key in K. destruct (String.eqb interval "month").
  - destruct (first_of_month_ok _ D) as [E I]. rewrite E in K.
    injection K as <-. exact I.
  - destruct (String.eqb interval "week").
    + destruct (monday_of_ok _ D) as (m & E & Vm & _). rewrite E in K.
      injection K as <-. exact Vm.
    + injection K as <-. exact D.
Qed.

(** The next start is past the bucket it follows. *)
Lemma step_of_past interval k b :
  (if String.eqb interval "month" then month_inv k else day_inv k) ->
  step_of interval k = Py.Ok b -> date_leb b k = false.
Proof.
  unfold step_of. destruct (String.eqb interval "month").
  - intros I N. destruct (next_month_ok k b I N) as [Ib O].
    rewrite (leb_ord month_index month_inv cmp_month_index b k Ib I).
    apply Z.leb_gt. lia.
  - intros I N.
    assert (P : exists s, 0 < s /\ add_days k s = Py.Ok b).
    { destruct (String.eqb interval "week"); eexists; (split; [|exact N]); lia. }
    destruct P as (s & Hs & A).
    destruct (add_days_ok s k b Hs I A) as [Ib O].
    rewrite (leb_ord toordinal day_inv cmp_toordinal b k Ib I).
    apply Z.leb_gt. lia.
Qed.

Lemma step_of_no_fuel interval k : step_of interval k <> Py.OutOfFuel.
Proof.
  unfold step_of. destruct (String.eqb interval "month");
    [apply next_month_no_fuel|].
  destruct (String.eqb interval "week"); apply add_days_no_fuel.
Qed.

(** [_iter_buckets] when both ends of the range have the bucket [k]: one
    turn of the loop with the step of the interval. *)
Lemma iter_buckets_same_key date_from date_to interval k :
  _bucket_key date_from interval = Py.Ok k ->
  _bucket_key date_to interval = Py.Ok k ->
  _iter_buckets date_from date_to interval =
  bucket_loop 1 (step_of interval) k k.
Proof.
  unfold _iter_buckets, _bucket_key, step_of.
  destruct (String.eqb interval "month");
    [|destruct (String.eqb interval "week")]; intros Kf Kt.
  - rewrite Kf, Kt, !bind_ok, Z.sub_diag. reflexivity.
  - rewrite Kf, Kt, !bind_ok, Z.sub_diag. reflexivity.
  - injection Kf as ->. injection Kt as ->. rewrite Z.sub_diag. reflexivity.
Qed.

Lemma has_next_step date_to interval k :
  _bucket_key date_to interval = Py.Ok k ->
  has_next date_to interval =
  match step_of interval k with
  | Py.Ok _ => true
  | _ => false
  end.
Proof. intros K. unfold has_next. rewrite K, bind_ok. reflexivity. Qed.

(** The bucket of an earlier datetime is not later. *)
Lemma bucket_key_mono a b interval ka kb :
  valid_datetime a = true -> valid_datetime b = true ->
  date_leb (dt_date a) (dt_date b) = true ->
  _bucket_key a interval = Py.Ok ka -> _bucket_key b interval = Py.Ok kb ->
  date_leb ka kb = true.
Proof.
  intros Va Vb L Ka Kb.
  assert (Da : valid_date (dt_date a) = true).
  { unfold valid_datetime in Va. rewrite !andb_true_iff in Va. tauto. }
  assert (Db : valid_date (dt_date b) = true).
  { unfold valid_datetime in Vb. rewrite !andb_true_iff in Vb. tauto. }
  unfold _bucket_key in Ka, Kb.
  destruct (String.eqb interval "month");
    [|destruct (String.eqb interval "week")].
  - apply mkdate_ok in Ka, Kb. destruct Ka as [-> _], Kb as [-> _].
    apply date_leb_first_of_month. exact L.
  - destruct (monday_of_ok _ Da) as (ma & Ea & Vma & Oa & _).
    destruct (monday_of_ok _ Db) as (mb & Eb & Vmb & Ob & _).
    rewrite Ea in Ka. rewrite Eb in Kb. injection Ka as <-. injection Kb as <-.
    rewrite (leb_ord toordinal day_inv cmp_toordinal _ _ Da Db) in L.
    apply Z.leb_le in L.
    rewrite (leb_ord toordinal day_inv cmp_toordinal _ _ Vma Vmb).
    apply Z.leb_le. rewrite Oa, Ob. unfold weekday. divmod.
  - injection Ka as <-. injection Kb as <-. exact L.
Qed.

End BucketFacts.

(** ** SLA rules *)

Module RulesFacts.
Import Rules.

Lemma default_rules_ok : rules_ok SLA_RULES_DEFAULT.
Proof.
  split; [tauto|]. unfold SLA_RULES_DEFAULT.
  repeat (apply map_Forall_insert_2; [lia|]). apply map_Forall_empty.
Qed.

Lemma apply_override_ok params rules kn :
  rules_ok rules -> rules_ok (apply_override params rules kn).
Proof.
  intros [K N]. unfold apply_override.
  destruct (params_get params kn.1); try (split; assumption);
    destruct (Py.int _); try (split; assumption).
  all: split; [|apply map_Forall_insert_2; [lia | assumption]].
  all: intros k Hk; destruct (decide (kn.2 = k)) as [->|Hne];
    [rewrite lookup_insert_eq; eauto | rewrite lookup_insert_ne by assumption; auto].
Qed.

Lemma compose_rules_ok params : rules_ok (_compose_rules_from_params params).
Proof.
  unfold _compose_rules_from_params.
  generalize default_rules_ok. generalize SLA_RULES_DEFAULT.
  induction override_keys as [|kn l IH]; intros rules H; simpl; [assumption|].
  apply IH. apply apply_override_ok. assumption.
Qed.

Lemma compose_rules_default params :
  exists h, _compose_rules_from_params params !! "__default__" = Some h /\ 0 <= h.
Proof.
  destruct (compose_rules_ok params) as [K N].
  destruct (K "__default__") as [h Hh]; [eexists; reflexivity|].
  exists h. split; [assumption|]. exact (N _ _ Hh).
Qed.

(** [_target_hours] on a rule table that has its default entry and no
    negative entry. *)
Lemma target_hours_resolves priority rules :
  rules_ok rules ->
  let p := _normalize_priority priority in
  exists h, _target_hours priority rules = Py.Ok h /\ 0 <= h /\
    (rules !! p = Some h \/
     (rules !! p = None /\
      exists a, alias !! p = Some a /\ rules !! a = Some h) \/
     (rules !! p = None /\
      (forall a, alias !! p = Some a -> rules !! a = None) /\
      rules !! "__default__" = Some h)).
Proof.
  intros [K N] p. unfold _target_hours. fold p.
  destruct (K "__default__") as [d Hd]; [eexists; reflexivity|].
  destruct (rules !! p) as [h|] eqn:Hp.
  { exists h. split; [reflexivity|]. split; [exact (N _ _ Hp) | tauto]. }
  destruct (alias !! p) as [a|] eqn:Ha.
  - destruct (rules !! a) as [h|] eqn:Hr.
    + exists h. split; [reflexivity|]. split; [exact (N _ _ Hr)|].
      right; left. eauto.
    + exists d. unfold getitem. rewrite Hd. split; [reflexivity|].
      split; [exact (N _ _ Hd)|]. right; right.
      split; [reflexivity|]. split; [|reflexivity].
      intros a' [= <-]. assumption.
  - exists d. unfold getitem. rewrite Hd. split; [reflexivity|].
    split; [exact (N _ _ Hd)|]. right; right.
    split; [reflexivity|]. split; [|reflexivity]. intros a' [=].
Qed.

(** The alias table is the fixed one. *)
Lemma alias_table p a :
  alias !! p = Some a <->
  In (p, a) [("critical", "p1"); ("urgent", "p1"); ("high", "p2");
             ("medium", "p3"); ("normal", "p3"); ("standard", "p3");
             ("low", "p4")].
Proof.
  unfold alias. rewrite !lookup_insert_Some, lookup_empty. simpl.
  split.
  - intros H. repeat (destruct H as [[<- <-] | [_ H]]; [tauto|]). discriminate.
  - intros H. repeat (destruct H as [[= <- <-] | H]; [naive_solver|]). contradiction.
Qed.


(** **** Overrides *)

Lemma apply_override_other params rules kn k :
  kn.2 <> k -> apply_override params rules kn !! k = rules !! k.
Proof.
  intros Hne. unfold apply_override.
  destruct (params_get params kn.1); try reflexivity;
    destruct (Py.int _); try reflexivity; apply lookup_insert_ne; assumption.
Qed.

Lemma apply_override_same params rules kn :
  apply_override params rules kn !! kn.2 =
  override_result (rules !! kn.2) (params_get params kn.1).
Proof.
  unfold apply_override, override_result.
  destruct (params_get params kn.1); try reflexivity;
    destruct (Py.int _); try reflexivity; apply lookup_insert_eq.
Qed.

Lemma fold_override_other params l : forall rules k,
  ~ In k (map snd l) ->
  fold_left (apply_override params) l rules !! k = rules !! k.
Proof.
  induction l as [|kn l IH]; intros rules k Hk; cbn [fold_left]; [reflexivity|].
  cbn [map] in Hk. rewrite IH by (intros C; apply Hk; right; exact C).
  apply apply_override_other. intros E. apply Hk. left. exact E.
Qed.

Lemma fold_override_same params l : forall rules kn,
  List.NoDup (map snd l) -> In kn l ->
  fold_left (apply_override params) l rules !! kn.2 =
  override_result (rules !! kn.2) (params_get params kn.1).
Proof.
  induction l as [|kn0 l IH]; intros rules kn ND Hin; [contradiction|].
  cbn [fold_left map] in *. inversion ND as [|? ? Hn ND']; subst.
  destruct Hin as [-> | Hin].
  - rewrite fold_override_other by assumption. apply apply_override_same.
  - rewrite (IH _ kn ND' Hin). rewrite apply_override_other; [reflexivity|].
    intros E. apply Hn. rewrite E. apply in_map. exact Hin.
Qed.

Lemma override_keys_nodup : List.NoDup (map snd override_keys).
Proof.
  unfold override_keys. cbn [map snd].
  repeat (constructor; [cbn [In]; intros C; repeat destruct C as [C|C]; discriminate C || exact C|]).
  constructor.
Qed.

End RulesFacts.

(** ** Stable sorting *)

Module SortFacts.
Section Sort.
Context {A : Type} (leb : A -> A -> bool).

Lemma insert_sorted_perm x l : Permutation (x :: l) (insert_sorted leb x l).
Proof.
  induction l as [|y l IH]; simpl; [reflexivity|].
  destruct (leb x y); [reflexivity|].
  rewrite perm_swap. apply perm_skip. exact IH.
Qed.

Lemma sort_by_perm l : Permutation l (sort_by leb l).
Proof.
  induction l as [|x l IH]; simpl; [reflexivity|].
  rewrite <- insert_sorted_perm. apply perm_skip. exact IH.
Qed.

Lemma sort_by_length l : length (sort_by leb l) = length l.
Proof. symmetry. apply Permutation_length, sort_by_perm. Qed.

Lemma sort_by_Forall (P : A -> Prop) l :
  Forall P l -> Forall P (sort_by leb l).
Proof. intros H. eapply Permutation_Forall; [apply sort_by_perm | exact H]. Qed.

Lemma sort_by_In x l : In x (sort_by leb l) <-> In x l.
Proof.
  split; apply Permutation_in; [symmetry|]; apply sort_by_perm.
Qed.

Hypothesis leb_total : forall a b, leb a b = true \/ leb b a = true.
Hypothesis leb_trans : forall a b c,
  leb a b = true -> leb b c = true -> leb a c = true.

Lemma insert_sorted_sorted x l :
  StronglySorted (fun a b => leb a b = true) l ->
  StronglySorted (fun a b => leb a b = true) (insert_sorted leb x l).
Proof.
  induction 1 as [|y l S IH F]; simpl.
  - constructor; constructor.
  - destruct (leb x y) eqn:E.
    + constructor; [constructor; assumption|].
      constructor; [assumption|].
      eapply Forall_impl; [exact F|]. intros z Hz. eapply leb_trans; eassumption.
    + constructor; [assumption|].
      eapply Permutation_Forall; [apply insert_sorted_perm|].
      constructor; [|assumption].
      destruct (leb_total x y); congruence.
Qed.

Lemma sort_by_sorted l :
  StronglySorted (fun a b => leb a b = true) (sort_by leb l).
Proof.
  induction l as [|x l IH]; simpl; [constructor|].
  apply insert_sorted_sorted. exact IH.
Qed.
End Sort.

Lemma StronglySorted_take {A} (R : A -> A -> Prop) n l :
  StronglySorted R l -> StronglySorted R (take n l).
Proof.
  intros S. revert n. induction S as [|x l S IH F]; intros [|n]; simpl;
    try constructor.
  - apply IH.
  - apply Forall_take. exact F.
Qed.
End SortFacts.

(** ** SLA achievement *)

Module ReportsSlaFacts.
Import Calendar Models Rules Done Buckets ReportsSla.
Import CalendarFacts BucketFacts RulesFacts SortFacts.

Lemma count_rows_cons f r rows :
  count_rows f (r :: rows) = Z.b2z (f r) + count_rows f rows.
Proof.
  unfold count_rows. simpl. destruct (f r); simpl; lia.
Qed.

Lemma closed_at_is_closed r :
  is_closed r = match closed_at r with Some _ => true | None => false end.
Proof.
  unfold is_closed, closed_at. destruct (_is_done _); reflexivity.
Qed.

(** One turn of the loop counts the ticket once, in the counter of its
    class. *)
Lemma step_counts rules interval bucket_starts now st r st' :
  step rules interval bucket_starts now st r = Py.Ok st' ->
  closed st' = closed st + Z.b2z (is_closed r) /\
  achieved_closed st' =
    achieved_closed st + Z.b2z (is_closed r && within_target rules r) /\
  breached_closed st' =
    breached_closed st + Z.b2z (is_closed r && negb (within_target rules r)).
Proof.
  unfold step, within_target, turnaround_hours, hours_between.
  rewrite closed_at_is_closed. unfold closed_at.
  destruct (_target_hours (ticket_priority r) rules) as [tgt| |]; try discriminate.
  rewrite bind_ok.
  destruct (_is_done (ticket_status r)); [destruct (update_dt r) as [u|]|].
  - destruct (_bucket_key u interval) as [b| |]; try discriminate.
    rewrite bind_ok. destruct (Qle_bool _ _); intros [= <-]; simpl; lia.
  - destruct (Qle_bool _ _); intros [= <-]; simpl; lia.
  - destruct (Qle_bool _ _); intros [= <-]; simpl; lia.
Qed.

Lemma run_loop_counts rules interval bucket_starts now rows : forall st st',
  run_loop (step rules interval bucket_starts now) st rows = Py.Ok st' ->
  closed st' = closed st + count_rows is_closed rows /\
  achieved_closed st' =
    achieved_closed st +
    count_rows (fun r => is_closed r && within_target rules r) rows /\
  breached_closed st' =
    breached_closed st +
    count_rows (fun r => is_closed r && negb (within_target rules r)) rows.
Proof.
  induction rows as [|r rows IH]; intros st st' H; simpl in H.
  - injection H as <-. unfold count_rows. simpl. lia.
  - destruct (step rules interval bucket_starts now st r) as [st1| |] eqn:S;
      try discriminate.
    apply step_counts in S. apply IH in H. rewrite !count_rows_cons. lia.
Qed.

(** The report is built from the final state of the loop. *)
Lemma query_sla_achievement_inv db now params rep :
  _query_sla_achievement db now params = Py.Ok rep ->
  exists bucket_starts st,
    _iter_buckets (Params.date_from params) (Params.date_to params)
      (Params.interval_or_day params) = Py.Ok bucket_starts /\
    run_loop (step (_compose_rules_from_params params)
                (Params.interval_or_day params) bucket_starts now)
      (init (length bucket_starts)) (query_rows db params) = Py.Ok st /\
    kpi_closed (r_kpi rep) = closed st /\
    kpi_achieved_closed (r_kpi rep) = achieved_closed st /\
    kpi_breached_closed (r_kpi rep) = breached_closed st /\
    breached_samples rep = take 50 (sort_samples (samples st)).
Proof.
  unfold _query_sla_achievement.
  destruct (_iter_buckets _ _ _) as [bs| |] eqn:B; try discriminate.
  rewrite bind_ok.
  destruct (run_loop _ _ _) as [st| |] eqn:R; try discriminate.
  rewrite bind_ok. intros [= <-]. exists bs, st. simpl.
  repeat split; reflexivity || exact R.
Qed.


(** **** The aggregator returns *)

Lemma valid_datetime_date t : valid_datetime t = true -> valid_date (dt_date t) = true.
Proof. unfold valid_datetime. rewrite !andb_true_iff. tauto. Qed.

Lemma bucket_key_ok dt interval :
  valid_datetime dt = true ->
  exists b, _bucket_key dt interval = Py.Ok b /\ valid_date b = true.
Proof.
  intros V. apply valid_datetime_date in V. unfold _bucket_key.
  destruct (String.eqb interval "month"); [|destruct (String.eqb interval "week")].
  - destruct (first_of_month_ok _ V) as [E [I _]]. eauto.
  - destruct (monday_of_ok _ V) as (m & E & Vm & _). eauto.
  - eauto.
Qed.

Lemma step_ok rules interval bucket_starts now st r :
  rules_ok rules -> ticket_valid r ->
  exists st', step rules interval bucket_starts now st r = Py.Ok st'.
Proof.
  intros RO [_ Vu]. unfold step.
  destruct (target_hours_resolves (ticket_priority r) rules RO) as (h & -> & _).
  rewrite bind_ok. unfold closed_at.
  destruct (_is_done (ticket_status r)); [destruct (update_dt r) as [u|]|].
  - destruct (bucket_key_ok u interval (Vu u eq_refl)) as (b & -> & _).
    rewrite bind_ok. destruct (Qle_bool _ _); eauto.
  - destruct (Qle_bool _ _); eauto.
  - destruct (Qle_bool _ _); eauto.
Qed.

Lemma run_loop_ok rules interval bucket_starts now rows : forall st,
  rules_ok rules -> Forall ticket_valid rows ->
  exists st', run_loop (step rules interval bucket_starts now) st rows = Py.Ok st'.
Proof.
  induction rows as [|r rows IH]; intros st RO F; simpl; [eauto|].
  inversion F as [|? ? Vr F']; subst.
  destruct (step_ok rules interval bucket_starts now st r RO Vr) as [st1 ->].
  apply IH; assumption.
Qed.

Lemma filter_Forall {A} (P : A -> Prop) f l :
  Forall P l -> Forall P (List.filter f l).
Proof.
  induction 1 as [|x l Hx F IH]; simpl; [constructor|].
  destruct (f x); [constructor|]; assumption.
Qed.

Lemma query_rows_valid db params :
  Forall ticket_valid db -> Forall ticket_valid (query_rows db params).
Proof.
  intros F. unfold query_rows. apply sort_by_Forall, filter_Forall, F.
Qed.

Lemma query_sla_achievement_returns db now params :
  valid_datetime (Params.date_from params) = true ->
  valid_datetime (Params.date_to params) = true ->
  datetime_leb (Params.date_from params) (Params.date_to params) = true ->
  has_next (Params.date_to params) (Params.interval_or_day params) = true ->
  Forall ticket_valid db ->
  exists rep, _query_sla_achievement db now params = Py.Ok rep.
Proof.
  intros Vf Vt L N F.
  destruct (iter_buckets_range _ _ _ Vf Vt L N) as (bs & _ & _ & B & _).
  unfold _query_sla_achievement. rewrite B, bind_ok.
  destruct (run_loop_ok (_compose_rules_from_params params)
              (Params.interval_or_day params) bs now (query_rows db params)
              (init (length bs)) (compose_rules_ok params)
              (query_rows_valid db params F)) as [st ->].
  rewrite bind_ok. eauto.
Qed.

End ReportsSlaFacts.

(** ** Rounding and comparison of hours *)

Module PyFacts.

Lemma round_half_even_nonneg x : (0 <= x)%Q -> 0 <= Py.round_half_even x.
Proof.
  intros H. unfold Py.round_half_even.
  assert (F : 0 <= Qfloor x).
  { change 0 with (Qfloor 0). apply Qfloor_resp_le. exact H. }
  destruct (_ ?= _)%Q; [destruct (Z.even _)| |]; lia.
Qed.

Lemma round_nonneg x n : (0 <= x)%Q -> (0 <= Py.round x n)%Q.
Proof.
  intros H. unfold Py.round.
  assert (M : 0 < 10 ^ Z.of_nat n) by (apply Z.pow_pos_nonneg; lia).
  set (m := 10 ^ Z.of_nat n) in *.
  assert (Mq : (0 < inject_Z m)%Q) by (rewrite <- (Zlt_Qlt 0); exact M).
  apply Qle_shift_div_l; [exact Mq|]. rewrite Qmult_0_l.
  rewrite <- (Zle_Qle 0). apply round_half_even_nonneg.
  apply Qmult_le_0_compat; [exact H | apply Qlt_le_weak, Mq].
Qed.

Lemma Qle_bool_false a b : Qle_bool a b = false -> (b < a)%Q.
Proof.
  intros H. apply Qnot_le_lt. intros C. apply Qle_bool_iff in C. congruence.
Qed.

Lemma gtb_true a b : Py.gtb a b = true -> (b < a)%Q.
Proof. unfold Py.gtb. intros H. apply Qle_bool_false, negb_true_iff, H. Qed.

Lemma gtb_false a b : Py.gtb a b = false -> (a <= b)%Q.
Proof. unfold Py.gtb. intros H. apply Qle_bool_iff, negb_false_iff, H. Qed.

Lemma Qle_bool_total a b : Qle_bool a b = true \/ Qle_bool b a = true.
Proof.
  destruct (Qlt_le_dec a b) as [H|H].
  - left. apply Qle_bool_iff, Qlt_le_weak, H.
  - right. apply Qle_bool_iff, H.
Qed.

Lemma Qle_bool_trans a b c :
  Qle_bool a b = true -> Qle_bool b c = true -> Qle_bool a c = true.
Proof. rewrite !Qle_bool_iff. apply Qle_trans. Qed.

End PyFacts.

(** ** Overdue samples of the two SLA reports *)

Module SampleFacts.
Import Calendar Models Rules Done Buckets.
Import CalendarFacts BucketFacts RulesFacts SortFacts PyFacts.

Lemma StronglySorted_weaken {A} (R1 R2 : A -> A -> Prop) l :
  (forall a b, R1 a b -> R2 a b) -> StronglySorted R1 l -> StronglySorted R2 l.
Proof.
  intros W. induction 1 as [|x l S IH F]; constructor; [exact IH|].
  eapply Forall_impl; [exact F|]. intros y. apply W.
Qed.

Lemma hours_between_nonneg a b : (0 <= ReportsSla.hours_between a b)%Q.
Proof. unfold ReportsSla.hours_between. apply Q.le_max_l. Qed.

(** A duration that would be negative is clamped to zero hours. *)
Lemma hours_between_clamped a b :
  sub_microseconds a b <= 0 -> (ReportsSla.hours_between a b == 0)%Q.
Proof.
  intros H. unfold ReportsSla.hours_between, total_seconds.
  apply Q.max_l.
  assert (E : (inject_Z (sub_microseconds a b) <= 0)%Q)
    by (rewrite <- (Zle_Qle _ 0); exact H).
  apply Qle_shift_div_r; [reflexivity|]. rewrite Qmult_0_l.
  apply Qle_shift_div_r; [reflexivity|]. rewrite Qmult_0_l. exact E.
Qed.

Section Achievement.
Import ReportsSla.

Lemma ach_step_samples rules interval bucket_starts now st r st' :
  rules_ok rules ->
  step rules interval bucket_starts now st r = Py.Ok st' ->
  Forall sample_ok (samples st) -> Forall sample_ok (samples st').
Proof.
  intros RO H F. unfold step in H.
  destruct (target_hours_resolves (ticket_priority r) rules RO)
    as (tgt & E & T & _).
  rewrite E, bind_ok in H.
  destruct (closed_at r) as [u|].
  - destruct (_bucket_key u interval) as [b| |]; try discriminate.
    rewrite bind_ok in H.
    destruct (Qle_bool _ _) eqn:C; injection H as <-; simpl; [exact F|].
    apply Forall_app. split; [exact F|]. constructor; [|constructor].
    unfold sample_ok; repeat split; simpl; [exact T | apply round_nonneg, hours_between_nonneg|].
    apply round_nonneg. apply Qle_bool_false in C.
    apply Qlt_le_weak, (proj1 (Qlt_minus_iff _ _)), C.
  - destruct (Qle_bool _ _) eqn:C; injection H as <-; simpl; [exact F|].
    apply Forall_app. split; [exact F|]. constructor; [|constructor].
    unfold sample_ok; repeat split; simpl; [exact T | apply round_nonneg, hours_between_nonneg|].
    apply round_nonneg. apply Qle_bool_false in C.
    apply Qlt_le_weak, (proj1 (Qlt_minus_iff _ _)), C.
Qed.

Lemma ach_run_loop_samples rules interval bucket_starts now rows :
  forall st st',
  rules_ok rules ->
  run_loop (step rules interval bucket_starts now) st rows = Py.Ok st' ->
  Forall sample_ok (samples st) -> Forall sample_ok (samples st').
Proof.
  induction rows as [|r rows IH]; intros st st' RO H F; simpl in H.
  - injection H as <-. exact F.
  - destruct (step rules interval bucket_starts now st r) as [st1| |] eqn:S;
      try discriminate.
    eapply IH; [exact RO | exact H |].
    eapply ach_step_samples; eassumption.
Qed.

Lemma ach_sort_samples_sorted l :
  StronglySorted (fun a b => (overdue_h b <= overdue_h a)%Q) (sort_samples l).
Proof.
  unfold sort_samples.
  eapply StronglySorted_weaken;
    [|apply (sort_by_sorted (fun a b => Qle_bool (overdue_h b) (overdue_h a)))].
  - intros a b H. apply Qle_bool_iff. exact H.
  - intros a b. destruct (Qle_bool_total (overdue_h a) (overdue_h b)); tauto.
  - intros a b c H1 H2. eapply Qle_bool_trans; eassumption.
Qed.
End Achievement.


Section Overdue.
Import ReportsSlaOverdue.

Lemma ovd_step_samples rules interval buckets now st r st' :
  rules_ok rules ->
  step rules interval buckets now st r = Py.Ok st' ->
  Forall sample_ok (samples st) -> Forall sample_ok (samples st').
Proof.
  intros RO H F. unfold step in H.
  destruct (target_hours_resolves (ticket_priority r) rules RO)
    as (tgt & E & T & _).
  rewrite E, bind_ok in H.
  destruct (ReportsSla.closed_at r) as [u|].
  - destruct (Py.gtb _ _) eqn:C; [|injection H as <-; exact F].
    destruct (_bucket_key u interval) as [b| |]; try discriminate.
    rewrite bind_ok in H. injection H as <-. simpl.
    apply Forall_app. split; [exact F|]. constructor; [|constructor].
    unfold sample_ok; repeat split; simpl; [exact T | apply round_nonneg, hours_between_nonneg|].
    apply round_nonneg. apply gtb_true in C.
    apply Qlt_le_weak, (proj1 (Qlt_minus_iff _ _)), C.
  - destruct (Py.gtb _ _) eqn:C; [|injection H as <-; exact F].
    destruct (_bucket_key (create_dt r) interval) as [b| |]; try discriminate.
    rewrite bind_ok in H. injection H as <-. simpl.
    apply Forall_app. split; [exact F|]. constructor; [|constructor].
    unfold sample_ok; repeat split; simpl; [exact T | apply round_nonneg, hours_between_nonneg|].
    apply round_nonneg. apply gtb_true in C.
    apply Qlt_le_weak, (proj1 (Qlt_minus_iff _ _)), C.
Qed.

Lemma ovd_run_loop_samples rules interval buckets now rows :
  forall st st',
  rules_ok rules ->
  run_loop (step rules interval buckets now) st rows = Py.Ok st' ->
  Forall sample_ok (samples st) -> Forall sample_ok (samples st').
Proof.
  induction rows as [|r rows IH]; intros st st' RO H F; simpl in H.
  - injection H as <-. exact F.
  - destruct (step rules interval buckets now st r) as [st1| |] eqn:S;
      try discriminate.
    eapply IH; [exact RO | exact H |].
    eapply ovd_step_samples; eassumption.
Qed.

Lemma ovd_sort_samples_sorted l :
  StronglySorted (fun a b => (overdue_h b <= overdue_h a)%Q) (sort_samples l).
Proof.
  unfold sort_samples.
  eapply StronglySorted_weaken;
    [|apply (sort_by_sorted (fun a b => Qle_bool (overdue_h b) (overdue_h a)))].
  - intros a b H. apply Qle_bool_iff. exact H.
  - intros a b. destruct (Qle_bool_total (overdue_h a) (overdue_h b)); tauto.
  - intros a b c H1 H2. eapply Qle_bool_trans; eassumption.
Qed.

Lemma query_overdue_inv db now params rep :
  _query_overdue db now params = Py.Ok rep ->
  exists buckets st,
    run_loop (step (_compose_rules_from_params params)
                (Params.interval_or_day params) buckets now)
      (init (length buckets)) (ReportsSla.query_rows db params) = Py.Ok st /\
    top_samples rep = take 50 (sort_samples (samples st)).
Proof.
  unfold _query_overdue.
  destruct (_iter_buckets _ _ _) as [bs| |] eqn:B; try discriminate.
  rewrite bind_ok.
  destruct (run_loop _ _ _) as [st| |] eqn:R; try discriminate.
  rewrite bind_ok. intros [= <-]. exists bs, st. simpl.
  split; [exact R | reflexivity].
Qed.

Lemma ovd_step_ok rules interval buckets now st r :
  rules_ok rules -> ReportsSla.ticket_valid r ->
  exists st', step rules interval buckets now st r = Py.Ok st'.
Proof.
  intros RO [Vc Vu]. unfold step.
  destruct (target_hours_resolves (ticket_priority r) rules RO) as (h & -> & _).
  rewrite bind_ok. unfold ReportsSla.closed_at.
  destruct (_is_done (ticket_status r)); [destruct (update_dt r) as [u|]|].
  - destruct (ReportsSlaFacts.bucket_key_ok u interval (Vu u eq_refl)) as (b & -> & _).
    rewrite bind_ok. destruct (Py.gtb _ _); eauto.
  - destruct (ReportsSlaFacts.bucket_key_ok _ interval Vc) as (b & -> & _).
    rewrite bind_ok. destruct (Py.gtb _ _); eauto.
  - destruct (ReportsSlaFacts.bucket_key_ok _ interval Vc) as (b & -> & _).
    rewrite bind_ok. destruct (Py.gtb _ _); eauto.
Qed.

Lemma ovd_run_loop_ok rules interval buckets now rows : forall st,
  rules_ok rules -> Forall ReportsSla.ticket_valid rows ->
  exists st', run_loop (step rules interval buckets now) st rows = Py.Ok st'.
Proof.
  induction rows as [|r rows IH]; intros st RO F; simpl; [eauto|].
  inversion F as [|? ? Vr F']; subst.
  destruct (ovd_step_ok rules interval buckets now st r RO Vr) as [st1 ->].
  apply IH; assumption.
Qed.

Lemma query_overdue_returns db now params :
  valid_datetime (Params.date_from params) = true ->
  valid_datetime (Params.date_to params) = true ->
  datetime_leb (Params.date_from params) (Params.date_to params) = true ->
  has_next (Params.date_to params) (Params.interval_or_day params) = true ->
  Forall ReportsSla.ticket_valid db ->
  exists rep, _query_overdue db now params = Py.Ok rep.
Proof.
  intros Vf Vt L N F.
  destruct (iter_buckets_range _ _ _ Vf Vt L N) as (bs & _ & _ & B & _).
  unfold _query_overdue. rewrite B, bind_ok.
  destruct (ovd_run_loop_ok (_compose_rules_from_params params)
              (Params.interval_or_day params) bs now
              (ReportsSla.query_rows db params)
              (init (length bs)) (compose_rules_ok params)
              (ReportsSlaFacts.query_rows_valid db params F)) as [st ->].
  rewrite bind_ok. eauto.
Qed.
End Overdue.

End SampleFacts.

(** ** Percentiles *)

Module PercentileFacts.
Import ReportsTicket BucketFacts SortFacts PyFacts.

Lemma index_nth {A} (l : list A) (i : Z) (d : A) :
  0 <= i < Z.of_nat (length l) -> Py.index l i = Py.Ok (nth (Z.to_nat i) l d).
Proof.
  intros [H1 H2]. unfold Py.index.
  destruct (Z.ltb_spec i 0); [lia|].
  destruct (Z.leb_spec 0 i); [|lia]. destruct (Z.ltb_spec i (Z.of_nat (length l))); [|lia].
  simpl. destruct (l !! Z.to_nat i) as [x|] eqn:E.
  - f_equal. symmetry. apply nth_lookup_Some with (d := d) in E. exact E.
  - apply lookup_ge_None in E. lia.
Qed.

Lemma sorted_nth_le (s : list Q) i j :
  StronglySorted (fun a b => Qle_bool a b = true) s ->
  (i <= j < length s)%nat -> (nth i s 0 <= nth j s 0)%Q.
Proof.
  intros S. revert i j. induction S as [|x l S IH F]; intros i j [H1 H2]; simpl in *.
  - lia.
  - destruct i as [|i], j as [|j]; try lia.
    + apply Qle_refl.
    + apply Qle_bool_iff. rewrite Forall_forall in F. apply F.
      apply list_elem_of_In, nth_In. lia.
    + apply IH. lia.
Qed.

Lemma sorted_values values :
  StronglySorted (fun a b => Qle_bool a b = true) (sort_by Qle_bool values).
Proof. apply sort_by_sorted; [apply Qle_bool_total | apply Qle_bool_trans]. Qed.

Section Interpolation.
Variable s : list Q.
Hypothesis s_sorted : StronglySorted (fun a b => Qle_bool a b = true) s.
Let n := Z.of_nat (length s).

Lemma floor_range k :
  (0 <= k)%Q -> (k <= inject_Z (n - 1))%Q -> 0 <= Qfloor k <= n - 1.
Proof.
  intros H1 H2. split.
  - change 0 with (Qfloor 0). apply Qfloor_resp_le, H1.
  - rewrite <- (Qfloor_Z (n - 1)). apply Qfloor_resp_le, H2.
Qed.

Lemma nth_mono i j :
  0 <= i -> i <= j -> j <= n - 1 ->
  (nth (Z.to_nat i) s 0 <= nth (Z.to_nat j) s 0)%Q.
Proof. intros. apply sorted_nth_le; [exact s_sorted | subst n; lia]. Qed.

Lemma at_index_lower k :
  (0 <= k)%Q -> (k <= inject_Z (n - 1))%Q ->
  (nth (Z.to_nat (Qfloor k)) s 0 <= interpolate s k)%Q.
Proof.
  intros H1 H2. pose proof (floor_range k H1 H2) as R.
  unfold interpolate. cbv zeta. fold n.
  destruct (Z.eqb_spec (Qfloor k) (Z.min (Qfloor k + 1) (n - 1))) as [E|E];
    [apply Qle_refl|].
  pose proof (nth_mono (Qfloor k) (Z.min (Qfloor k + 1) (n - 1)) ltac:(lia) ltac:(lia) ltac:(lia)) as M.
  pose proof (Qfloor_le k) as Fl.
  set (a := nth (Z.to_nat (Qfloor k)) s 0%Q) in *.
  set (b := nth (Z.to_nat (Z.min (Qfloor k + 1) (n - 1))) s 0%Q) in *.
  set (fk := inject_Z (Qfloor k)) in *.
  nra.
Qed.

Lemma at_index_upper k :
  (0 <= k)%Q -> (k <= inject_Z (n - 1))%Q ->
  (interpolate s k <= nth (Z.to_nat (Z.min (Qfloor k + 1) (n - 1))) s 0)%Q.
Proof.
  intros H1 H2. pose proof (floor_range k H1 H2) as R.
  unfold interpolate. cbv zeta. fold n.
  destruct (Z.eqb_spec (Qfloor k) (Z.min (Qfloor k + 1) (n - 1))) as [E|E];
    [rewrite <- E; apply Qle_refl|].
  pose proof (nth_mono (Qfloor k) (Z.min (Qfloor k + 1) (n - 1)) ltac:(lia) ltac:(lia) ltac:(lia)) as M.
  pose proof (Qfloor_le k) as Fl.
  pose proof (Qlt_floor k) as Fu.
  rewrite inject_Z_plus in Fu.
  set (a := nth (Z.to_nat (Qfloor k)) s 0%Q) in *.
  set (b := nth (Z.to_nat (Z.min (Qfloor k + 1) (n - 1))) s 0%Q) in *.
  set (fk := inject_Z (Qfloor k)) in *.
  change (inject_Z 1) with 1%Q in Fu.
  nra.
Qed.

Lemma at_index_mono k1 k2 :
  (0 <= k1)%Q -> (k1 <= k2)%Q -> (k2 <= inject_Z (n - 1))%Q ->
  (interpolate s k1 <= interpolate s k2)%Q.
Proof.
  intros H0 H12 H2.
  assert (H1 : (k1 <= inject_Z (n - 1))%Q) by (eapply Qle_trans; eassumption).
  assert (H0' : (0 <= k2)%Q) by (eapply Qle_trans; eassumption).
  pose proof (floor_range k1 H0 H1) as R1.
  pose proof (floor_range k2 H0' H2) as R2.
  pose proof (Qfloor_resp_le k1 k2 H12) as FF.
  destruct (Z.eq_dec (Qfloor k1) (Qfloor k2)) as [E|NE].
  - unfold interpolate. cbv zeta. fold n. rewrite E.
    destruct (Z.eqb_spec (Qfloor k2) (Z.min (Qfloor k2 + 1) (n - 1))) as [E'|E'];
      [apply Qle_refl|].
    pose proof (nth_mono (Qfloor k2) (Z.min (Qfloor k2 + 1) (n - 1)) ltac:(lia) ltac:(lia) ltac:(lia)) as M.
    set (a := nth (Z.to_nat (Qfloor k2)) s 0%Q) in *.
    set (b := nth (Z.to_nat (Z.min (Qfloor k2 + 1) (n - 1))) s 0%Q) in *.
    set (fk := inject_Z (Qfloor k2)) in *.
    nra.
  - eapply Qle_trans; [apply at_index_upper; assumption|].
    eapply Qle_trans; [|apply at_index_lower; assumption].
    apply nth_mono; lia.
Qed.
End Interpolation.


Lemma virtual_index_range n p :
  1 <= n -> (0 <= p)%Q -> (p <= 1)%Q ->
  (0 <= inject_Z (n - 1) * p)%Q /\ (inject_Z (n - 1) * p <= inject_Z (n - 1))%Q.
Proof.
  intros Hn H0 H1.
  assert (N : (0 <= inject_Z (n - 1))%Q) by (rewrite <- (Zle_Qle 0); lia).
  split; [apply Qmult_le_0_compat; assumption|].
  rewrite <- (Qmult_1_r (inject_Z (n - 1))) at 2.
  rewrite !(Qmult_comm (inject_Z (n - 1))).
  apply Qmult_le_compat_r; assumption.
Qed.

Lemma sorted_length_pos (x : Q) l :
  1 <= Z.of_nat (length (sort_by Qle_bool (x :: l))).
Proof. rewrite sort_by_length. simpl. lia. Qed.

(** On [p] in [[0, 1]] the code computes the percentile of the
    specification. *)
Lemma percentile_refines values p :
  (0 <= p)%Q -> (p <= 1)%Q ->
  _percentile values p = Py.Ok (percentile_spec values p).
Proof.
  intros H0 H1. unfold _percentile, percentile_spec.
  destruct values as [|x l]; [reflexivity|].
  set (s := sort_by Qle_bool (x :: l)).
  pose proof (sorted_length_pos x l) as Hn. fold s in Hn.
  set (n := Z.of_nat (length s)) in *.
  destruct (virtual_index_range n p Hn H0 H1) as [K0 K1].
  set (k := (inject_Z (n - 1) * p)%Q) in *.
  assert (T : Py.trunc k = Qfloor k).
  { unfold Py.trunc. apply Qle_bool_iff in K0. rewrite K0. reflexivity. }
  pose proof (floor_range s k K0 K1) as R. fold n in R.
  unfold interpolate. cbv zeta. fold n. rewrite T.
  destruct (Qfloor k =? Z.min (Qfloor k + 1) (n - 1)).
  - apply index_nth. subst n. lia.
  - rewrite (index_nth s (Qfloor k) 0%Q) by (subst n; lia). rewrite bind_ok.
    rewrite (index_nth s (Z.min (Qfloor k + 1) (n - 1)) 0%Q) by (subst n; lia).
    rewrite bind_ok. reflexivity.
Qed.

Lemma percentile_spec_mono values p1 p2 :
  (0 <= p1)%Q -> (p1 <= p2)%Q -> (p2 <= 1)%Q ->
  (percentile_spec values p1 <= percentile_spec values p2)%Q.
Proof.
  intros H0 H12 H1. unfold percentile_spec.
  destruct values as [|x l]; [apply Qle_refl|].
  set (s := sort_by Qle_bool (x :: l)).
  pose proof (sorted_length_pos x l) as Hn. fold s in Hn.
  assert (N : (0 <= inject_Z (Z.of_nat (length s) - 1))%Q)
    by (rewrite <- (Zle_Qle 0); lia).
  apply (at_index_mono s (sorted_values (x :: l))).
  - apply Qmult_le_0_compat; assumption.
  - rewrite !(Qmult_comm (inject_Z (Z.of_nat (length s) - 1))).
    apply Qmult_le_compat_r; assumption.
  - destruct (virtual_index_range _ p2 Hn (Qle_trans _ _ _ H0 H12) H1) as [_ K].
    exact K.
Qed.

Lemma pctile_is_percentile v p : _pctile v p = _percentile v p.
Proof. reflexivity. Qed.

(** The percentile of values that are not negative is not negative. *)
Lemma percentile_spec_nonneg values p :
  (0 <= p)%Q -> (p <= 1)%Q ->
  Forall (fun x => (0 <= x)%Q) values -> (0 <= percentile_spec values p)%Q.
Proof.
  intros H0 H1 F. unfold percentile_spec.
  destruct values as [|x l]; [apply Qle_refl|].
  set (s := sort_by Qle_bool (x :: l)).
  pose proof (sorted_length_pos x l) as Hn. fold s in Hn.
  destruct (virtual_index_range _ p Hn H0 H1) as [K0 K1].
  eapply Qle_trans; [|apply (at_index_lower s (sorted_values (x :: l))); assumption].
  pose proof (floor_range s _ K0 K1) as R.
  assert (Fs : Forall (fun x => (0 <= x)%Q) s) by (apply sort_by_Forall, F).
  rewrite Forall_forall in Fs. apply Fs, list_elem_of_In, nth_In. lia.
Qed.

End PercentileFacts.

(** ** Handling efficiency *)

Module EfficiencyFacts.
Import Calendar Models Done ReportsTicket.
Import BucketFacts SortFacts PyFacts PercentileFacts.

Lemma div_nonneg x c : (0 <= x)%Q -> (0 < c)%Q -> (0 <= x / c)%Q.
Proof.
  intros Hx Hc. apply Qle_shift_div_l; [exact Hc|]. rewrite Qmult_0_l. exact Hx.
Qed.

Lemma fold_Qplus_nonneg l : forall acc,
  (0 <= acc)%Q -> Forall Py.nonneg l -> (0 <= fold_left Qplus l acc)%Q.
Proof.
  induction l as [|x l IH]; intros acc Ha F; simpl; [exact Ha|].
  inversion F as [|? ? Hx F']; subst. apply IH; [|exact F'].
  unfold Py.nonneg in Hx.
  replace 0%Q with (0 + 0)%Q by reflexivity. apply Qplus_le_compat; assumption.
Qed.

Lemma Qsum_nonneg l : Forall Py.nonneg l -> (0 <= Qsum l)%Q.
Proof. apply fold_Qplus_nonneg, Qle_refl. Qed.

(** [round(sum(l)/len(l)/3600.0, 2)], guarded by [if len(l)]. *)
Lemma mean_hours_nonneg l :
  Forall Py.nonneg l ->
  (0 <= (if Z.of_nat (length l) =? 0 then 0
         else Py.round (Qsum l / inject_Z (Z.of_nat (length l)) / 3600) 2))%Q.
Proof.
  intros F. destruct (Z.eqb_spec (Z.of_nat (length l)) 0) as [E|E]; [apply Qle_refl|].
  apply round_nonneg, div_nonneg; [|reflexivity].
  apply div_nonneg; [apply Qsum_nonneg, F|].
  rewrite <- (Zlt_Qlt 0). lia.
Qed.

(** A ticket whose resolution time is negative changes nothing. *)
Lemma eff_step_skips st u row :
  (total_seconds u (create_dt row) < 0)%Q -> eff_step st (u, row) = st.
Proof.
  intros H. unfold eff_step.
  destruct (negb _); [reflexivity|].
  destruct (Py.gtb 0 _) eqn:G; [reflexivity|].
  apply gtb_false in G. exfalso. apply (Qlt_not_le _ _ H G).
Qed.

Lemma eff_step_ok st ur : eff_ok st -> eff_ok (eff_step st ur).
Proof.
  intros [D S]. destruct ur as [u row]. unfold eff_step.
  destruct (negb _); [split; assumption|].
  destruct (Py.gtb 0 _) eqn:G; [split; assumption|].
  apply gtb_false in G. split; simpl.
  - apply Forall_app. split; [exact D|]. constructor; [exact G | constructor].
  - destruct (_ <? _)%nat; [|exact S].
    apply Forall_app. split; [exact S|]. constructor; [|constructor]. simpl.
    apply round_nonneg, div_nonneg; [exact G | reflexivity].
Qed.

Lemma eff_fold_ok rows : forall st,
  eff_ok st -> eff_ok (fold_left eff_step rows st).
Proof.
  induction rows as [|r rows IH]; intros st H; simpl; [exact H|].
  apply IH, eff_step_ok, H.
Qed.

Lemma open_secs_nonneg db now params : Forall Py.nonneg (open_secs db now params).
Proof.
  unfold open_secs. generalize (List.filter (ReportsSla.in_sample params) db).
  intros l. induction l as [|r l IH]; simpl; [constructor|].
  destruct (_is_done _); [exact IH|].
  destruct (Qle_bool 0 _) eqn:E; [|exact IH].
  constructor; [apply Qle_bool_iff, E | exact IH].
Qed.

(** The efficiency report always returns, and none of its hours is
    negative. *)
Lemma query_efficiency_nonneg db now params :
  exists rep,
    _query_efficiency db now params = Py.Ok rep /\
    Py.nonneg (avg_hours (eff_kpi_ rep)) /\
    Py.nonneg (median_hours (eff_kpi_ rep)) /\
    Py.nonneg (p90_hours (eff_kpi_ rep)) /\
    Py.nonneg (open_avg_age_hours (eff_kpi_ rep)) /\
    Forall (fun s => Py.nonneg (resolved_hours s)) (eff_samples rep).
Proof.
  unfold _query_efficiency.
  set (st := fold_left eff_step _ _).
  assert (O : eff_ok st).
  { apply eff_fold_ok. split; constructor. }
  destruct O as [D S].
  rewrite !percentile_refines by (unfold Qle; simpl; lia).
  assert (P : forall p, (0 <= p)%Q -> (p <= 1)%Q ->
    exists m, (if Z.of_nat (length (done_secs st)) =? 0 then Py.Ok 0%Q
               else Py.Ok (percentile_spec (done_secs st) p) ≫=
                    (fun m => Py.Ok (Py.round (m / 3600) 2))) = Py.Ok m /\ Py.nonneg m).
  { intros p H0 H1. destruct (_ =? 0).
    - exists 0%Q. split; [reflexivity | apply Qle_refl].
    - rewrite bind_ok. eexists. split; [reflexivity|].
      apply round_nonneg, div_nonneg; [|reflexivity].
      apply percentile_spec_nonneg; assumption. }
  destruct (P (1 # 2)%Q ltac:(discriminate) ltac:(discriminate)) as (m1 & -> & M1).
  rewrite bind_ok.
  destruct (P (9 # 10)%Q ltac:(discriminate) ltac:(discriminate)) as (m2 & -> & M2).
  rewrite bind_ok.
  eexists. split; [reflexivity|]. simpl.
  repeat split; try assumption.
  - apply mean_hours_nonneg, D.
  - apply mean_hours_nonneg, open_secs_nonneg.
Qed.

End EfficiencyFacts.

(** ** Category distribution *)

Module CategoryFacts.
Import Calendar Models Done ReportsTicket.
Import SortFacts.

Lemma type_eqb_eq a b : type_eqb a b = true <-> a = b.
Proof.
  destruct a as [x|], b as [y|]; simpl; try (split; congruence).
  rewrite Z.eqb_eq. split; congruence.
Qed.



Lemma count_type_absent sid rows :
  ~ In sid (map ticket_type rows) -> count_type sid rows = 0.
Proof.
  unfold count_type. induction rows as [|r rows IH]; simpl; intros H; [reflexivity|].
  destruct (type_eqb (ticket_type r) sid) eqn:E.
  - apply type_eqb_eq in E. exfalso. apply H. left. exact E.
  - apply IH. intros C. apply H. right. exact C.
Qed.

Lemma find_group sid (g : option Z -> Z) keys :
  List.find (fun kv : option Z * Z => type_eqb kv.1 sid)
    (map (fun k => (k, g k)) keys) =
  if decide (sid ∈ keys) then Some (sid, g sid) else None.
Proof.
  induction keys as [|k keys IH]; simpl; [reflexivity|].
  destruct (type_eqb k sid) eqn:E.
  - apply type_eqb_eq in E. subst k.
    destruct (decide (sid ∈ sid :: keys)) as [_|N]; [reflexivity|].
    exfalso. apply N. left.
  - rewrite IH. destruct (decide (sid ∈ keys)) as [I|N].
    + destruct (decide (sid ∈ k :: keys)) as [_|N']; [reflexivity|].
      exfalso. apply N'. right. exact I.
    + destruct (decide (sid ∈ k :: keys)) as [C|_]; [|reflexivity].
      apply elem_of_cons in C. destruct C as [C|C]; [|contradiction].
      subst k. assert (T : type_eqb sid sid = true) by (apply type_eqb_eq; reflexivity).
      congruence.
Qed.

(** Reading the dictionary made of the groups gives the count of the
    type, for a type that has a group and for one that has none. *)
Lemma dict_get_group sid rows :
  dict_get (group_by_type rows) sid 0 = count_type sid rows.
Proof.
  unfold dict_get, group_by_type. rewrite find_group.
  destruct (decide _) as [I|N]; [reflexivity|].
  symmetry. apply count_type_absent. intros C. apply N.
  apply elem_of_remove_dups, list_elem_of_In, C.
Qed.

Lemma group_keys rows :
  map fst (group_by_type rows) = remove_dups (map ticket_type rows).
Proof.
  unfold group_by_type. rewrite map_map. simpl. apply map_id.
Qed.

Lemma count_rows_split f g db :
  ReportsSla.count_rows f db =
  ReportsSla.count_rows (fun r => f r && g r) db +
  ReportsSla.count_rows (fun r => f r && negb (g r)) db.
Proof.
  unfold ReportsSla.count_rows.
  induction db as [|r db IH]; simpl; [reflexivity|].
  destruct (f r), (g r); simpl; lia.
Qed.






End CategoryFacts.

(** ** Open tickets of the project progress report *)

Module ProgressFacts.
Import Calendar Models Done ReportsTicket.
Import SortFacts.

Lemma str_in_In x l : Py.str_in x l = true <-> In x l.
Proof.
  unfold Py.str_in. rewrite existsb_exists. split.
  - intros (y & I & E). apply String.eqb_eq in E. subst y. exact I.
  - intros I. exists x. split; [exact I | apply String.eqb_refl].
Qed.




End ProgressFacts.

(** * The stated properties *)

Module Claims.
Import Calendar Models Rules Done Buckets.
Import CalendarFacts BucketFacts RulesFacts SortFacts ReportsSlaFacts PyFacts.
Import SampleFacts PercentileFacts EfficiencyFacts CategoryFacts ProgressFacts.

(** C1. For every priority, [None] and the empty string included, and
    every rule table composed from request parameters, [_target_hours]
    returns a number of hours that is not negative.  It is the entry of the
    normalized priority when there is one; else the entry of its alias in
    the fixed alias table when there is one; else the default entry.  It
    never raises and never returns nothing. *)
Theorem target_hours_total (priority : option string) (params : Params.t) :
  let rules := _compose_rules_from_params params in
  let p := _normalize_priority priority in
  exists h : Z,
    _target_hours priority rules = Py.Ok h /\ 0 <= h /\
    (rules !! p = Some h \/
     (rules !! p = None /\
      exists a,
        In (p, a) [("critical", "p1"); ("urgent", "p1"); ("high", "p2");
                   ("medium", "p3"); ("normal", "p3"); ("standard", "p3");
                   ("low", "p4")] /\
        rules !! a = Some h) \/
     (rules !! p = None /\ rules !! "__default__" = Some h)).
Proof.
  intros rules p.
  destruct (target_hours_resolves priority rules (compose_rules_ok params))
    as (h & E & N & [D | [(Hp & a & A & R) | (Hp & _ & R)]]);
    exists h; (split; [exact E|]); (split; [exact N|]).
  - left. exact D.
  - right; left. split; [exact Hp|]. exists a. split; [|exact R].
    apply alias_table. exact A.
  - right; right. split; assumption.
Qed.

(** C2. Whenever the achievement query returns a report, its KPIs satisfy
    [achieved_closed + breached_closed = closed]: [closed] counts the rows
    whose status matches a completion keyword and whose [update_dt] is
    present, each of them once, as achieved when its turnaround hours are
    at most the resolved target hours and as breached otherwise. *)
Theorem achieved_plus_breached_is_closed db now params rep :
  ReportsSla._query_sla_achievement db now params = Py.Ok rep ->
  let rows := ReportsSla.query_rows db params in
  let rules := _compose_rules_from_params params in
  let k := ReportsSla.r_kpi rep in
  ReportsSla.kpi_achieved_closed k + ReportsSla.kpi_breached_closed k =
    ReportsSla.kpi_closed k /\
  ReportsSla.kpi_closed k = ReportsSla.count_rows ReportsSla.is_closed rows /\
  ReportsSla.kpi_achieved_closed k =
    ReportsSla.count_rows
      (fun r => ReportsSla.is_closed r && ReportsSla.within_target rules r)
      rows /\
  ReportsSla.kpi_breached_closed k =
    ReportsSla.count_rows
      (fun r => ReportsSla.is_closed r &&
                negb (ReportsSla.within_target rules r)) rows.
Proof.
  intros H rows rules k.
  destruct (query_sla_achievement_inv db now params rep H)
    as (bs & st & _ & R & Kc & Ka & Kb & _).
  apply run_loop_counts in R. simpl in R. destruct R as (Rc & Ra & Rb).
  subst k. rewrite Kc, Ka, Kb, Rc, Ra, Rb. fold rows rules.
  pose proof (count_rows_split ReportsSla.is_closed
                (ReportsSla.within_target rules) rows).
  repeat split; lia.
Qed.

Lemma achieved_plus_breached_witness :
  exists rep,
    ReportsSla._query_sla_achievement Examples.scenarios Examples.now_
      Examples.first_days = Py.Ok rep /\
    ReportsSla.kpi_achieved_closed (ReportsSla.r_kpi rep) +
    ReportsSla.kpi_breached_closed (ReportsSla.r_kpi rep) =
    ReportsSla.kpi_closed (ReportsSla.r_kpi rep) /\
    ReportsSla.kpi_closed (ReportsSla.r_kpi rep) = 2.
Proof.
  eexists. split; [vm_compute; reflexivity|].
  split; [|reflexivity].
  eapply (achieved_plus_breached_is_closed Examples.scenarios Examples.now_
            Examples.first_days).
  vm_compute. reflexivity.
Defined.


(** C3, as the code has it.  For datetimes [date_from <= date_to] and any
    interval, when the date after the last bucket exists (it does unless
    [date_to] lies in the last day, week or month of year 9999), the bucket
    list is not empty and strictly increasing; it starts at the bucket of
    [date_from] and ends at the bucket of [date_to] (their calendar day,
    the Monday of their week, the first of their month), and each bucket is
    followed by the next day, the day a week later, or the first of the
    next month, January of the next year after December. *)
Theorem iter_buckets_covers_range date_from date_to interval :
  valid_datetime date_from = true ->
  valid_datetime date_to = true ->
  datetime_leb date_from date_to = true ->
  has_next date_to interval = true ->
  exists l first last_,
    _iter_buckets date_from date_to interval = Py.Ok l /\
    l <> [] /\
    StronglySorted (fun a b => date_ltb a b = true) l /\
    head l = Some first /\ bucket_start_of interval date_from first /\
    last l = Some last_ /\ bucket_start_of interval date_to last_ /\
    Forall (fun d => valid_date d = true) l /\
    (forall i a b, l !! i = Some a -> l !! S i = Some b ->
       bucket_follows interval a b).
Proof.
  intros Vf Vt L N.
  destruct (iter_buckets_range date_from date_to interval Vf Vt L N)
    as (l & first & last_ & R & Hh & Hl & Bf & Bl & S & V & C).
  exists l, first, last_. repeat (split; [first [assumption | idtac]|]);
    try assumption.
  intros ->. discriminate Hh.
Qed.

Lemma iter_buckets_covers_range_witness :
  valid_datetime (Examples.at_ 2023 11 15 9 30) = true /\
  valid_datetime (Examples.end_of 2024 2 1) = true /\
  datetime_leb (Examples.at_ 2023 11 15 9 30) (Examples.end_of 2024 2 1) = true /\
  has_next (Examples.end_of 2024 2 1) "month" = true /\
  exists l first last_,
    _iter_buckets (Examples.at_ 2023 11 15 9 30) (Examples.end_of 2024 2 1)
      "month" = Py.Ok l /\
    l <> [] /\
    StronglySorted (fun a b => date_ltb a b = true) l /\
    head l = Some first /\
    bucket_start_of "month" (Examples.at_ 2023 11 15 9 30) first /\
    last l = Some last_ /\
    bucket_start_of "month" (Examples.end_of 2024 2 1) last_ /\
    Forall (fun d => valid_date d = true) l /\
    (forall i a b, l !! i = Some a -> l !! S i = Some b ->
       bucket_follows "month" a b).
Proof.
  split; [reflexivity|]. split; [reflexivity|].
  split; [reflexivity|]. split; [reflexivity|].
  apply (iter_buckets_covers_range (Examples.at_ 2023 11 15 9 30)
           (Examples.end_of 2024 2 1) "month"); reflexivity.
Defined.

(** C3 as stated fails on the last day of year 9999: the range is valid
    and [date_from <= date_to], yet the loop raises when it steps past the
    last date, for each of the three intervals. *)
Lemma iter_buckets_last_day_raises :
  valid_datetime (Examples.at_ 9999 12 31 0 0) = true /\
  valid_datetime (Examples.end_of 9999 12 31) = true /\
  datetime_leb (Examples.at_ 9999 12 31 0 0) (Examples.end_of 9999 12 31)
    = true /\
  _iter_buckets (Examples.at_ 9999 12 31 0 0) (Examples.end_of 9999 12 31)
    "day" = Py.Raise Py.OverflowError /\
  _iter_buckets (Examples.at_ 9999 12 31 0 0) (Examples.end_of 9999 12 31)
    "week" = Py.Raise Py.OverflowError /\
  _iter_buckets (Examples.at_ 9999 12 31 0 0) (Examples.end_of 9999 12 31)
    "month" = Py.Raise Py.ValueError.
Proof. vm_compute. repeat split; reflexivity. Qed.

(** C4, as the code has it.  The loop compares the bucket starts, not the
    datetimes.  When the bucket of [date_from] starts after the bucket of
    [date_to], the bucket list is empty.  When both fall into the same
    bucket, the list holds that one bucket, provided the date that follows
    the bucket exists; when it does not (the bucket is the last day, week
    or month of year 9999), the generator raises.  For [date_from >
    date_to] these are all the cases: the bucket of [date_to] is never the
    later one. *)
Theorem iter_buckets_reversed_range date_from date_to interval cur end_ :
  _bucket_key date_from interval = Py.Ok cur ->
  _bucket_key date_to interval = Py.Ok end_ ->
  (date_ltb end_ cur = true ->
   _iter_buckets date_from date_to interval = Py.Ok []) /\
  (cur = end_ -> valid_datetime date_to = true ->
   has_next date_to interval = true ->
   _iter_buckets date_from date_to interval = Py.Ok [end_]) /\
  (cur = end_ -> has_next date_to interval = false ->
   exists e, _iter_buckets date_from date_to interval = Py.Raise e) /\
  (valid_datetime date_from = true -> valid_datetime date_to = true ->
   datetime_leb date_from date_to = false ->
   date_ltb end_ cur = true \/ cur = end_).
Proof.
  intros Kf Kt. split; [|split; [|split]].
  - intros L. exact (iter_buckets_none _ _ _ _ _ Kf Kt L).
  - intros -> V N.
    rewrite (iter_buckets_same_key _ _ _ _ Kf Kt).
    rewrite (has_next_step _ _ _ Kt) in N.
    destruct (step_of interval end_) as [b| |] eqn:S; try discriminate.
    apply (bucket_loop_one _ _ b); [exact S|].
    exact (step_of_past _ _ _ (bucket_key_valid _ _ _ V Kt) S).
  - intros -> N.
    rewrite (iter_buckets_same_key _ _ _ _ Kf Kt).
    rewrite (has_next_step _ _ _ Kt) in N.
    destruct (step_of interval end_) as [b|e|] eqn:S; try discriminate.
    + exists e. apply bucket_loop_raises. exact S.
    + exfalso. exact (step_of_no_fuel _ _ S).
  - intros Vf Vt G. apply datetime_gt_date in G.
    pose proof (bucket_key_mono _ _ _ _ _ Vt Vf G Kt Kf) as L.
    destruct (date_leb_cases _ _ L) as [H| ->]; [left; exact H | right; reflexivity].
Qed.

Lemma iter_buckets_reversed_range_witness :
  (_bucket_key (Examples.at_ 2024 2 10 0 0) "week" = Py.Ok (Date 2024 2 5) /\
   _bucket_key (Examples.end_of 2024 1 20) "week" = Py.Ok (Date 2024 1 15) /\
   _iter_buckets (Examples.at_ 2024 2 10 0 0) (Examples.end_of 2024 1 20)
     "week" = Py.Ok []) /\
  (_bucket_key (Examples.at_ 2024 1 31 0 0) "month" = Py.Ok (Date 2024 1 1) /\
   _bucket_key (Examples.end_of 2024 1 1) "month" = Py.Ok (Date 2024 1 1) /\
   datetime_leb (Examples.at_ 2024 1 31 0 0) (Examples.end_of 2024 1 1)
     = false /\
   _iter_buckets (Examples.at_ 2024 1 31 0 0) (Examples.end_of 2024 1 1)
     "month" = Py.Ok [Date 2024 1 1]) /\
  (_bucket_key (Examples.at_ 9999 12 31 10 0) "day" = Py.Ok (Date 9999 12 31) /\
   _bucket_key (Examples.at_ 9999 12 31 9 0) "day" = Py.Ok (Date 9999 12 31) /\
   has_next (Examples.at_ 9999 12 31 9 0) "day" = false /\
   exists e,
     _iter_buckets (Examples.at_ 9999 12 31 10 0) (Examples.at_ 9999 12 31 9 0)
       "day" = Py.Raise e).
Proof.
  split; [|split].
  - split; [reflexivity|]. split; [reflexivity|].
    destruct (iter_buckets_reversed_range (Examples.at_ 2024 2 10 0 0)
                (Examples.end_of 2024 1 20) "week" (Date 2024 2 5)
                (Date 2024 1 15)) as (E & _); [reflexivity | reflexivity |].
    apply E. reflexivity.
  - split; [reflexivity|]. split; [reflexivity|]. split; [reflexivity|].
    destruct (iter_buckets_reversed_range (Examples.at_ 2024 1 31 0 0)
                (Examples.end_of 2024 1 1) "month" (Date 2024 1 1)
                (Date 2024 1 1)) as (_ & O & _); [reflexivity | reflexivity |].
    apply O; reflexivity.
  - split; [reflexivity|]. split; [reflexivity|].
    split; [vm_compute; reflexivity|].
    destruct (iter_buckets_reversed_range (Examples.at_ 9999 12 31 10 0)
                (Examples.at_ 9999 12 31 9 0) "day" (Date 9999 12 31)
                (Date 9999 12 31)) as (_ & _ & R & _); [reflexivity | reflexivity |].
    apply R; [reflexivity | vm_compute; reflexivity].
Defined.

(** C4 as stated fails when [date_from > date_to] fall into one bucket:
    the last day of January against its first day gives the bucket of
    January, for the month and for the week that holds both days. *)
Lemma iter_buckets_same_bucket_not_empty :
  datetime_leb (Examples.at_ 2024 1 31 0 0) (Examples.end_of 2024 1 1) = false /\
  _iter_buckets (Examples.at_ 2024 1 31 0 0) (Examples.end_of 2024 1 1) "month"
    = Py.Ok [Date 2024 1 1] /\
  datetime_leb (Examples.at_ 2024 1 3 0 0) (Examples.end_of 2024 1 1) = false /\
  _iter_buckets (Examples.at_ 2024 1 3 0 0) (Examples.end_of 2024 1 1) "week"
    = Py.Ok [Date 2024 1 1] /\
  datetime_leb (Examples.at_ 2024 1 1 10 0) (Examples.at_ 2024 1 1 9 0) = false /\
  _iter_buckets (Examples.at_ 2024 1 1 10 0) (Examples.at_ 2024 1 1 9 0) "day"
    = Py.Ok [Date 2024 1 1].
Proof. vm_compute. repeat split; reflexivity. Qed.




(** C6, as the code has it.  For each override key ([p1h], [p2h], [p3h],
    [p4h], [defh]) with its tier: an absent value leaves the base entry; a
    value that [int] turns into [n] replaces the entry by [max(0, n)], so
    an integer that is not negative replaces it by itself and a negative
    one by 0; a value on which [int] raises leaves the base entry.  No
    other entry of the base table changes. *)
Theorem compose_rules_overrides params key norm :
  In (key, norm) override_keys ->
  let v := params_get params key in
  let rules := _compose_rules_from_params params in
  (v = Py.VNone -> rules !! norm = SLA_RULES_DEFAULT !! norm) /\
  (forall n, v <> Py.VNone -> Py.int v = Py.Ok n ->
     rules !! norm = Some (Z.max 0 n) /\
     (0 <= n -> rules !! norm = Some n)) /\
  (forall e, Py.int v = Py.Raise e ->
     rules !! norm = SLA_RULES_DEFAULT !! norm) /\
  (forall k, ~ In k (map snd override_keys) ->
     rules !! k = SLA_RULES_DEFAULT !! k).
Proof.
  intros I v rules.
  pose proof (fold_override_same params override_keys SLA_RULES_DEFAULT
                (key, norm) override_keys_nodup I) as E.
  change (rules !! norm =
          override_result (SLA_RULES_DEFAULT !! norm) v) in E.
  split; [intros Hv; rewrite E, Hv; reflexivity|].
  split.
  { intros n Hv Hn. unfold override_result in E. rewrite Hn in E.
    destruct v; try contradiction; (split; [exact E|]);
      intros P; rewrite E; f_equal; lia. }
  split.
  { intros e He. unfold override_result in E. rewrite He in E.
    destruct v; exact E. }
  intros k Hk. apply fold_override_other. exact Hk.
Qed.

Lemma compose_rules_overrides_witness :
  In ("p1h", "p1") override_keys /\
  _compose_rules_from_params (Examples.override (Py.VStr " 2 ")) !! "p1"
    = Some 2 /\
  _compose_rules_from_params (Examples.override (Py.VStr "2h")) !! "p1"
    = Some 4.
Proof.
  assert (I : In ("p1h", "p1") override_keys) by (left; reflexivity).
  split; [exact I|]. split.
  - destruct (compose_rules_overrides (Examples.override (Py.VStr " 2 "))
                "p1h" "p1" I) as (_ & H & _).
    apply (H 2); [discriminate | reflexivity | lia].
  - destruct (compose_rules_overrides (Examples.override (Py.VStr "2h"))
                "p1h" "p1" I) as (_ & _ & H & _).
    apply (H Py.ValueError). reflexivity.
Defined.

(** C6 as stated fails on a negative integer: it is not a non-negative
    integer, yet it is not ignored; the entry of its tier becomes 0 where
    the base table has 4. *)
Lemma negative_override_is_not_ignored :
  Py.int (Py.VInt (-5)) = Py.Ok (-5) /\
  Py.int (Py.VStr "-5") = Py.Ok (-5) /\
  SLA_RULES_DEFAULT !! "p1" = Some 4 /\
  _compose_rules_from_params (Examples.override (Py.VInt (-5))) !! "p1"
    = Some 0 /\
  _compose_rules_from_params (Examples.override (Py.VStr "-5")) !! "p1"
    = Some 0.
Proof. vm_compute. repeat split; reflexivity. Qed.


(** C7, as the code has it.  In the achievement and the overdue report a
    duration that would be negative is clamped to zero hours, and no
    sample holds a negative [target_h], [tat_h] or [overdue_h].  The
    efficiency report does not clamp: it leaves a ticket with a negative
    duration out of its statistics; it always returns, and none of its
    hours (average, median, p90, average open age, [resolved_hours] of a
    sample) is negative. *)
Theorem negative_durations_not_reported db now params ach ovd :
  ReportsSla._query_sla_achievement db now params = Py.Ok ach ->
  ReportsSlaOverdue._query_overdue db now params = Py.Ok ovd ->
  (forall a b, sub_microseconds a b <= 0 ->
     (ReportsSla.hours_between a b == 0)%Q) /\
  (forall a b, Py.nonneg (ReportsSla.hours_between a b)) /\
  Forall ReportsSla.sample_ok (ReportsSla.breached_samples ach) /\
  Forall ReportsSlaOverdue.sample_ok (ReportsSlaOverdue.top_samples ovd) /\
  (forall st u row, (total_seconds u (create_dt row) < 0)%Q ->
     ReportsTicket.eff_step st (u, row) = st) /\
  exists eff,
    ReportsTicket._query_efficiency db now params = Py.Ok eff /\
    Py.nonneg (ReportsTicket.avg_hours (ReportsTicket.eff_kpi_ eff)) /\
    Py.nonneg (ReportsTicket.median_hours (ReportsTicket.eff_kpi_ eff)) /\
    Py.nonneg (ReportsTicket.p90_hours (ReportsTicket.eff_kpi_ eff)) /\
    Py.nonneg (ReportsTicket.open_avg_age_hours (ReportsTicket.eff_kpi_ eff)) /\
    Forall (fun s => Py.nonneg (ReportsTicket.resolved_hours s))
      (ReportsTicket.eff_samples eff).
Proof.
  intros Ha Ho.
  split; [exact hours_between_clamped|].
  split; [exact hours_between_nonneg|].
  split.
  { destruct (query_sla_achievement_inv db now params ach Ha)
      as (bs & st & _ & R & _ & _ & _ & ->).
    apply Forall_take, sort_by_Forall.
    eapply ach_run_loop_samples; [apply compose_rules_ok | exact R | constructor]. }
  split.
  { destruct (query_overdue_inv db now params ovd Ho) as (bs & st & R & ->).
    apply Forall_take, sort_by_Forall.
    eapply ovd_run_loop_samples; [apply compose_rules_ok | exact R | constructor]. }
  split; [exact eff_step_skips|].
  apply query_efficiency_nonneg.
Qed.

Lemma negative_durations_witness :
  exists ach ovd,
    ReportsSla._query_sla_achievement Examples.skewed Examples.now_
      Examples.first_days = Py.Ok ach /\
    ReportsSlaOverdue._query_overdue Examples.skewed Examples.now_
      Examples.first_days = Py.Ok ovd /\
    Forall ReportsSla.sample_ok (ReportsSla.breached_samples ach) /\
    Forall ReportsSlaOverdue.sample_ok (ReportsSlaOverdue.top_samples ovd).
Proof.
  destruct (ReportsSla._query_sla_achievement Examples.skewed Examples.now_
              Examples.first_days) as [ach| |] eqn:Ha;
    [|vm_compute in Ha; discriminate Ha ..].
  destruct (ReportsSlaOverdue._query_overdue Examples.skewed Examples.now_
              Examples.first_days) as [ovd| |] eqn:Ho;
    [|vm_compute in Ho; discriminate Ho ..].
  exists ach, ovd. split; [reflexivity|]. split; [reflexivity|].
  destruct (negative_durations_not_reported Examples.skewed Examples.now_
              Examples.first_days ach ovd Ha Ho) as (_ & _ & A & B & _).
  split; [exact A | exact B].
Defined.

(** C7 as stated fails in the efficiency report: the done ticket whose
    update is stamped an hour before its creation is in the period, but it
    is not counted with zero hours; it is not counted at all. *)
Lemma efficiency_drops_negative_duration :
  Forall (fun r => _is_done (ticket_status r) = true) Examples.skewed /\
  length (ReportsTicket.q_done Examples.skewed Examples.first_days) = 1%nat /\
  exists eff,
    ReportsTicket._query_efficiency Examples.skewed Examples.now_
      Examples.first_days = Py.Ok eff /\
    ReportsTicket.done_count (ReportsTicket.eff_kpi_ eff) = 0 /\
    ReportsTicket.eff_series eff = [0; 0; 0; 0; 0; 0; 0] /\
    ReportsTicket.eff_samples eff = [].
Proof.
  split; [repeat constructor|]. split; [reflexivity|].
  eexists. split; [vm_compute; reflexivity|]. repeat split; reflexivity.
Qed.

(** The closed items of the project progress report carry the negative
    lead time of that ticket as it is. *)
Lemma closed_items_keep_negative_lead_hours :
  map ReportsTicket.lead_hours
    (ReportsTicket.closed_items Examples.skewed 1
       (Examples.at_ 2024 1 1 0 0) (Examples.end_of 2024 1 3))
  = [(-1.00)%Q].
Proof. vm_compute. reflexivity. Qed.

(** C8, as the code has it.  In the achievement and in the overdue
    report the sample list is sorted by [overdue_h], largest first, equal
    values allowed next to each other, and holds at most 50 samples. *)
Theorem samples_sorted_at_most_50 db now params ach ovd :
  ReportsSla._query_sla_achievement db now params = Py.Ok ach ->
  ReportsSlaOverdue._query_overdue db now params = Py.Ok ovd ->
  StronglySorted
    (fun a b => (ReportsSla.overdue_h b <= ReportsSla.overdue_h a)%Q)
    (ReportsSla.breached_samples ach) /\
  (length (ReportsSla.breached_samples ach) <= 50)%nat /\
  StronglySorted
    (fun a b =>
       (ReportsSlaOverdue.overdue_h b <= ReportsSlaOverdue.overdue_h a)%Q)
    (ReportsSlaOverdue.top_samples ovd) /\
  (length (ReportsSlaOverdue.top_samples ovd) <= 50)%nat.
Proof.
  intros Ha Ho.
  destruct (query_sla_achievement_inv db now params ach Ha)
    as (bs & st & _ & _ & _ & _ & _ & ->).
  destruct (query_overdue_inv db now params ovd Ho) as (bs' & st' & _ & ->).
  split; [apply StronglySorted_take, ach_sort_samples_sorted|].
  split; [rewrite length_take; lia|].
  split; [apply StronglySorted_take, ovd_sort_samples_sorted|].
  rewrite length_take; lia.
Qed.

Lemma samples_sorted_witness :
  exists ach ovd,
    ReportsSla._query_sla_achievement Examples.scenarios Examples.now_
      Examples.first_days = Py.Ok ach /\
    ReportsSlaOverdue._query_overdue Examples.scenarios Examples.now_
      Examples.first_days = Py.Ok ovd /\
    StronglySorted
      (fun a b => (ReportsSla.overdue_h b <= ReportsSla.overdue_h a)%Q)
      (ReportsSla.breached_samples ach) /\
    (length (ReportsSlaOverdue.top_samples ovd) <= 50)%nat.
Proof.
  destruct (ReportsSla._query_sla_achievement Examples.scenarios Examples.now_
              Examples.first_days) as [ach| |] eqn:Ha;
    [|vm_compute in Ha; discriminate Ha ..].
  destruct (ReportsSlaOverdue._query_overdue Examples.scenarios Examples.now_
              Examples.first_days) as [ovd| |] eqn:Ho;
    [|vm_compute in Ho; discriminate Ho ..].
  exists ach, ovd. split; [reflexivity|]. split; [reflexivity|].
  destruct (samples_sorted_at_most_50 Examples.scenarios Examples.now_
              Examples.first_days ach ovd Ha Ho) as (A & _ & _ & B).
  split; [exact A | exact B].
Defined.

(** C8 as stated fails on ties: two tickets overdue by the same two hours
    are both in the list, so it is not strictly descending. *)
Lemma tied_samples_not_strictly_descending :
  exists ach,
    ReportsSla._query_sla_achievement Examples.tied Examples.now_
      Examples.first_days = Py.Ok ach /\
    map ReportsSla.overdue_h (ReportsSla.breached_samples ach)
      = [2.00; 2.00]%Q /\
    ~ Sorted (fun a b => (ReportsSla.overdue_h b < ReportsSla.overdue_h a)%Q)
        (ReportsSla.breached_samples ach).
Proof.
  eexists. split; [vm_compute; reflexivity|]. split; [reflexivity|].
  intros S. inversion S as [|? ? _ H]; subst.
  inversion H as [|? ? C]; subst. vm_compute in C. discriminate C.
Qed.






End Claims.

(** * Further properties of the reports *)

Module BuiltinFacts.
Import PyFacts.

Lemma fold_add_shift l : forall a, fold_left Z.add l a = a + fold_left Z.add l 0.
Proof.
  induction l as [|x l IH]; intros a; cbn [fold_left]; [lia|].
  rewrite (IH (a + x)), (IH (0 + x)). lia.
Qed.

Lemma sum_cons x l : Py.sum (x :: l) = x + Py.sum l.
Proof. unfold Py.sum. cbn [fold_left]. rewrite fold_add_shift. lia. Qed.

Lemma sum_app l1 l2 : Py.sum (l1 ++ l2) = Py.sum l1 + Py.sum l2.
Proof.
  induction l1 as [|x l1 IH]; [reflexivity|].
  change ((x :: l1) ++ l2) with (x :: (l1 ++ l2)). rewrite !sum_cons, IH. lia.
Qed.

Lemma sum_replicate n : Py.sum (replicate n 0) = 0.
Proof.
  induction n as [|n IH]; [reflexivity|].
  change (replicate (S n) 0) with (0 :: replicate n 0).
  rewrite sum_cons, IH. reflexivity.
Qed.

Lemma sum_alter s : forall i, (i < length s)%nat ->
  Py.sum (alter Z.succ i s) = Py.sum s + 1.
Proof.
  induction s as [|x s IH]; intros i H; simpl in H; [lia|].
  destruct i as [|i].
  - change (alter Z.succ 0%nat (x :: s)) with (Z.succ x :: s).
    rewrite !sum_cons. lia.
  - change (alter Z.succ (S i) (x :: s)) with (x :: alter Z.succ i s).
    rewrite !sum_cons, IH by lia. lia.
Qed.

Lemma sum_perm l1 l2 : Permutation l1 l2 -> Py.sum l1 = Py.sum l2.
Proof.
  induction 1 as [|x l1 l2 P IH|x y l|l1 l2 l3 P1 IH1 P2 IH2].
  - reflexivity.
  - rewrite !sum_cons, IH. reflexivity.
  - rewrite !sum_cons. lia.
  - congruence.
Qed.

Lemma sum_nonneg l : Forall (fun x => 0 <= x) l -> 0 <= Py.sum l.
Proof.
  induction 1 as [|x l Hx F IH]; [reflexivity|]. rewrite sum_cons. lia.
Qed.

(** Rounding to the nearest integer stays between two integers that
    bound the argument. *)
Lemma round_half_even_between lo hi x :
  (inject_Z lo <= x)%Q -> (x <= inject_Z hi)%Q ->
  lo <= Py.round_half_even x <= hi.
Proof.
  intros L H. unfold Py.round_half_even.
  assert (F1 : lo <= Qfloor x).
  { rewrite <- (Qfloor_Z lo). apply Qfloor_resp_le. exact L. }
  assert (F2 : Qfloor x <= hi).
  { rewrite <- (Qfloor_Z hi). apply Qfloor_resp_le. exact H. }
  assert (F3 : Qfloor x < hi \/ (x - inject_Z (Qfloor x) == 0)%Q).
  { destruct (Z.eq_dec (Qfloor x) hi) as [E|NE]; [right | left; lia].
    pose proof (Qfloor_le x) as B. rewrite E in *. lra. }
  destruct (_ ?= _)%Q eqn:C.
  - apply Qeq_alt in C. destruct (Z.even _); [lia|].
    destruct F3 as [F3|F3]; [lia|]. rewrite F3 in C. discriminate C.
  - lia.
  - apply Qgt_alt in C. destruct F3 as [F3|F3]; [lia|].
    rewrite F3 in C. discriminate C.
Qed.

Lemma round_between lo hi x n :
  (inject_Z lo <= x)%Q -> (x <= inject_Z hi)%Q ->
  (inject_Z lo <= Py.round x n)%Q /\ (Py.round x n <= inject_Z hi)%Q.
Proof.
  intros L H. unfold Py.round.
  assert (M : 0 < 10 ^ Z.of_nat n) by (apply Z.pow_pos_nonneg; lia).
  set (m := 10 ^ Z.of_nat n) in *.
  assert (Mq : (0 < inject_Z m)%Q) by (rewrite <- (Zlt_Qlt 0); exact M).
  destruct (round_half_even_between (lo * m) (hi * m) (x * inject_Z m)) as [A B].
  - rewrite inject_Z_mult. apply Qmult_le_compat_r; [exact L | apply Qlt_le_weak, Mq].
  - rewrite inject_Z_mult. apply Qmult_le_compat_r; [exact H | apply Qlt_le_weak, Mq].
  - split.
    + apply Qle_shift_div_l; [exact Mq|]. rewrite <- inject_Z_mult, <- Zle_Qle. exact A.
    + apply Qle_shift_div_r; [exact Mq|]. rewrite <- inject_Z_mult, <- Zle_Qle. exact B.
Qed.

(** A list sorted by a total, largest first. *)
Lemma sort_by_desc_sorted {K} (total : K -> Z) keys :
  StronglySorted (fun x y => y <= x)
    (map total (sort_by (fun a b => total b <=? total a) keys)).
Proof.
  assert (S : StronglySorted (fun a b => (total b <=? total a) = true)
                (sort_by (fun a b => total b <=? total a) keys)).
  { apply (SortFacts.sort_by_sorted (fun a b => total b <=? total a)).
    - intros a b. rewrite !Z.leb_le. lia.
    - intros a b c. rewrite !Z.leb_le. lia. }
  induction S as [|x l S IH F]; simpl; constructor; [exact IH|].
  apply Forall_map. eapply Forall_impl; [exact F|].
  intros y H. apply Z.leb_le in H. exact H.
Qed.

Lemma sum_map_add {A} (f g : A -> Z) l :
  Py.sum (map (fun x => f x + g x) l) = Py.sum (map f l) + Py.sum (map g l).
Proof.
  induction l as [|x l IH]; [reflexivity|].
  cbn [map]. rewrite !sum_cons, IH. lia.
Qed.

Lemma sum_map_zero {A} (l : list A) : Py.sum (map (fun _ => 0) l) = 0.
Proof.
  induction l as [|x l IH]; [reflexivity|]. cbn [map]. rewrite sum_cons, IH.
  reflexivity.
Qed.

Lemma sum_map_ext {A} (f g : A -> Z) l :
  (forall x, In x l -> f x = g x) -> Py.sum (map f l) = Py.sum (map g l).
Proof. intros H. f_equal. apply map_ext_in. exact H. Qed.

(** [round(a/total*100.0, n) if total else 0.0] is a percentage when
    [0 <= a <= total]. *)
Lemma percent_bounds a c n :
  0 <= a <= c ->
  (0 <= (if c =? 0 then 0 else Py.round (inject_Z a / inject_Z c * 100) n))%Q /\
  ((if c =? 0 then 0 else Py.round (inject_Z a / inject_Z c * 100) n) <= 100)%Q.
Proof.
  intros [A C].
  destruct (Z.eqb_spec c 0) as [->|NE]; [split; [apply Qle_refl | discriminate]|].
  assert (Cq : (0 < inject_Z c)%Q) by (rewrite <- (Zlt_Qlt 0); lia).
  assert (Aq : (0 <= inject_Z a)%Q) by (rewrite <- (Zle_Qle 0); exact A).
  assert (ACq : (inject_Z a <= inject_Z c)%Q) by (rewrite <- Zle_Qle; exact C).
  apply (round_between 0 100).
  - apply Qmult_le_0_compat; [|discriminate].
    apply Qle_shift_div_l; [exact Cq|]. rewrite Qmult_0_l. exact Aq.
  - change (inject_Z 100) with (1 * 100)%Q.
    apply Qmult_le_compat_r; [|discriminate].
    apply Qle_shift_div_r; [exact Cq|]. rewrite Qmult_1_l. exact ACq.
Qed.

Ltac by_computation := vm_compute; reflexivity.

(** The rows of a sample table are valid tickets. *)
Ltac valid_rows :=
  unfold Examples.scenarios;
  repeat (constructor;
    [split; [by_computation | intros ? E; vm_compute in E; inversion E;
                              by_computation]|]);
  constructor.

End BuiltinFacts.

Module CoverFacts.
Import Calendar CalendarFacts Buckets BucketFacts.

Section Cover.
Variable next : date -> Py.result date.
Variable ord : date -> Z.
Variable Inv : date -> Prop.
Variable step : Z.
Hypothesis step_pos : 0 < step.
Hypothesis next_ok : forall a b, Inv a -> next a = Py.Ok b ->
  Inv b /\ ord b = ord a + step.

(** The loop leaves out no aligned position between [cur] and [end_]. *)
Lemma chain_covers end_ cur l :
  Inv cur -> chain next ord end_ cur l ->
  forall o, ord cur <= o <= ord end_ -> (o - ord cur) mod step = 0 ->
  exists a, In a l /\ Inv a /\ ord a = o.
Proof.
  intros Hc C. induction C as [|cur cur' l L N C IH]; intros o B M; [lia|].
  destruct (next_ok _ _ Hc N) as [Hc' O].
  destruct (Z.eq_dec o (ord cur)) as [->|Ne].
  - exists cur. split; [left; reflexivity | split; [assumption | reflexivity]].
  - apply Z.mod_divide in M; [|lia]. destruct M as [k K].
    assert (1 <= k) by nia.
    destruct (IH Hc' o) as (a & Ia & Va & Oa).
    + nia.
    + replace (o - ord cur') with ((k - 1) * step) by lia.
      apply Z.mod_mul. lia.
    + exists a. split; [right; assumption | split; assumption].
Qed.
End Cover.

Lemma date_eqb_eq a b : date_eqb a b = true <-> a = b.
Proof.
  unfold date_eqb. destruct a, b; simpl.
  rewrite !andb_true_iff, !Z.eqb_eq. split.
  - intros [[-> ->] ->]. reflexivity.
  - intros [= -> -> ->]. auto.
Qed.

Lemma idx_from_bound l b : forall i j,
  idx_from i l b = Some j -> (i <= j < i + length l)%nat /\ l !! (j - i)%nat = Some b.
Proof.
  induction l as [|x l IH]; intros i j H; simpl in H; [discriminate|].
  destruct (idx_from (S i) l b) as [j'|] eqn:E.
  - injection H as <-. apply IH in E. destruct E as [B E]. simpl. split; [lia|].
    replace (j' - i)%nat with (S (j' - S i)) by lia. exact E.
  - destruct (date_eqb x b) eqn:D; [|discriminate]. injection H as <-.
    apply date_eqb_eq in D. subst. simpl. split; [lia|].
    rewrite Nat.sub_diag. reflexivity.
Qed.

Lemma idx_from_in l b : forall i, In b l -> exists j, idx_from i l b = Some j.
Proof.
  induction l as [|x l IH]; intros i H; [destruct H|]. simpl.
  destruct (idx_from (S i) l b) as [j|] eqn:E; [eauto|].
  destruct H as [->|H].
  - assert (D : date_eqb b b = true) by (apply date_eqb_eq; reflexivity).
    rewrite D. eauto.
  - destruct (IH (S i) H) as [j Hj]. congruence.
Qed.

Lemma idx_spec l b i :
  idx l b = Some i -> (i < length l)%nat /\ l !! i = Some b.
Proof.
  intros H. apply idx_from_bound in H. rewrite Nat.sub_0_r in H.
  destruct H as [B E]. split; [lia | exact E].
Qed.

Lemma idx_in l b : In b l -> exists i, idx l b = Some i.
Proof. apply idx_from_in. Qed.

Lemma valid_dt_date t : valid_datetime t = true -> valid_date (dt_date t) = true.
Proof. unfold valid_datetime. rewrite !andb_true_iff. tauto. Qed.

(** The bucket of a datetime of the range is one of the buckets of the
    range. *)
Lemma bucket_key_covered date_from date_to interval dt l :
  valid_datetime date_from = true ->
  valid_datetime date_to = true ->
  valid_datetime dt = true ->
  datetime_leb date_from dt = true ->
  datetime_leb dt date_to = true ->
  _iter_buckets date_from date_to interval = Py.Ok l ->
  exists b, _bucket_key dt interval = Py.Ok b /\ In b l.
Proof.
  intros Vf Vt Vd L1 L2.
  apply valid_dt_date in Vf, Vt, Vd.
  apply datetime_leb_date in L1, L2.
  interval_cases interval.
  - destruct (first_of_month_ok _ Vf) as [Ef If].
    destruct (first_of_month_ok _ Vt) as [Et It].
    destruct (first_of_month_ok _ Vd) as [Ed Id].
    rewrite Ef, Et, Ed, !bind_ok. intros R.
    apply (loop_chain next_month month_index month_inv 1 cmp_month_index
             next_month_ok) in R; [|assumption..].
    apply date_leb_first_of_month in L1, L2.
    rewrite (leb_ord month_index month_inv cmp_month_index _ _ If Id) in L1.
    rewrite (leb_ord month_index month_inv cmp_month_index _ _ Id It) in L2.
    apply Z.leb_le in L1, L2.
    destruct (chain_covers next_month month_index month_inv 1 ltac:(lia)
                next_month_ok _ _ _ If R
                (month_index (Date (year (dt_date dt)) (month (dt_date dt)) 1)))
      as (a & Ia & Va & Oa).
    + lia.
    + apply Z.mod_1_r.
    + apply month_index_inj in Oa; [|assumption..]. subst a. eauto.
  - destruct (monday_of_ok _ Vf) as (cur & Ef & Vc & Oc & Wc).
    destruct (monday_of_ok _ Vt) as (end_ & Et & Ve & Oe & We).
    destruct (monday_of_ok _ Vd) as (b & Ed & Vb & Ob & Wb).
    rewrite Ef, Et, Ed, !bind_ok. intros R.
    assert (NO : forall a b, day_inv a -> add_days a 7 = Py.Ok b ->
                   day_inv b /\ toordinal b = toordinal a + 7)
      by (intros ? ?; apply add_days_ok; lia).
    apply (loop_chain (fun c => add_days c 7) toordinal day_inv 7 cmp_toordinal
             NO) in R; [|assumption..].
    rewrite (leb_ord toordinal day_inv cmp_toordinal _ _ Vf Vd) in L1.
    rewrite (leb_ord toordinal day_inv cmp_toordinal _ _ Vd Vt) in L2.
    apply Z.leb_le in L1, L2.
    destruct (chain_covers (fun c => add_days c 7) toordinal day_inv 7 ltac:(lia)
                NO _ _ _ Vc R (toordinal b)) as (a & Ia & Va & Oa).
    + rewrite Oc, Oe, Ob. unfold weekday. divmod.
    + unfold weekday in Wc, Wb. divmod.
    + apply toordinal_inj in Oa; [|apply valid_fields_ok; assumption..].
      subst a. eauto.
  - intros R.
    assert (NO : forall a b, day_inv a -> add_days a 1 = Py.Ok b ->
                   day_inv b /\ toordinal b = toordinal a + 1)
      by (intros ? ?; apply add_days_ok; lia).
    apply (loop_chain (fun c => add_days c 1) toordinal day_inv 1 cmp_toordinal
             NO) in R; [|assumption..].
    rewrite (leb_ord toordinal day_inv cmp_toordinal _ _ Vf Vd) in L1.
    rewrite (leb_ord toordinal day_inv cmp_toordinal _ _ Vd Vt) in L2.
    apply Z.leb_le in L1, L2.
    destruct (chain_covers (fun c => add_days c 1) toordinal day_inv 1 ltac:(lia)
                NO _ _ _ Vf R (toordinal (dt_date dt))) as (a & Ia & Va & Oa).
    + lia.
    + apply Z.mod_1_r.
    + apply toordinal_inj in Oa; [|apply valid_fields_ok; assumption..].
      subst a. eauto.
Qed.

End CoverFacts.

Module TrendFacts.
Import Calendar CalendarFacts Models Done Buckets BucketFacts CoverFacts Trend BuiltinFacts.

Lemma bump_length l b s : length (bump l b s) = length s.
Proof. unfold bump. destruct (idx l b); [apply length_alter | reflexivity]. Qed.

(** A key that is one of the buckets is counted once. *)
Lemma bump_sum l b s :
  In b l -> length s = length l -> Py.sum (bump l b s) = Py.sum s + 1.
Proof.
  intros I E. unfold bump. destruct (idx_in l b I) as [i Hi]. rewrite Hi.
  apply idx_spec in Hi. apply sum_alter. lia.
Qed.

(** A key is counted at most once. *)
Lemma bump_sum_le l b s :
  length s = length l -> Py.sum s <= Py.sum (bump l b s) <= Py.sum s + 1.
Proof.
  intros E. unfold bump. destruct (idx l b) as [i|] eqn:Hi; [|lia].
  apply idx_spec in Hi. rewrite sum_alter by lia. lia.
Qed.

Lemma fill_series_sum date_from date_to interval l dts :
  valid_datetime date_from = true ->
  valid_datetime date_to = true ->
  _iter_buckets date_from date_to interval = Py.Ok l ->
  Forall (in_range date_from date_to) dts ->
  forall s, length s = length l ->
  exists s', fill_series interval l dts s = Py.Ok s' /\
             length s' = length l /\
             Py.sum s' = Py.sum s + Z.of_nat (length dts).
Proof.
  intros Vf Vt B F. induction F as [|dt dts (Vd & L1 & L2) F IH]; intros s E.
  - exists s. simpl. split; [reflexivity|]. split; [assumption | lia].
  - destruct (bucket_key_covered _ _ _ dt l Vf Vt Vd L1 L2 B) as (b & K & I).
    simpl fill_series. rewrite K, bind_ok.
    destruct (IH (bump l b s)) as (s' & R & E' & S').
    + rewrite bump_length. exact E.
    + exists s'. split; [exact R|]. split; [exact E'|].
      rewrite S', bump_sum by assumption.
      change (length (dt :: dts)) with (S (length dts)). lia.
Qed.

Lemma Forall_filter_both {A} (P : A -> Prop) f l :
  Forall P l -> Forall (fun x => P x /\ f x = true) (List.filter f l).
Proof.
  induction 1 as [|x l Hx F IH]; simpl; [constructor|].
  destruct (f x) eqn:E; [constructor; auto|assumption].
Qed.

Lemma q_new_in_range db params :
  Forall ReportsSla.ticket_valid db ->
  Forall (in_range (Params.date_from params) (Params.date_to params))
    (q_new db params).
Proof.
  intros F. unfold q_new. apply Forall_map.
  eapply Forall_impl; [apply Forall_filter_both, F|].
  intros r [[V _] S]. unfold ReportsSla.in_sample in S.
  rewrite !andb_true_iff in S. unfold in_range. simpl. tauto.
Qed.

Lemma q_close_done_in_range db params :
  Forall ReportsSla.ticket_valid db ->
  Forall (in_range (Params.date_from params) (Params.date_to params))
    (q_close_done db params).
Proof.
  intros F. unfold q_close_done.
  induction F as [|r db [_ V] F IH]; simpl; [constructor|].
  destruct (in_close params r) eqn:C; [|assumption]. simpl.
  destruct (_is_done (ticket_status r)); [|assumption].
  unfold in_close in C. destruct (update_dt r) as [u|]; [|discriminate].
  simpl. constructor; [|assumption].
  rewrite !andb_true_iff in C. unfold in_range.
  split; [apply V; reflexivity | tauto].
Qed.

Lemma q_close_done_length db params :
  length (q_close_done db params) =
  length (List.filter (fun r => in_close params r && _is_done (ticket_status r)) db).
Proof.
  unfold q_close_done. induction db as [|r db IH]; [reflexivity|]. simpl.
  destruct (in_close params r) eqn:C; simpl; [|assumption].
  destruct (_is_done (ticket_status r)); simpl.
  - unfold in_close in C. destruct (update_dt r); [|discriminate].
    simpl. f_equal. assumption.
  - assumption.
Qed.

End TrendFacts.

(** ** Buckets of the period and the ticket trend *)

Module TrendProperties.
Import Calendar CalendarFacts Models Done Buckets BucketFacts CoverFacts Trend.
Import BuiltinFacts TrendFacts.

Lemma cmp_fields_trans a : forall b c,
  is_le (cmp_fields a b) = true -> is_le (cmp_fields b c) = true ->
  is_le (cmp_fields a c) = true.
Proof.
  induction a as [|x a IH]; intros [|y b] [|z c]; simpl; try reflexivity;
    try discriminate.
  intros H1 H2.
  destruct (x ?= y) eqn:E1; [| |discriminate H1];
    (destruct (y ?= z) eqn:E2; [| |discriminate H2]).
  - apply Z.compare_eq in E1, E2. subst. rewrite Z.compare_refl.
    exact (IH _ _ H1 H2).
  - apply Z.compare_eq in E1. subst. rewrite E2. reflexivity.
  - apply Z.compare_eq in E2. subst. rewrite E1. reflexivity.
  - apply -> Z.compare_lt_iff in E1. apply -> Z.compare_lt_iff in E2.
    replace (x ?= z) with Lt by (symmetry; apply Z.compare_lt_iff; lia).
    reflexivity.
Qed.

Lemma datetime_leb_trans a b c :
  datetime_leb a b = true -> datetime_leb b c = true -> datetime_leb a c = true.
Proof. unfold datetime_leb. apply cmp_fields_trans. Qed.

(** X1. A datetime of the period has its bucket in the list of the period:
    the lookup [idx] finds its slot. *)
Theorem bucket_of_period_is_listed date_from date_to interval dt :
  valid_datetime date_from = true ->
  valid_datetime date_to = true ->
  valid_datetime dt = true ->
  datetime_leb date_from dt = true ->
  datetime_leb dt date_to = true ->
  has_next date_to interval = true ->
  exists l b i,
    _iter_buckets date_from date_to interval = Py.Ok l /\
    _bucket_key dt interval = Py.Ok b /\
    idx l b = Some i /\ l !! i = Some b /\
    bucket_start_of interval dt b.
Proof.
  intros Vf Vt Vd L1 L2 N.
  pose proof (datetime_leb_trans _ _ _ L1 L2) as L.
  destruct (iter_buckets_range _ _ _ Vf Vt L N) as (l & _ & _ & B & _).
  destruct (bucket_key_covered _ _ _ dt l Vf Vt Vd L1 L2 B) as (b & K & I).
  destruct (idx_in l b I) as [i Hi].
  exists l, b, i. split; [exact B|]. split; [exact K|]. split; [exact Hi|].
  split; [apply (idx_spec l b i Hi)|].
  apply valid_dt_date in Vd. revert K. clear -Vd.
  interval_cases interval; intros K.
  - apply mkdate_ok in K. apply K.
  - destruct (monday_of_ok _ Vd) as (m & E & _ & O & W).
    rewrite E in K. injection K as <-.
    pose proof (weekday_range (dt_date dt)). split; [exact W | lia].
  - injection K as <-. reflexivity.
Qed.

Lemma bucket_of_period_witness :
  exists l b i,
    _iter_buckets (Examples.at_ 2024 1 1 0 0) (Examples.end_of 2024 1 31) "week"
      = Py.Ok l /\
    _bucket_key (Examples.at_ 2024 1 18 12 0) "week" = Py.Ok b /\
    idx l b = Some i /\ l !! i = Some b.
Proof.
  destruct (bucket_of_period_is_listed (Examples.at_ 2024 1 1 0 0)
              (Examples.end_of 2024 1 31) "week" (Examples.at_ 2024 1 18 12 0))
    as (l & b & i & B & K & I & E & _); [by_computation..|].
  exists l, b, i. repeat (split; [assumption|]). exact E.
Defined.

(** X17. The totals of the trend count the period: every ticket created in
    the period is counted in a bucket, and so is every done ticket updated
    in the period. *)
Theorem trend_totals_count_the_period db params :
  valid_datetime (Params.date_from params) = true ->
  valid_datetime (Params.date_to params) = true ->
  datetime_leb (Params.date_from params) (Params.date_to params) = true ->
  has_next (Params.date_to params) (Params.interval_or_day params) = true ->
  Forall ReportsSla.ticket_valid db ->
  exists rep,
    _query_trend db params = Py.Ok rep /\
    length (created_series rep) = length (labels rep) /\
    length (closed_series rep) = length (labels rep) /\
    totals_created rep =
      Z.of_nat (length (List.filter (ReportsSla.in_sample params) db)) /\
    totals_closed rep =
      Z.of_nat (length (List.filter
        (fun r => in_close params r && _is_done (ticket_status r)) db)).
Proof.
  intros Vf Vt L N F.
  destruct (iter_buckets_range _ _ _ Vf Vt L N) as (l & _ & _ & B & _).
  unfold _query_trend. rewrite B, bind_ok.
  destruct (fill_series_sum _ _ _ l (q_new db params) Vf Vt B
              (q_new_in_range db params F) (replicate (length l) 0))
    as (s1 & R1 & E1 & S1); [apply length_replicate|].
  destruct (fill_series_sum _ _ _ l (q_close_done db params) Vf Vt B
              (q_close_done_in_range db params F) (replicate (length l) 0))
    as (s2 & R2 & E2 & S2); [apply length_replicate|].
  rewrite R1, bind_ok, R2, bind_ok. eexists. split; [reflexivity|]. simpl.
  split; [exact E1|]. split; [exact E2|].
  rewrite S1, S2, sum_replicate, q_close_done_length.
  unfold q_new. rewrite length_map. split; reflexivity.
Qed.

Lemma trend_totals_witness :
  exists rep,
    _query_trend Examples.scenarios Examples.first_days = Py.Ok rep /\
    totals_created rep = 3 /\ totals_closed rep = 2.
Proof.
  destruct (trend_totals_count_the_period Examples.scenarios Examples.first_days)
    as (rep & R & _ & _ & C & D); [by_computation.. | valid_rows |].
  exists rep. split; [exact R|]. rewrite C, D. split; by_computation.
Defined.

End TrendProperties.

Module SlaInvariantFacts.
Import Calendar Models Rules Done Buckets.
Import CalendarFacts BucketFacts RulesFacts SortFacts PyFacts BuiltinFacts.
Import Trend CoverFacts TrendFacts SlaInvariants.

Lemma NoDup_snoc {A} (x : A) l : NoDup l -> ~ In x l -> NoDup (l ++ [x]).
Proof.
  induction 1 as [|y l Hy N IH]; intros Hx; simpl.
  - constructor; [intros C; inversion C | constructor].
  - constructor.
    + rewrite list_elem_of_In, in_app_iff. intros [C|[C|[]]].
      * apply Hy, list_elem_of_In, C.
      * apply Hx. left. symmetry. exact C.
    + apply IH. intros C. apply Hx. right. exact C.
Qed.

Lemma with_key_spec pr keys :
  NoDup keys ->
  NoDup (with_key pr keys) /\ In pr (with_key pr keys) /\
  (forall k, ~ In k (with_key pr keys) -> ~ In k keys /\ k <> pr) /\
  (forall d, (forall k, ~ In k keys -> d !! k = None) ->
     Py.sum (bar_of d (with_key pr keys)) = Py.sum (bar_of d keys)).
Proof.
  intros N. unfold with_key.
  destruct (Py.str_in pr keys) eqn:E.
  - apply ProgressFacts.str_in_In in E. repeat split; try assumption.
    intros ->. contradiction.
  - assert (NI : ~ In pr keys).
    { intros C. apply ProgressFacts.str_in_In in C. congruence. }
    split; [apply NoDup_snoc; assumption|].
    split; [apply in_app_iff; right; left; reflexivity|].
    split.
    + intros k H. split.
      * intros C. apply H, in_app_iff. left. exact C.
      * intros ->. apply H, in_app_iff. right. left. reflexivity.
    + intros d H. unfold bar_of. rewrite map_app, sum_app. simpl.
      rewrite (H pr NI). simpl. unfold Py.sum at 2. simpl. lia.
Qed.

Lemma bar_of_count_up_other pr d keys :
  ~ In pr keys -> bar_of (ReportsSla.count_up pr d) keys = bar_of d keys.
Proof.
  intros H. unfold bar_of. apply map_ext_in. intros k I.
  unfold ReportsSla.count_up. rewrite lookup_insert_ne; [reflexivity|].
  intros ->. contradiction.
Qed.

Lemma bar_of_count_up pr d keys :
  NoDup keys -> In pr keys ->
  Py.sum (bar_of (ReportsSla.count_up pr d) keys) = Py.sum (bar_of d keys) + 1.
Proof.
  induction 1 as [|k keys Hk N IH]; intros I; [destruct I|].
  change (bar_of ?d (k :: keys)) with (default 0 (d !! k) :: bar_of d keys).
  rewrite !sum_cons. destruct (String.eqb_spec k pr) as [->|NE].
  - rewrite bar_of_count_up_other
      by (intros C; apply Hk, list_elem_of_In, C).
    unfold ReportsSla.count_up. rewrite lookup_insert_eq. simpl. lia.
  - destruct I as [C|I]; [contradiction|]. rewrite (IH I).
    unfold ReportsSla.count_up at 1. rewrite lookup_insert_ne by congruence. lia.
Qed.

(** The dictionary that is counted up. *)
Lemma bar_ok_count_up pr keys d total :
  NoDup keys -> bar_ok keys d total ->
  bar_ok (with_key pr keys) (ReportsSla.count_up pr d) (total + 1).
Proof.
  intros N [K S]. destruct (with_key_spec pr keys N) as (N' & I & O & E).
  split.
  - intros k H. destruct (O k H) as [H1 H2].
    unfold ReportsSla.count_up. rewrite lookup_insert_ne by congruence.
    apply K, H1.
  - rewrite bar_of_count_up by assumption. rewrite (E d K), S. reflexivity.
Qed.

(** The dictionary that is left as it is. *)
Lemma bar_ok_keep pr keys d total :
  NoDup keys -> bar_ok keys d total -> bar_ok (with_key pr keys) d total.
Proof.
  intros N [K S]. destruct (with_key_spec pr keys N) as (N' & I & O & E).
  split.
  - intros k H. apply K, (O k H).
  - rewrite (E d K). exact S.
Qed.

Lemma series_ok_bump n l b s : series_ok n s -> series_ok n (bump l b s).
Proof.
  intros [L F]. split; [rewrite bump_length; exact L|].
  unfold bump. destruct (idx l b) as [i|]; [|exact F].
  apply Forall_alter; [exact F|]. intros x _ Hx. lia.
Qed.

Lemma series_ok_init n : series_ok n (replicate n 0).
Proof.
  split; [apply length_replicate|].
  apply Forall_replicate. lia.
Qed.

Lemma bar_ok_init : bar_ok [] ∅ 0.
Proof. split; [intros; apply lookup_empty | reflexivity]. Qed.

Ltac split_conj := repeat match goal with |- _ /\ _ => split end.

Ltac series_step l :=
  first
    [ assumption
    | apply series_ok_bump; assumption
    | match goal with
      | H : series_ok (length l) ?s |- Py.sum (bump l ?b ?s) <= _ =>
          pose proof (bump_sum_le l b s (proj1 H)); lia
      end
    | apply bar_ok_count_up; assumption
    | apply bar_ok_keep; assumption
    | apply with_key_spec; assumption
    | rewrite length_app; simpl; lia
    | lia ].

Section Achievement.
Import ReportsSla.

Lemma ach_step_inv rules interval l now seen st r st' :
  step rules interval l now st r = Py.Ok st' ->
  ach_inv (length l) seen st -> ach_inv (length l) (seen + 1) st'.
Proof.
  unfold step.
  destruct (_target_hours (ticket_priority r) rules) as [tgt| |]; try discriminate.
  rewrite bind_ok.
  fold (with_key (priority_key (ticket_priority r)) (pr_keys st)).
  intros H (I1 & I2 & I3 & I4 & I5 & I6 & I7 & I8 & I9 & I10 & I11 & I12).
  destruct (closed_at r) as [u|].
  - destruct (_bucket_key u interval) as [b| |]; try discriminate.
    rewrite bind_ok in H.
    destruct (Qle_bool _ _); injection H as <-; unfold ach_inv; simpl;
      split_conj; series_step l.
  - destruct (Qle_bool _ _); injection H as <-; unfold ach_inv; simpl;
      split_conj; series_step l.
Qed.

Lemma ach_run_inv rules interval l now rows : forall seen st st',
  run_loop (step rules interval l now) st rows = Py.Ok st' ->
  ach_inv (length l) seen st ->
  ach_inv (length l) (seen + Z.of_nat (length rows)) st'.
Proof.
  induction rows as [|r rows IH]; intros seen st st' H I; simpl in H.
  - injection H as <-. simpl. rewrite Z.add_0_r. exact I.
  - destruct (step rules interval l now st r) as [st1| |] eqn:E; try discriminate.
    apply (ach_step_inv _ _ _ _ seen) in E; [|exact I].
    apply (IH (seen + 1)) in H; [|exact E].
    replace (seen + Z.of_nat (length (r :: rows)))
      with (seen + 1 + Z.of_nat (length rows)); [exact H|].
    change (length (r :: rows)) with (Datatypes.S (length rows)). lia.
Qed.

Lemma ach_init_inv n : ach_inv n 0 (init n).
Proof.
  unfold ach_inv, init. simpl.
  split_conj; try reflexivity; try lia;
    try apply series_ok_init; try apply bar_ok_init;
    try (rewrite sum_replicate; lia).
  constructor.
Qed.
End Achievement.

Section Overdue.
Import ReportsSlaOverdue.

Lemma ovd_step_inv rules interval date_from date_to l now st r st' :
  valid_datetime date_from = true ->
  valid_datetime date_to = true ->
  _iter_buckets date_from date_to interval = Py.Ok l ->
  in_range date_from date_to (create_dt r) ->
  step rules interval l now st r = Py.Ok st' ->
  ovd_inv (length l) st -> ovd_inv (length l) st'.
Proof.
  intros Vf Vt B (Vc & L1 & L2). unfold step.
  destruct (_target_hours (ticket_priority r) rules) as [tgt| |]; try discriminate.
  rewrite bind_ok.
  fold (with_key (ReportsSla.priority_key (ticket_priority r)) (pr_list st)).
  intros H (I1 & I2 & I3 & I4 & I5 & I6 & I7 & I8 & I9).
  destruct (ReportsSla.closed_at r) as [u|].
  - destruct (Py.gtb _ _).
    + destruct (_bucket_key u interval) as [b| |]; try discriminate.
      rewrite bind_ok in H. injection H as <-. unfold ovd_inv; simpl.
      split_conj; series_step l.
    + injection H as <-. unfold ovd_inv; simpl. split_conj; series_step l.
  - destruct (Py.gtb _ _).
    + destruct (bucket_key_covered _ _ _ _ l Vf Vt Vc L1 L2 B) as (b & K & I).
      rewrite K, bind_ok in H. injection H as <-. unfold ovd_inv; simpl.
      split_conj; try series_step l.
      rewrite bump_sum; [lia | exact I | apply I3].
    + injection H as <-. unfold ovd_inv; simpl. split_conj; series_step l.
Qed.

Lemma ovd_run_inv rules interval date_from date_to l now rows :
  valid_datetime date_from = true ->
  valid_datetime date_to = true ->
  _iter_buckets date_from date_to interval = Py.Ok l ->
  Forall (fun r => in_range date_from date_to (create_dt r)) rows ->
  forall st st',
  run_loop (step rules interval l now) st rows = Py.Ok st' ->
  ovd_inv (length l) st -> ovd_inv (length l) st'.
Proof.
  intros Vf Vt B F. induction F as [|r rows R F IH]; intros st st' H I; simpl in H.
  - injection H as <-. exact I.
  - destruct (step rules interval l now st r) as [st1| |] eqn:E; try discriminate.
    apply (IH st1 st' H).
    exact (ovd_step_inv rules interval date_from date_to l now st r st1 Vf Vt B R E I).
Qed.

Lemma ovd_step_samples_le rules interval l now st r st' :
  step rules interval l now st r = Py.Ok st' ->
  (length (samples st') <= length (samples st) + 1)%nat.
Proof.
  unfold step.
  destruct (_target_hours (ticket_priority r) rules) as [tgt| |]; try discriminate.
  rewrite bind_ok.
  destruct (ReportsSla.closed_at r) as [u|]; destruct (Py.gtb _ _);
    try (intros [= <-]; simpl; lia).
  - destruct (_bucket_key u interval) as [b| |]; try discriminate.
    rewrite bind_ok. intros [= <-]. simpl. rewrite length_app. simpl. lia.
  - destruct (_bucket_key (create_dt r) interval) as [b| |]; try discriminate.
    rewrite bind_ok. intros [= <-]. simpl. rewrite length_app. simpl. lia.
Qed.

Lemma ovd_run_samples_le rules interval l now rows : forall st st',
  run_loop (step rules interval l now) st rows = Py.Ok st' ->
  (length (samples st') <= length (samples st) + length rows)%nat.
Proof.
  induction rows as [|r rows IH]; intros st st' H; simpl in H.
  - injection H as <-. lia.
  - destruct (step rules interval l now st r) as [st1| |] eqn:E; try discriminate.
    apply ovd_step_samples_le in E. apply IH in H. simpl. lia.
Qed.

Lemma ovd_init_inv n : ovd_inv n (init n).
Proof.
  unfold ovd_inv, init. simpl.
  split_conj; try reflexivity; try lia;
    try apply series_ok_init; try apply bar_ok_init;
    try (rewrite sum_replicate; lia).
  constructor.
Qed.
End Overdue.

(** The rows of the sample query were created in the period. *)
Lemma query_rows_in_range db params :
  Forall ReportsSla.ticket_valid db ->
  Forall (fun r => in_range (Params.date_from params) (Params.date_to params)
                     (create_dt r))
    (ReportsSla.query_rows db params).
Proof.
  intros F. unfold ReportsSla.query_rows. apply sort_by_Forall.
  eapply Forall_impl; [apply Forall_filter_both, F|].
  intros r [[V _] S]. unfold ReportsSla.in_sample in S.
  rewrite !andb_true_iff in S. unfold in_range. tauto.
Qed.

End SlaInvariantFacts.

(** ** Counters, bars and trends of the two SLA reports *)

Module SlaProperties.
Import Calendar Models Rules Done Buckets.
Import CalendarFacts BucketFacts RulesFacts SortFacts PyFacts BuiltinFacts.
Import Trend CoverFacts TrendFacts SlaInvariants SlaInvariantFacts.

Lemma rate_bounds a c :
  0 <= a <= c -> (0 <= ReportsSla.rate a c)%Q /\ (ReportsSla.rate a c <= 100)%Q.
Proof. apply percent_bounds. Qed.

Lemma zip_rate_bounds s1 : forall s2,
  Forall (fun x => 0 <= x) s1 -> Forall (fun x => 0 <= x) s2 ->
  Forall (fun q => (0 <= q)%Q /\ (q <= 100)%Q)
    (zip_with (fun a b => ReportsSla.rate a (a + b)) s1 s2).
Proof.
  induction s1 as [|a s1 IH]; intros [|b s2] F1 F2; simpl; try constructor.
  - inversion F1; inversion F2; subst. apply rate_bounds. lia.
  - inversion F1; inversion F2; subst. apply IH; assumption.
Qed.

Lemma zip_add_lookup s1 : forall s2 i a b,
  s1 !! i = Some a -> s2 !! i = Some b -> zip_with Z.add s1 s2 !! i = Some (a + b).
Proof.
  induction s1 as [|x s1 IH]; intros [|y s2] [|i] a b H1 H2; try discriminate.
  - injection H1 as <-. injection H2 as <-. reflexivity.
  - simpl in *. apply IH; assumption.
Qed.

Lemma zip_add_sum s1 : forall s2,
  length s1 = length s2 ->
  Py.sum (zip_with Z.add s1 s2) = Py.sum s1 + Py.sum s2.
Proof.
  induction s1 as [|x s1 IH]; intros [|y s2] E; try discriminate; [reflexivity|].
  change (zip_with Z.add (x :: s1) (y :: s2))
    with ((x + y) :: zip_with Z.add s1 s2).
  rewrite !sum_cons, IH; [lia|]. simpl in E. lia.
Qed.

Lemma bar_of_zip d1 d2 keys :
  zip_with Z.add (bar_of d1 keys) (bar_of d2 keys) =
  map (fun k => default 0 (d1 !! k) + default 0 (d2 !! k)) keys.
Proof. induction keys as [|k keys IH]; [reflexivity|]. simpl. f_equal. exact IH. Qed.

Lemma bar_sum_sorted leb d keys :
  Py.sum (bar_of d (sort_by leb keys)) = Py.sum (bar_of d keys).
Proof.
  apply sum_perm. unfold bar_of. apply Permutation_map.
  symmetry. apply sort_by_perm.
Qed.

Lemma sorted_NoDup {A} (leb : A -> A -> bool) l : NoDup l -> NoDup (sort_by leb l).
Proof. intros N. rewrite <- (sort_by_perm leb l). exact N. Qed.

Ltac open_achievement R :=
  revert R; unfold ReportsSla._query_sla_achievement;
  let B := fresh "B" in let RL := fresh "RL" in
  destruct (_iter_buckets _ _ _) as [bs| |] eqn:B; try discriminate;
  rewrite bind_ok;
  destruct (ReportsSla.run_loop _ _ _) as [st| |] eqn:RL; try discriminate;
  rewrite bind_ok; intros [= <-]; cbn [ReportsSla.r_kpi ReportsSla.kpi_total
    ReportsSla.kpi_closed ReportsSla.kpi_open ReportsSla.kpi_achieved_closed
    ReportsSla.kpi_breached_closed ReportsSla.kpi_achieve_rate_closed
    ReportsSla.kpi_achieved_all_now ReportsSla.kpi_achieve_rate_all_now
    ReportsSla.kpi_open_within_sla ReportsSla.kpi_open_breach
    ReportsSla.pie_counts ReportsSla.bar_labels ReportsSla.bar_achieved
    ReportsSla.bar_breached ReportsSla.trend_labels
    ReportsSla.trend_closed_achieved ReportsSla.trend_closed_breached
    ReportsSla.trend_rate ReportsSla.breached_samples];
  pose proof (ach_run_inv _ _ _ _ _ 0 _ _ RL (ach_init_inv _))
    as (I1 & I2 & I3 & I4 & I5 & I6 & I7 & I8 & I9 & I10 & I11 & I12);
  rewrite Z.add_0_l in I1.

(** X8. Every ticket of the sample is counted once: as closed or as open, the
    open ones as within their target or as overdue.  The total is the size
    of the sample, and the tickets that meet their target so far are at
    most that many. *)
Theorem achievement_counters_partition db now params :
  valid_datetime (Params.date_from params) = true ->
  valid_datetime (Params.date_to params) = true ->
  datetime_leb (Params.date_from params) (Params.date_to params) = true ->
  has_next (Params.date_to params) (Params.interval_or_day params) = true ->
  Forall ReportsSla.ticket_valid db ->
  exists rep,
    ReportsSla._query_sla_achievement db now params = Py.Ok rep /\
    let k := ReportsSla.r_kpi rep in
    ReportsSla.kpi_total k =
      Z.of_nat (length (List.filter (ReportsSla.in_sample params) db)) /\
    ReportsSla.kpi_total k = ReportsSla.kpi_closed k + ReportsSla.kpi_open k /\
    ReportsSla.kpi_open k =
      ReportsSla.kpi_open_within_sla k + ReportsSla.kpi_open_breach k /\
    ReportsSla.kpi_achieved_all_now k =
      ReportsSla.kpi_achieved_closed k + ReportsSla.kpi_open_within_sla k /\
    0 <= ReportsSla.kpi_achieved_all_now k <= ReportsSla.kpi_total k /\
    ReportsSla.pie_counts rep =
      [ReportsSla.kpi_achieved_closed k; ReportsSla.kpi_breached_closed k].
Proof.
  intros Vf Vt L N F.
  destruct (ReportsSlaFacts.query_sla_achievement_returns db now params
              Vf Vt L N F) as [rep R].
  exists rep. split; [exact R|]. open_achievement R.
  split; [unfold ReportsSla.query_rows; rewrite sort_by_length; reflexivity|].
  split_conj; try reflexivity; lia.
Qed.

Lemma achievement_counters_witness :
  exists rep,
    ReportsSla._query_sla_achievement Examples.scenarios Examples.now_ Examples.first_days = Py.Ok rep /\
    ReportsSla.kpi_total (ReportsSla.r_kpi rep) =
      ReportsSla.kpi_closed (ReportsSla.r_kpi rep) +
      ReportsSla.kpi_open (ReportsSla.r_kpi rep).
Proof.
  destruct (achievement_counters_partition Examples.scenarios Examples.now_ Examples.first_days)
    as (rep & R & _ & T & _); [by_computation.. | valid_rows |].
  exists rep. split; assumption.
Defined.

(** X9. Both achievement rates of the KPI block and every rate of the trend
    are percentages. *)
Theorem achievement_rates_are_percentages db now params :
  valid_datetime (Params.date_from params) = true ->
  valid_datetime (Params.date_to params) = true ->
  datetime_leb (Params.date_from params) (Params.date_to params) = true ->
  has_next (Params.date_to params) (Params.interval_or_day params) = true ->
  Forall ReportsSla.ticket_valid db ->
  exists rep,
    ReportsSla._query_sla_achievement db now params = Py.Ok rep /\
    let k := ReportsSla.r_kpi rep in
    (0 <= ReportsSla.kpi_achieve_rate_closed k)%Q /\
    (ReportsSla.kpi_achieve_rate_closed k <= 100)%Q /\
    (0 <= ReportsSla.kpi_achieve_rate_all_now k)%Q /\
    (ReportsSla.kpi_achieve_rate_all_now k <= 100)%Q /\
    Forall (fun q => (0 <= q)%Q /\ (q <= 100)%Q) (ReportsSla.trend_rate rep).
Proof.
  intros Vf Vt L N F.
  destruct (ReportsSlaFacts.query_sla_achievement_returns db now params
              Vf Vt L N F) as [rep R].
  exists rep. split; [exact R|]. open_achievement R.
  destruct (rate_bounds (ReportsSla.achieved_closed st) (ReportsSla.closed st))
    as [A1 A2]; [lia|].
  destruct (rate_bounds
              (ReportsSla.achieved_closed st + ReportsSla.open_within st)
              (Z.of_nat (length (ReportsSla.query_rows db params))))
    as [B1 B2]; [lia|].
  split_conj; try assumption.
  apply zip_rate_bounds; [apply I6 | apply I7].
Qed.

Lemma achievement_rates_witness :
  exists rep,
    ReportsSla._query_sla_achievement Examples.scenarios Examples.now_ Examples.first_days = Py.Ok rep /\
    (ReportsSla.kpi_achieve_rate_closed (ReportsSla.r_kpi rep) <= 100)%Q.
Proof.
  destruct (achievement_rates_are_percentages Examples.scenarios Examples.now_ Examples.first_days)
    as (rep & R & _ & T & _); [by_computation.. | valid_rows |].
  exists rep. split; assumption.
Defined.

(** X10. The bars by priority: each priority is listed once, the priorities
    are in the order of their totals, largest first, and the bars of each
    kind add up to the counter of the KPI block. *)
Theorem achievement_bars_add_up db now params :
  valid_datetime (Params.date_from params) = true ->
  valid_datetime (Params.date_to params) = true ->
  datetime_leb (Params.date_from params) (Params.date_to params) = true ->
  has_next (Params.date_to params) (Params.interval_or_day params) = true ->
  Forall ReportsSla.ticket_valid db ->
  exists rep,
    ReportsSla._query_sla_achievement db now params = Py.Ok rep /\
    NoDup (ReportsSla.bar_labels rep) /\
    length (ReportsSla.bar_achieved rep) = length (ReportsSla.bar_labels rep) /\
    length (ReportsSla.bar_breached rep) = length (ReportsSla.bar_labels rep) /\
    Py.sum (ReportsSla.bar_achieved rep) =
      ReportsSla.kpi_achieved_closed (ReportsSla.r_kpi rep) /\
    Py.sum (ReportsSla.bar_breached rep) =
      ReportsSla.kpi_breached_closed (ReportsSla.r_kpi rep) /\
    StronglySorted (fun x y => y <= x)
      (zip_with Z.add (ReportsSla.bar_achieved rep)
         (ReportsSla.bar_breached rep)).
Proof.
  intros Vf Vt L N F.
  destruct (ReportsSlaFacts.query_sla_achievement_returns db now params
              Vf Vt L N F) as [rep R].
  exists rep. split; [exact R|]. open_achievement R.
  match goal with
  | |- context [sort_by ?f (ReportsSla.pr_keys st)] =>
      set (keys := sort_by f (ReportsSla.pr_keys st))
  end.
  change (map (fun pr => default 0 (ReportsSla.per_pr_ach st !! pr)) keys)
    with (bar_of (ReportsSla.per_pr_ach st) keys).
  change (map (fun pr => default 0 (ReportsSla.per_pr_bre st !! pr)) keys)
    with (bar_of (ReportsSla.per_pr_bre st) keys).
  split; [apply sorted_NoDup; exact I10|].
  split; [unfold bar_of; apply length_map|].
  split; [unfold bar_of; apply length_map|].
  split; [unfold keys; rewrite bar_sum_sorted; apply I11|].
  split; [unfold keys; rewrite bar_sum_sorted; apply I12|].
  rewrite bar_of_zip.
  exact (sort_by_desc_sorted
           (fun pr => default 0 (ReportsSla.per_pr_ach st !! pr) +
                      default 0 (ReportsSla.per_pr_bre st !! pr))
           (ReportsSla.pr_keys st)).
Qed.

Lemma achievement_bars_witness :
  exists rep,
    ReportsSla._query_sla_achievement Examples.scenarios Examples.now_ Examples.first_days = Py.Ok rep /\
    Py.sum (ReportsSla.bar_achieved rep) =
      ReportsSla.kpi_achieved_closed (ReportsSla.r_kpi rep).
Proof.
  destruct (achievement_bars_add_up Examples.scenarios Examples.now_ Examples.first_days)
    as (rep & R & _ & _ & _ & T & _); [by_computation.. | valid_rows |].
  exists rep. split; assumption.
Defined.

(** X11. Every ticket over its target yields a sample; the report keeps the
    first fifty of them. *)
Theorem achievement_samples_count db now params :
  valid_datetime (Params.date_from params) = true ->
  valid_datetime (Params.date_to params) = true ->
  datetime_leb (Params.date_from params) (Params.date_to params) = true ->
  has_next (Params.date_to params) (Params.interval_or_day params) = true ->
  Forall ReportsSla.ticket_valid db ->
  exists rep,
    ReportsSla._query_sla_achievement db now params = Py.Ok rep /\
    Z.of_nat (length (ReportsSla.breached_samples rep)) =
      Z.min 50 (ReportsSla.kpi_breached_closed (ReportsSla.r_kpi rep) +
                ReportsSla.kpi_open_breach (ReportsSla.r_kpi rep)).
Proof.
  intros Vf Vt L N F.
  destruct (ReportsSlaFacts.query_sla_achievement_returns db now params
              Vf Vt L N F) as [rep R].
  exists rep. split; [exact R|]. open_achievement R.
  rewrite length_take. unfold ReportsSla.sort_samples.
  rewrite sort_by_length. lia.
Qed.

Lemma achievement_samples_witness :
  exists rep,
    ReportsSla._query_sla_achievement Examples.scenarios Examples.now_ Examples.first_days = Py.Ok rep /\
    Z.of_nat (length (ReportsSla.breached_samples rep)) =
      Z.min 50 (ReportsSla.kpi_breached_closed (ReportsSla.r_kpi rep) +
                ReportsSla.kpi_open_breach (ReportsSla.r_kpi rep)).
Proof.
  destruct (achievement_samples_count Examples.scenarios Examples.now_ Examples.first_days)
    as (rep & R & T); [by_computation.. | valid_rows |].
  exists rep. split; assumption.
Defined.

(** X12. The trend has one slot per bucket in each of its series, and no
    slot of the two series of closed tickets is negative; a closed ticket
    is counted in at most one slot, so no series adds up to more than its
    counter. *)
Theorem achievement_trend_shape db now params :
  valid_datetime (Params.date_from params) = true ->
  valid_datetime (Params.date_to params) = true ->
  datetime_leb (Params.date_from params) (Params.date_to params) = true ->
  has_next (Params.date_to params) (Params.interval_or_day params) = true ->
  Forall ReportsSla.ticket_valid db ->
  exists rep,
    ReportsSla._query_sla_achievement db now params = Py.Ok rep /\
    let n := length (ReportsSla.trend_labels rep) in
    length (ReportsSla.trend_closed_achieved rep) = n /\
    length (ReportsSla.trend_closed_breached rep) = n /\
    length (ReportsSla.trend_rate rep) = n /\
    Forall (fun x => 0 <= x) (ReportsSla.trend_closed_achieved rep) /\
    Forall (fun x => 0 <= x) (ReportsSla.trend_closed_breached rep) /\
    0 <= Py.sum (ReportsSla.trend_closed_achieved rep)
      <= ReportsSla.kpi_achieved_closed (ReportsSla.r_kpi rep) /\
    0 <= Py.sum (ReportsSla.trend_closed_breached rep)
      <= ReportsSla.kpi_breached_closed (ReportsSla.r_kpi rep).
Proof.
  intros Vf Vt L N F.
  destruct (ReportsSlaFacts.query_sla_achievement_returns db now params
              Vf Vt L N F) as [rep R].
  exists rep. split; [exact R|]. open_achievement R.
  destruct I6 as [L6 F6], I7 as [L7 F7].
  split; [exact L6|]. split; [exact L7|].
  split; [rewrite length_zip_with; lia|].
  split; [exact F6|]. split; [exact F7|].
  split; (split; [apply sum_nonneg; assumption | assumption]).
Qed.

Lemma achievement_trend_witness :
  exists rep,
    ReportsSla._query_sla_achievement Examples.scenarios Examples.now_ Examples.first_days = Py.Ok rep /\
    length (ReportsSla.trend_closed_achieved rep) =
      length (ReportsSla.trend_labels rep) /\
    Forall (fun x => 0 <= x) (ReportsSla.trend_closed_achieved rep).
Proof.
  destruct (achievement_trend_shape Examples.scenarios Examples.now_ Examples.first_days)
    as (rep & R & T & _ & _ & Fa & _); [by_computation.. | valid_rows |].
  exists rep. split; [exact R|]. split; [exact T | exact Fa].
Defined.

Ltac open_overdue R Vf Vt F :=
  revert R; unfold ReportsSlaOverdue._query_overdue;
  let B := fresh "B" in let RL := fresh "RL" in
  destruct (_iter_buckets _ _ _) as [bs| |] eqn:B; try discriminate;
  rewrite bind_ok;
  destruct (ReportsSlaOverdue.run_loop _ _ _) as [st| |] eqn:RL;
    try discriminate;
  rewrite bind_ok; intros [= <-]; cbn [ReportsSlaOverdue.kpi_overdue_total
    ReportsSlaOverdue.kpi_overdue_open ReportsSlaOverdue.kpi_overdue_closed
    ReportsSlaOverdue.bar_labels ReportsSlaOverdue.bar_open_breached
    ReportsSlaOverdue.bar_closed_breached ReportsSlaOverdue.trend_labels
    ReportsSlaOverdue.trend_open_breached
    ReportsSlaOverdue.trend_closed_breached ReportsSlaOverdue.trend_total
    ReportsSlaOverdue.top_samples];
  pose proof (ovd_run_inv _ _ _ _ _ _ _ Vf Vt B
                (query_rows_in_range _ _ F) _ _ RL (ovd_init_inv _))
    as (I1 & I2 & I3 & I4 & I5 & I6 & I7 & I8 & I9).

(** X13. The overdue total is the sum of its two parts, every overdue ticket
    yields a sample, and the report keeps the first fifty of them. *)
Theorem overdue_counters_and_samples db now params :
  valid_datetime (Params.date_from params) = true ->
  valid_datetime (Params.date_to params) = true ->
  datetime_leb (Params.date_from params) (Params.date_to params) = true ->
  has_next (Params.date_to params) (Params.interval_or_day params) = true ->
  Forall ReportsSla.ticket_valid db ->
  exists rep,
    ReportsSlaOverdue._query_overdue db now params = Py.Ok rep /\
    ReportsSlaOverdue.kpi_overdue_total rep =
      ReportsSlaOverdue.kpi_overdue_open rep +
      ReportsSlaOverdue.kpi_overdue_closed rep /\
    0 <= ReportsSlaOverdue.kpi_overdue_open rep /\
    0 <= ReportsSlaOverdue.kpi_overdue_closed rep /\
    ReportsSlaOverdue.kpi_overdue_total rep <=
      Z.of_nat (length (List.filter (ReportsSla.in_sample params) db)) /\
    Z.of_nat (length (ReportsSlaOverdue.top_samples rep)) =
      Z.min 50 (ReportsSlaOverdue.kpi_overdue_total rep).
Proof.
  intros Vf Vt L N F.
  destruct (SampleFacts.query_overdue_returns db now params Vf Vt L N F)
    as [rep R].
  exists rep. split; [exact R|]. open_overdue R Vf Vt F.
  split; [reflexivity|]. split; [lia|]. split; [lia|].
  split.
  - rewrite <- I1, <- (sort_by_length
      (fun a b => datetime_leb (create_dt a) (create_dt b))
      (List.filter (ReportsSla.in_sample params) db)).
    fold (ReportsSla.query_rows db params).
    match goal with
    | H : ReportsSlaOverdue.run_loop _ _ _ = Py.Ok st |- _ =>
        apply ovd_run_samples_le in H; simpl in H; lia
    end.
  - rewrite length_take. unfold ReportsSlaOverdue.sort_samples.
    rewrite sort_by_length. lia.
Qed.

Lemma overdue_counters_witness :
  exists rep,
    ReportsSlaOverdue._query_overdue Examples.scenarios Examples.now_ Examples.first_days = Py.Ok rep /\
    ReportsSlaOverdue.kpi_overdue_total rep =
      ReportsSlaOverdue.kpi_overdue_open rep +
      ReportsSlaOverdue.kpi_overdue_closed rep.
Proof.
  destruct (overdue_counters_and_samples Examples.scenarios Examples.now_ Examples.first_days)
    as (rep & R & T & _); [by_computation.. | valid_rows |].
  exists rep. split; assumption.
Defined.

(** X14. The trend of the overdue report: one slot per bucket in each series,
    the total series is the sum of the other two slot by slot.  An open
    overdue ticket is counted in the bucket of its creation, which is always
    a bucket of the period; a closed one is counted in the bucket of its
    update, when that is a bucket of the period. *)
Theorem overdue_trend_adds_up db now params :
  valid_datetime (Params.date_from params) = true ->
  valid_datetime (Params.date_to params) = true ->
  datetime_leb (Params.date_from params) (Params.date_to params) = true ->
  has_next (Params.date_to params) (Params.interval_or_day params) = true ->
  Forall ReportsSla.ticket_valid db ->
  exists rep,
    ReportsSlaOverdue._query_overdue db now params = Py.Ok rep /\
    let n := length (ReportsSlaOverdue.trend_labels rep) in
    length (ReportsSlaOverdue.trend_open_breached rep) = n /\
    length (ReportsSlaOverdue.trend_closed_breached rep) = n /\
    length (ReportsSlaOverdue.trend_total rep) = n /\
    (forall i o c,
       ReportsSlaOverdue.trend_open_breached rep !! i = Some o ->
       ReportsSlaOverdue.trend_closed_breached rep !! i = Some c ->
       ReportsSlaOverdue.trend_total rep !! i = Some (o + c)) /\
    Py.sum (ReportsSlaOverdue.trend_open_breached rep) =
      ReportsSlaOverdue.kpi_overdue_open rep /\
    0 <= Py.sum (ReportsSlaOverdue.trend_closed_breached rep)
      <= ReportsSlaOverdue.kpi_overdue_closed rep /\
    Py.sum (ReportsSlaOverdue.trend_total rep) <=
      ReportsSlaOverdue.kpi_overdue_total rep.
Proof.
  intros Vf Vt L N F.
  destruct (SampleFacts.query_overdue_returns db now params Vf Vt L N F)
    as [rep R].
  exists rep. split; [exact R|]. open_overdue R Vf Vt F.
  destruct I3 as [L3 F3], I4 as [L4 F4].
  split; [exact L3|]. split; [exact L4|].
  split; [rewrite length_zip_with; lia|].
  split; [intros i o c; apply zip_add_lookup|].
  split; [exact I5|].
  split; [split; [apply sum_nonneg; assumption | assumption]|].
  rewrite zip_add_sum by lia. lia.
Qed.

Lemma overdue_trend_witness :
  exists rep,
    ReportsSlaOverdue._query_overdue Examples.scenarios Examples.now_ Examples.first_days = Py.Ok rep /\
    Py.sum (ReportsSlaOverdue.trend_open_breached rep) =
      ReportsSlaOverdue.kpi_overdue_open rep.
Proof.
  destruct (overdue_trend_adds_up Examples.scenarios Examples.now_ Examples.first_days)
    as (rep & R & _ & _ & _ & _ & T & _); [by_computation.. | valid_rows |].
  exists rep. split; assumption.
Defined.

(** X15. The bars by priority of the overdue report: each priority is listed
    once, in the order of its total, largest first, and the bars of each
    kind add up to the counter of the KPI block. *)
Theorem overdue_bars_add_up db now params :
  valid_datetime (Params.date_from params) = true ->
  valid_datetime (Params.date_to params) = true ->
  datetime_leb (Params.date_from params) (Params.date_to params) = true ->
  has_next (Params.date_to params) (Params.interval_or_day params) = true ->
  Forall ReportsSla.ticket_valid db ->
  exists rep,
    ReportsSlaOverdue._query_overdue db now params = Py.Ok rep /\
    NoDup (ReportsSlaOverdue.bar_labels rep) /\
    Py.sum (ReportsSlaOverdue.bar_open_breached rep) =
      ReportsSlaOverdue.kpi_overdue_open rep /\
    Py.sum (ReportsSlaOverdue.bar_closed_breached rep) =
      ReportsSlaOverdue.kpi_overdue_closed rep /\
    StronglySorted (fun x y => y <= x)
      (zip_with Z.add (ReportsSlaOverdue.bar_open_breached rep)
         (ReportsSlaOverdue.bar_closed_breached rep)).
Proof.
  intros Vf Vt L N F.
  destruct (SampleFacts.query_overdue_returns db now params Vf Vt L N F)
    as [rep R].
  exists rep. split; [exact R|]. open_overdue R Vf Vt F.
  match goal with
  | |- context [sort_by ?f (ReportsSlaOverdue.pr_list st)] =>
      set (keys := sort_by f (ReportsSlaOverdue.pr_list st))
  end.
  change (map (fun p => default 0 (ReportsSlaOverdue.per_pr_open st !! p)) keys)
    with (bar_of (ReportsSlaOverdue.per_pr_open st) keys).
  change (map (fun p => default 0 (ReportsSlaOverdue.per_pr_closed st !! p)) keys)
    with (bar_of (ReportsSlaOverdue.per_pr_closed st) keys).
  split; [apply sorted_NoDup; exact I7|].
  split; [unfold keys; rewrite bar_sum_sorted; apply I8|].
  split; [unfold keys; rewrite bar_sum_sorted; apply I9|].
  rewrite bar_of_zip.
  exact (sort_by_desc_sorted
           (fun pr => default 0 (ReportsSlaOverdue.per_pr_open st !! pr) +
                      default 0 (ReportsSlaOverdue.per_pr_closed st !! pr))
           (ReportsSlaOverdue.pr_list st)).
Qed.

Lemma overdue_bars_witness :
  exists rep,
    ReportsSlaOverdue._query_overdue Examples.scenarios Examples.now_ Examples.first_days = Py.Ok rep /\
    Py.sum (ReportsSlaOverdue.bar_open_breached rep) =
      ReportsSlaOverdue.kpi_overdue_open rep.
Proof.
  destruct (overdue_bars_add_up Examples.scenarios Examples.now_ Examples.first_days)
    as (rep & R & _ & T & _); [by_computation.. | valid_rows |].
  exists rep. split; assumption.
Defined.

Lemma agree_step rules interval l l' now a o r a' o' :
  ReportsSla.step rules interval l now a r = Py.Ok a' ->
  ReportsSlaOverdue.step rules interval l' now o r = Py.Ok o' ->
  agree a o -> agree a' o'.
Proof.
  unfold ReportsSla.step, ReportsSlaOverdue.step, Py.gtb.
  destruct (_target_hours (ticket_priority r) rules) as [tgt| |]; try discriminate.
  rewrite !bind_ok. intros Ha Ho (A1 & A2 & A3).
  destruct (ReportsSla.closed_at r) as [u|].
  - destruct (_bucket_key u interval) as [b| |]; try discriminate.
    rewrite bind_ok in Ha.
    destruct (Qle_bool _ _); simpl in Ho.
    + injection Ha as <-. injection Ho as <-. unfold agree. simpl.
      split_conj; assumption.
    + try rewrite bind_ok in Ho. injection Ha as <-. injection Ho as <-.
      unfold agree. simpl. rewrite !map_app, A1, A3. split_conj; reflexivity || assumption.
  - destruct (Qle_bool _ _); simpl in Ho.
    + injection Ha as <-. injection Ho as <-. unfold agree. simpl.
      split_conj; assumption.
    + destruct (_bucket_key (create_dt r) interval) as [b| |]; try discriminate.
      try rewrite bind_ok in Ho. injection Ha as <-. injection Ho as <-.
      unfold agree. simpl. rewrite !map_app, A2, A3. split_conj; reflexivity || assumption.
Qed.

Lemma agree_run rules interval l l' now rows : forall a o a' o',
  ReportsSla.run_loop (ReportsSla.step rules interval l now) a rows = Py.Ok a' ->
  ReportsSlaOverdue.run_loop (ReportsSlaOverdue.step rules interval l' now) o rows
    = Py.Ok o' ->
  agree a o -> agree a' o'.
Proof.
  induction rows as [|r rows IH]; intros a o a' o' Ha Ho A; simpl in Ha, Ho.
  - injection Ha as <-. injection Ho as <-. exact A.
  - destruct (ReportsSla.step rules interval l now a r) as [a1| |] eqn:Ea;
      try discriminate.
    destruct (ReportsSlaOverdue.step rules interval l' now o r) as [o1| |] eqn:Eo;
      try discriminate.
    apply (IH a1 o1 a' o' Ha Ho). eapply agree_step; eassumption.
Qed.

Lemma map_insert_sorted {A B} (f : A -> B) leb leb' x l :
  (forall a b, leb a b = leb' (f a) (f b)) ->
  map f (insert_sorted leb x l) = insert_sorted leb' (f x) (map f l).
Proof.
  intros H. induction l as [|y l IH]; simpl; [reflexivity|].
  rewrite <- H. destruct (leb x y); simpl; [reflexivity|]. f_equal. exact IH.
Qed.

Lemma map_sort_by {A B} (f : A -> B) leb leb' l :
  (forall a b, leb a b = leb' (f a) (f b)) ->
  map f (sort_by leb l) = sort_by leb' (map f l).
Proof.
  intros H. induction l as [|x l IH]; simpl; [reflexivity|].
  rewrite (map_insert_sorted f leb leb') by exact H. rewrite IH. reflexivity.
Qed.

(** X16. The achievement report and the overdue report agree on the tickets
    over their target: the same two counters, and the same samples in
    the same order, with the same target, hours so far and hours over the
    target. *)
Theorem reports_agree_on_overdue_tickets db now params :
  valid_datetime (Params.date_from params) = true ->
  valid_datetime (Params.date_to params) = true ->
  datetime_leb (Params.date_from params) (Params.date_to params) = true ->
  has_next (Params.date_to params) (Params.interval_or_day params) = true ->
  Forall ReportsSla.ticket_valid db ->
  exists ach ovd,
    ReportsSla._query_sla_achievement db now params = Py.Ok ach /\
    ReportsSlaOverdue._query_overdue db now params = Py.Ok ovd /\
    ReportsSla.kpi_breached_closed (ReportsSla.r_kpi ach) =
      ReportsSlaOverdue.kpi_overdue_closed ovd /\
    ReportsSla.kpi_open_breach (ReportsSla.r_kpi ach) =
      ReportsSlaOverdue.kpi_overdue_open ovd /\
    map ach_view (ReportsSla.breached_samples ach) =
      map ovd_view (ReportsSlaOverdue.top_samples ovd) /\
    ReportsSla.rules_by_priority_hours ach =
      ReportsSlaOverdue.rules_by_priority_hours ovd.
Proof.
  intros Vf Vt L N F.
  destruct (ReportsSlaFacts.query_sla_achievement_returns db now params
              Vf Vt L N F) as [ach Ra].
  destruct (SampleFacts.query_overdue_returns db now params Vf Vt L N F)
    as [ovd Ro].
  exists ach, ovd. split; [exact Ra|]. split; [exact Ro|].
  revert Ra Ro.
  unfold ReportsSla._query_sla_achievement, ReportsSlaOverdue._query_overdue.
  destruct (_iter_buckets _ _ _) as [bs| |]; try discriminate.
  rewrite !bind_ok.
  destruct (ReportsSla.run_loop _ _ _) as [a| |] eqn:Ea; try discriminate.
  destruct (ReportsSlaOverdue.run_loop _ _ _) as [o| |] eqn:Eo; try discriminate.
  rewrite !bind_ok. intros [= <-] [= <-]. simpl.
  destruct (agree_run _ _ _ _ _ _ _ _ _ _ Ea Eo) as (A1 & A2 & A3).
  { unfold agree. simpl. split_conj; reflexivity. }
  split; [exact A1|]. split; [exact A2|]. split; [|reflexivity].
  rewrite <- !firstn_map. f_equal.
  unfold ReportsSla.sort_samples, ReportsSlaOverdue.sort_samples.
  rewrite (map_sort_by ach_view _
             (fun x y : string * Z * Q * Q => Qle_bool (snd y) (snd x)))
    by reflexivity.
  rewrite (map_sort_by ovd_view _
             (fun x y : string * Z * Q * Q => Qle_bool (snd y) (snd x)))
    by reflexivity.
  rewrite A3. reflexivity.
Qed.

Lemma reports_agree_witness :
  exists ach ovd,
    ReportsSla._query_sla_achievement Examples.scenarios Examples.now_
      Examples.first_days = Py.Ok ach /\
    ReportsSlaOverdue._query_overdue Examples.scenarios Examples.now_
      Examples.first_days = Py.Ok ovd /\
    map ach_view (ReportsSla.breached_samples ach) =
      map ovd_view (ReportsSlaOverdue.top_samples ovd).
Proof.
  destruct (reports_agree_on_overdue_tickets Examples.scenarios Examples.now_
              Examples.first_days)
    as (ach & ovd & Ra & Ro & _ & _ & T & _);
    [by_computation.. | valid_rows |].
  exists ach, ovd. split; [exact Ra|]. split; [exact Ro | exact T].
Defined.

End SlaProperties.

(** ** Normalizing strings *)

Module StringFacts.

Lemma lstrip_cons c1 r1 :
  Py.lstrip (String c1 r1) =
  if Py.space_at (Py.utf8_1 c1) then Py.lstrip r1
  else
    match r1 with
    | EmptyString => String c1 r1
    | String c2 r2 =>
        if Py.space_at (Py.utf8_2 c1 c2) then Py.lstrip r2
        else
          match r2 with
          | EmptyString => String c1 r1
          | String c3 r3 =>
              if Py.space_at (Py.utf8_3 c1 c2 c3) then Py.lstrip r3
              else String c1 r1
          end
    end.
Proof. destruct r1 as [|c2 [|c3 r3]]; reflexivity. Qed.


Lemma utf8_1_low c : (N_of_ascii c <? 128)%N = true -> Py.utf8_1 c = Some (N_of_ascii c).
Proof. intros H. unfold Py.utf8_1. cbv zeta. change 0x80%N with 128%N. rewrite H. reflexivity. Qed.

Lemma utf8_2_low c1 c2 : (N_of_ascii c1 <? 128)%N = true -> Py.utf8_2 c1 c2 = None.
Proof.
  intros H. apply N.ltb_lt in H. unfold Py.utf8_2. cbv zeta.
  destruct (N.leb_spec 0xC2 (N_of_ascii c1)); [lia | reflexivity].
Qed.

Lemma utf8_3_low c1 c2 c3 : (N_of_ascii c1 <? 128)%N = true -> Py.utf8_3 c1 c2 c3 = None.
Proof.
  intros H. apply N.ltb_lt in H. unfold Py.utf8_3. cbv zeta.
  destruct (N.leb_spec 0xE0 (N_of_ascii c1)); [lia | reflexivity].
Qed.

(** On a string that starts with an ASCII character [lstrip] looks at that
    character only. *)
Lemma lstrip_low c r :
  (N_of_ascii c <? 128)%N = true ->
  Py.lstrip (String c r) =
  if Py.space_at (Py.utf8_1 c) then Py.lstrip r else String c r.
Proof.
  intros H. rewrite lstrip_cons.
  destruct (Py.space_at (Py.utf8_1 c)); [reflexivity|].
  destruct r as [|c2 r2]; [reflexivity|].
  rewrite (utf8_2_low c c2 H). cbn [Py.space_at].
  destruct r2 as [|c3 r3]; [reflexivity|].
  rewrite (utf8_3_low c c2 c3 H). reflexivity.
Qed.

Lemma lower_char_low c :
  (N_of_ascii (Py.lower_char c) <? 128)%N = (N_of_ascii c <? 128)%N.
Proof. destruct c as [[] [] [] [] [] [] [] []]; reflexivity. Qed.

Lemma lower_char_idem c : Py.lower_char (Py.lower_char c) = Py.lower_char c.
Proof. destruct c as [[] [] [] [] [] [] [] []]; reflexivity. Qed.

Lemma space_lower_char c :
  Py.space_at (Py.utf8_1 (Py.lower_char c)) = Py.space_at (Py.utf8_1 c).
Proof. destruct c as [[] [] [] [] [] [] [] []]; reflexivity. Qed.

Lemma isascii_cons c r :
  Text.isascii (String c r) = true ->
  (N_of_ascii c <? 128)%N = true /\ Text.isascii r = true.
Proof. cbn [Text.isascii]. intros H. apply andb_true_iff in H. exact H. Qed.

Lemma isascii_lower s : Text.isascii s = true -> Text.isascii (Py.lower s) = true.
Proof.
  induction s as [|c s IH]; [reflexivity|]. intros H.
  apply isascii_cons in H. destruct H as [Hc Hs].
  cbn [Py.lower Text.isascii]. rewrite lower_char_low, Hc. exact (IH Hs).
Qed.

Lemma isascii_lstrip s : Text.isascii s = true -> Text.isascii (Py.lstrip s) = true.
Proof.
  induction s as [|c s IH]; [reflexivity|]. intros H.
  destruct (isascii_cons _ _ H) as [Hc Hs]. rewrite (lstrip_low c s Hc).
  destruct (Py.space_at _); [exact (IH Hs) | exact H].
Qed.

Lemma isascii_rstrip s : Text.isascii s = true -> Text.isascii (Py.rstrip s) = true.
Proof.
  induction s as [|c s IH]; [reflexivity|]. intros H.
  destruct (isascii_cons _ _ H) as [Hc Hs]. cbn [Py.rstrip].
  destruct (Py.lstrip (String c s)); [reflexivity|].
  cbn [Text.isascii]. rewrite Hc. exact (IH Hs).
Qed.

Lemma isascii_strip s : Text.isascii s = true -> Text.isascii (Py.strip s) = true.
Proof. intros H. apply isascii_rstrip, isascii_lstrip, H. Qed.

Lemma lower_idem s : Py.lower (Py.lower s) = Py.lower s.
Proof.
  induction s as [|c s IH]; simpl; [reflexivity|].
  rewrite lower_char_idem, IH. reflexivity.
Qed.

Lemma lower_empty s : Py.lower s = EmptyString <-> s = EmptyString.
Proof. destruct s; simpl; split; intros H; congruence. Qed.

Lemma lstrip_lower s :
  Text.isascii s = true -> Py.lstrip (Py.lower s) = Py.lower (Py.lstrip s).
Proof.
  induction s as [|c s IH]; [reflexivity|]. intros H.
  destruct (isascii_cons _ _ H) as [Hc Hs].
  cbn [Py.lower]. rewrite lstrip_low by (rewrite lower_char_low; exact Hc).
  rewrite (lstrip_low c s Hc), space_lower_char.
  destruct (Py.space_at _); [exact (IH Hs) | reflexivity].
Qed.

Lemma rstrip_lower s :
  Text.isascii s = true -> Py.rstrip (Py.lower s) = Py.lower (Py.rstrip s).
Proof.
  induction s as [|c s IH]; [reflexivity|]. intros H.
  destruct (isascii_cons _ _ H) as [Hc Hs].
  change (Py.lower (String c s)) with (String (Py.lower_char c) (Py.lower s)).
  cbn [Py.rstrip].
  change (String (Py.lower_char c) (Py.lower s)) with (Py.lower (String c s)).
  rewrite (lstrip_lower _ H).
  destruct (Py.lstrip (String c s)) as [|d t]; [reflexivity|].
  cbn [Py.lower]. rewrite (IH Hs). reflexivity.
Qed.

Lemma strip_lower s :
  Text.isascii s = true -> Py.strip (Py.lower s) = Py.lower (Py.strip s).
Proof.
  intros H. unfold Py.strip.
  rewrite (lstrip_lower _ H), (rstrip_lower _ (isascii_lstrip _ H)). reflexivity.
Qed.

Lemma lstrip_length s : (String.length (Py.lstrip s) <= String.length s)%nat.
Proof.
  assert (G : forall n s, (String.length s < n)%nat ->
            (String.length (Py.lstrip s) <= String.length s)%nat).
  { clear s. induction n as [|n IH]; intros s L; [lia|].
    destruct s as [|c1 r1]; [reflexivity|]. rewrite lstrip_cons.
    cbn [String.length] in L.
    destruct (Py.space_at (Py.utf8_1 c1)).
    { pose proof (IH r1 ltac:(lia)). cbn [String.length]. lia. }
    destruct r1 as [|c2 r2]; [lia|]. cbn [String.length] in L.
    destruct (Py.space_at (Py.utf8_2 c1 c2)).
    { pose proof (IH r2 ltac:(lia)). cbn [String.length]. lia. }
    destruct r2 as [|c3 r3]; [lia|]. cbn [String.length] in L.
    destruct (Py.space_at (Py.utf8_3 c1 c2 c3)); [|lia].
    pose proof (IH r3 ltac:(lia)). cbn [String.length]. lia. }
  apply (G (S (String.length s))). lia.
Qed.

(** What [lstrip] returns does not start with white space. *)
Lemma lstrip_idem s :
  Text.isascii s = true -> Py.lstrip (Py.lstrip s) = Py.lstrip s.
Proof.
  induction s as [|c s IH]; [reflexivity|]. intros H.
  destruct (isascii_cons _ _ H) as [Hc Hs]. rewrite (lstrip_low c s Hc).
  destruct (Py.space_at _) eqn:S; [exact (IH Hs)|].
  rewrite (lstrip_low c s Hc), S. reflexivity.
Qed.

(** A string that is not white space only stays so when white space is cut
    off its end. *)
Lemma lstrip_rstrip_some s :
  Text.isascii s = true ->
  Py.lstrip s <> EmptyString -> Py.lstrip (Py.rstrip s) <> EmptyString.
Proof.
  induction s as [|c s IH]; [intros _ H; exact H|]. intros H N.
  destruct (isascii_cons _ _ H) as [Hc Hs]. cbn [Py.rstrip].
  destruct (Py.lstrip (String c s)) as [|d t] eqn:E; [congruence|].
  rewrite (lstrip_low c _ Hc). rewrite (lstrip_low c s Hc) in E.
  destruct (Py.space_at _); [|discriminate].
  apply (IH Hs). rewrite E. discriminate.
Qed.

Lemma rstrip_idem s :
  Text.isascii s = true -> Py.rstrip (Py.rstrip s) = Py.rstrip s.
Proof.
  induction s as [|c s IH]; [reflexivity|]. intros H.
  destruct (isascii_cons _ _ H) as [Hc Hs].
  pose proof (lstrip_rstrip_some _ H) as K. cbn [Py.rstrip] in K |- *.
  destruct (Py.lstrip (String c s)) as [|d t] eqn:E; [reflexivity|].
  cbn [Py.rstrip].
  destruct (Py.lstrip (String c (Py.rstrip s))) as [|d' t'] eqn:E'.
  - exfalso. apply K; [discriminate | reflexivity].
  - rewrite (IH Hs). reflexivity.
Qed.

(** A string that does not start with white space keeps its first
    character when white space is cut off its end. *)
Lemma lstrip_rstrip s :
  Text.isascii s = true ->
  Py.lstrip s = s -> Py.lstrip (Py.rstrip s) = Py.rstrip s.
Proof.
  destruct s as [|c s]; [reflexivity|]. intros H E.
  destruct (isascii_cons _ _ H) as [Hc Hs].
  cbn [Py.rstrip]. rewrite E.
  rewrite (lstrip_low c s Hc) in E. rewrite (lstrip_low c _ Hc).
  destruct (Py.space_at _); [|reflexivity].
  exfalso. pose proof (lstrip_length s) as L. rewrite E in L.
  cbn [String.length] in L. lia.
Qed.

Lemma strip_idem s :
  Text.isascii s = true -> Py.strip (Py.strip s) = Py.strip s.
Proof.
  intros H. unfold Py.strip.
  rewrite (lstrip_rstrip (Py.lstrip s) (isascii_lstrip _ H) (lstrip_idem _ H)).
  apply rstrip_idem, isascii_lstrip, H.
Qed.

End StringFacts.

(** ** Resolution of the target hours *)

Module RulesProperties.
Import Rules RulesFacts StringFacts.

Lemma normalize_idem p :
  Text.isascii (Py.or_empty p) = true ->
  _normalize_priority (Some (_normalize_priority p)) = _normalize_priority p.
Proof.
  intros H. unfold _normalize_priority. simpl Py.or_empty at 1.
  rewrite strip_lower by (apply isascii_strip, H).
  rewrite strip_idem by exact H.
  rewrite lower_idem. reflexivity.
Qed.

Lemma target_hours_normalized a b rules :
  _normalize_priority a = _normalize_priority b ->
  _target_hours a rules = _target_hours b rules.
Proof. intros E. unfold _target_hours. rewrite E. reflexivity. Qed.

Lemma composed_other params k :
  ~ In k ["p1"; "p2"; "p3"; "p4"; "__default__"] ->
  _compose_rules_from_params params !! k = SLA_RULES_DEFAULT !! k.
Proof. intros H. apply fold_override_other. exact H. Qed.

(** X4. The named levels have entries of their own in the base table, and no
    override key writes to them: [critical] and [urgent] keep 4 hours,
    [high] 8, [medium] 24 and [low] 72, whatever [p1h] to [p4h] and [defh]
    say. *)
Theorem named_levels_ignore_overrides params priority level h :
  In (level, h) [("critical", 4); ("urgent", 4); ("high", 8); ("medium", 24);
                 ("low", 72)] ->
  _normalize_priority priority = level ->
  _target_hours priority (_compose_rules_from_params params) = Py.Ok h.
Proof.
  intros I E. unfold _target_hours. rewrite E.
  assert (D : _compose_rules_from_params params !! level = Some h).
  { simpl in I.
    repeat (destruct I as [[= <- <-] | I];
      [rewrite composed_other;
         [reflexivity
         | simpl; intros C; repeat destruct C as [C|C]; discriminate C || exact C]
      |]).
    contradiction. }
  rewrite D. reflexivity.
Qed.

Lemma named_levels_witness :
  _target_hours (Some " Critical ")
    (_compose_rules_from_params (Examples.override (Py.VInt 1))) = Py.Ok 4 /\
  _target_hours (Some "p1")
    (_compose_rules_from_params (Examples.override (Py.VInt 1))) = Py.Ok 1.
Proof.
  split; [|vm_compute; reflexivity].
  apply (named_levels_ignore_overrides (Examples.override (Py.VInt 1))
           (Some " Critical ") "critical" 4).
  - simpl. tauto.
  - vm_compute. reflexivity.
Defined.

Lemma follows_p3 params priority :
  In (_normalize_priority priority) ["normal"; "standard"] ->
  exists h, _compose_rules_from_params params !! "p3" = Some h /\
            _target_hours priority (_compose_rules_from_params params) = Py.Ok h.
Proof.
  set (rules := _compose_rules_from_params params).
  set (p := _normalize_priority priority).
  destruct (compose_rules_ok params) as [K _]. fold rules in K.
  intros I. destruct (K "p3") as [h H]; [eexists; reflexivity|].
  exists h. split; [exact H|]. unfold _target_hours. fold p. fold rules.
  assert (D : rules !! p = None).
  { unfold rules. simpl in I. destruct I as [<-|[<-|[]]];
      (rewrite composed_other;
        [reflexivity
        | simpl; intros C; repeat destruct C as [C|C]; discriminate C || exact C]). }
  rewrite D. simpl in I. destruct I as [<-|[<-|[]]];
    (replace (alias !! _) with (Some "p3") by (symmetry; apply alias_table; simpl; tauto));
    rewrite H; reflexivity.
Qed.

Lemma unknown_gets_default params priority :
  ~ In (_normalize_priority priority)
      ["p1"; "p2"; "p3"; "p4"; "__default__"; "critical"; "urgent";
       "high"; "medium"; "low"; "normal"; "standard"] ->
  exists h, _compose_rules_from_params params !! "__default__" = Some h /\
            _target_hours priority (_compose_rules_from_params params) = Py.Ok h.
Proof.
  set (rules := _compose_rules_from_params params).
  set (p := _normalize_priority priority).
  destruct (compose_rules_ok params) as [K _]. fold rules in K.
  intros NI. destruct (K "__default__") as [h H]; [eexists; reflexivity|].
  exists h. split; [exact H|]. unfold _target_hours. fold p. fold rules.
  assert (D : rules !! p = None).
  { unfold rules. rewrite composed_other by (simpl in *; tauto).
    unfold SLA_RULES_DEFAULT.
    repeat (rewrite lookup_insert_ne by (intros <-; apply NI; simpl; tauto)).
    apply lookup_empty. }
  assert (A : alias !! p = None).
  { unfold alias.
    repeat (rewrite lookup_insert_ne by (intros <-; apply NI; simpl; tauto)).
    apply lookup_empty. }
  rewrite D, A. unfold getitem. rewrite H. reflexivity.
Qed.

(** X5. The levels without an entry of their own follow the tier they stand
    for, and a priority that is neither a tier nor a level gets the
    default entry: [normal] and [standard] resolve to the [p3] entry as it
    is after the overrides, any unknown priority to [__default__]. *)
Theorem alias_only_levels_follow_overrides params priority :
  let rules := _compose_rules_from_params params in
  let p := _normalize_priority priority in
  (In p ["normal"; "standard"] ->
   exists h, rules !! "p3" = Some h /\ _target_hours priority rules = Py.Ok h) /\
  (~ In p ["p1"; "p2"; "p3"; "p4"; "__default__"; "critical"; "urgent";
           "high"; "medium"; "low"; "normal"; "standard"] ->
   exists h, rules !! "__default__" = Some h /\
             _target_hours priority rules = Py.Ok h).
Proof.
  intros rules p. split; [apply follows_p3 | apply unknown_gets_default].
Qed.

Lemma alias_only_levels_witness :
  _target_hours (Some "Normal") (_compose_rules_from_params Samples.tiers)
    = Py.Ok 12 /\
  _target_hours (Some "p5") (_compose_rules_from_params Samples.tiers)
    = Py.Ok 48.
Proof.
  destruct (alias_only_levels_follow_overrides Samples.tiers (Some "Normal"))
    as [[h1 [H1 T1]] _]; [vm_compute; tauto|].
  destruct (alias_only_levels_follow_overrides Samples.tiers (Some "p5"))
    as [_ [h2 [H2 T2]]]; [vm_compute; intuition discriminate|].
  rewrite T1, T2. vm_compute in H1, H2.
  injection H1 as <-. injection H2 as <-. split; reflexivity.
Defined.

(** X6. The rule table a report shows is the one it applied: each of the five
    pairs it lists is an entry of the composed table, not negative, and a
    ticket whose priority is that tier resolves to those hours. *)
Theorem reported_rules_are_applied params k h :
  In (k, h) (ReportsSla.by_priority_hours (_compose_rules_from_params params)) ->
  In k ["p1"; "p2"; "p3"; "p4"; "__default__"] /\
  _compose_rules_from_params params !! k = Some h /\ 0 <= h /\
  _target_hours (Some k) (_compose_rules_from_params params) = Py.Ok h.
Proof.
  destruct (compose_rules_ok params) as [K N].
  set (rules := _compose_rules_from_params params) in *.
  unfold ReportsSla.by_priority_hours. intros I.
  apply in_map_iff in I. destruct I as (k' & E & I).
  injection E as -> <-. split; [exact I|].
  assert (Hk : is_Some (SLA_RULES_DEFAULT !! k)).
  { simpl in I. repeat (destruct I as [<-|I]; [eexists; reflexivity|]).
    contradiction. }
  destruct (K k Hk) as [h Hh]. rewrite Hh. simpl.
  split; [reflexivity|]. split; [exact (N _ _ Hh)|].
  unfold _target_hours.
  assert (E : _normalize_priority (Some k) = k).
  { simpl in I. repeat (destruct I as [<-|I]; [reflexivity|]). contradiction. }
  rewrite E, Hh. reflexivity.
Qed.

Lemma reported_rules_witness :
  In ("p1", 1)
    (ReportsSla.by_priority_hours
       (_compose_rules_from_params (Examples.override (Py.VInt 1)))) /\
  _target_hours (Some "p1")
    (_compose_rules_from_params (Examples.override (Py.VInt 1))) = Py.Ok 1.
Proof.
  assert (I : In ("p1", 1)
    (ReportsSla.by_priority_hours
       (_compose_rules_from_params (Examples.override (Py.VInt 1)))))
    by (vm_compute; tauto).
  split; [exact I|].
  apply (reported_rules_are_applied (Examples.override (Py.VInt 1)) "p1" 1 I).
Defined.

(** X7. For a priority written in ASCII characters, normalizing is
    idempotent, and the label of a bar stands for its tickets: the priority
    key under which a ticket is counted, the normalized priority or the
    label for a missing one, resolves to the same target hours as the
    ticket. *)
Theorem bar_label_resolves_like_its_tickets params priority :
  Text.isascii (Py.or_empty priority) = true ->
  _normalize_priority (Some (_normalize_priority priority)) =
    _normalize_priority priority /\
  _target_hours (Some (ReportsSla.priority_key priority))
    (_compose_rules_from_params params) =
  _target_hours priority (_compose_rules_from_params params).
Proof.
  intros A. split; [exact (normalize_idem priority A)|].
  unfold ReportsSla.priority_key.
  destruct (_normalize_priority priority) as [|c s] eqn:E.
  - destruct (unknown_gets_default params (Some "未設定"))
      as [h1 [H1 T1]]; [vm_compute; intuition discriminate|].
    destruct (unknown_gets_default params priority)
      as [h2 [H2 T2]]; [rewrite E; simpl; intuition discriminate|].
    rewrite T1, T2. congruence.
  - apply target_hours_normalized. rewrite <- E. exact (normalize_idem priority A).
Qed.

Lemma bar_label_witness :
  Text.isascii (Py.or_empty (Some " High ")) = true /\
  ReportsSla.priority_key (Some " High ") = "high" /\
  _normalize_priority (Some "high") = "high" /\
  _target_hours (Some "high") (_compose_rules_from_params Samples.tiers) =
    Py.Ok 8.
Proof.
  assert (A : Text.isascii (Py.or_empty (Some " High ")) = true)
    by (vm_compute; reflexivity).
  destruct (bar_label_resolves_like_its_tickets Samples.tiers (Some " High ") A)
    as [I T].
  split; [exact A|]. split; [vm_compute; reflexivity|].
  split; [exact I|].
  change (Some "high") with (Some (ReportsSla.priority_key (Some " High "))).
  rewrite T. vm_compute. reflexivity.
Defined.

End RulesProperties.

Module CountFacts.
Import Calendar CalendarFacts Buckets BucketFacts CoverFacts.

Section Count.
Variable next : date -> Py.result date.
Variable ord : date -> Z.
Variable Inv : date -> Prop.
Variable step : Z.
Hypothesis step_pos : 0 < step.
Hypothesis next_ok : forall a b, Inv a -> next a = Py.Ok b ->
  Inv b /\ ord b = ord a + step.

(** The loop runs once for each aligned position up to [end_]. *)
Lemma chain_length end_ cur l :
  Inv cur -> chain next ord end_ cur l -> ord cur <= ord end_ + step ->
  Z.of_nat (length l) = (ord end_ - ord cur + step) / step.
Proof.
  intros Hc C. induction C as [|cur cur' l L N C IH]; intros B.
  - symmetry. apply Z.div_small. simpl. lia.
  - destruct (next_ok _ _ Hc N) as [Hc' O].
    cbn [length]. rewrite Nat2Z.inj_succ, (IH Hc') by lia.
    replace (ord end_ - ord cur + step)
      with (ord end_ - ord cur' + step + 1 * step) by lia.
    rewrite Z.div_add by lia. lia.
Qed.
End Count.

(** The number of buckets of a period, by interval. *)
Lemma iter_buckets_length date_from date_to interval l :
  valid_datetime date_from = true ->
  valid_datetime date_to = true ->
  datetime_leb date_from date_to = true ->
  _iter_buckets date_from date_to interval = Py.Ok l ->
  Z.of_nat (length l) =
    if String.eqb interval "month" then
      month_index (dt_date date_to) - month_index (dt_date date_from) + 1
    else if String.eqb interval "week" then
      (toordinal (dt_date date_to) - weekday (dt_date date_to)
       - (toordinal (dt_date date_from) - weekday (dt_date date_from))) / 7 + 1
    else toordinal (dt_date date_to) - toordinal (dt_date date_from) + 1.
Proof.
  intros Vf Vt L.
  apply valid_dt_date in Vf, Vt. apply datetime_leb_date in L.
  interval_cases interval.
  - destruct (first_of_month_ok _ Vf) as [Ef If].
    destruct (first_of_month_ok _ Vt) as [Et It].
    rewrite Ef, Et, !bind_ok. intros R.
    apply (loop_chain next_month month_index month_inv 1 cmp_month_index
             next_month_ok) in R; [|assumption..].
    apply date_leb_first_of_month in L.
    rewrite (leb_ord month_index month_inv cmp_month_index _ _ If It) in L.
    apply Z.leb_le in L.
    rewrite (chain_length next_month month_index month_inv 1 ltac:(lia)
               next_month_ok _ _ _ If R) by lia.
    rewrite Z.div_1_r. unfold month_index. simpl. lia.
  - destruct (monday_of_ok _ Vf) as (cur & Ef & Vc & Oc & Wc).
    destruct (monday_of_ok _ Vt) as (end_ & Et & Ve & Oe & We).
    rewrite Ef, Et, !bind_ok. intros R.
    assert (NO : forall a b, day_inv a -> add_days a 7 = Py.Ok b ->
                   day_inv b /\ toordinal b = toordinal a + 7)
      by (intros ? ?; apply add_days_ok; lia).
    apply (loop_chain (fun c => add_days c 7) toordinal day_inv 7 cmp_toordinal
             NO) in R; [|assumption..].
    rewrite (leb_ord toordinal day_inv cmp_toordinal _ _ Vf Vt) in L.
    apply Z.leb_le in L.
    assert (LL : toordinal cur <= toordinal end_).
    { rewrite Oc, Oe. unfold weekday. divmod. }
    rewrite (chain_length (fun c => add_days c 7) toordinal day_inv 7 ltac:(lia)
               NO _ _ _ Vc R) by lia.
    rewrite Oc, Oe.
    replace (toordinal (dt_date date_to) - weekday (dt_date date_to) -
             (toordinal (dt_date date_from) - weekday (dt_date date_from)) + 7)
      with (toordinal (dt_date date_to) - weekday (dt_date date_to) -
            (toordinal (dt_date date_from) - weekday (dt_date date_from)) + 1 * 7)
      by lia.
    rewrite Z.div_add by lia. reflexivity.
  - intros R.
    assert (NO : forall a b, day_inv a -> add_days a 1 = Py.Ok b ->
                   day_inv b /\ toordinal b = toordinal a + 1)
      by (intros ? ?; apply add_days_ok; lia).
    apply (loop_chain (fun c => add_days c 1) toordinal day_inv 1 cmp_toordinal
             NO) in R; [|assumption..].
    rewrite (leb_ord toordinal day_inv cmp_toordinal _ _ Vf Vt) in L.
    apply Z.leb_le in L.
    rewrite (chain_length (fun c => add_days c 1) toordinal day_inv 1 ltac:(lia)
               NO _ _ _ Vf R) by lia.
    rewrite Z.div_1_r. lia.
Qed.

End CountFacts.

(** ** The period of a request and its buckets *)

Module RangeProperties.
Import Calendar CalendarFacts Buckets BucketFacts CoverFacts CountFacts.
Import DefaultRange.

(** X2. The number of buckets of a period: its days, the weeks from the
    Monday of [date_from] to the Monday of [date_to], or its months. *)
Theorem iter_buckets_count date_from date_to interval :
  valid_datetime date_from = true ->
  valid_datetime date_to = true ->
  datetime_leb date_from date_to = true ->
  has_next date_to interval = true ->
  exists l,
    _iter_buckets date_from date_to interval = Py.Ok l /\
    Z.of_nat (length l) =
      if String.eqb interval "month" then
        (year (dt_date date_to) - year (dt_date date_from)) * 12 +
        (month (dt_date date_to) - month (dt_date date_from)) + 1
      else if String.eqb interval "week" then
        (toordinal (dt_date date_to) - weekday (dt_date date_to)
         - (toordinal (dt_date date_from) - weekday (dt_date date_from))) / 7
        + 1
      else toordinal (dt_date date_to) - toordinal (dt_date date_from) + 1.
Proof.
  intros Vf Vt L N.
  destruct (iter_buckets_range _ _ _ Vf Vt L N) as (l & _ & _ & B & _).
  exists l. split; [exact B|].
  rewrite (iter_buckets_length _ _ _ l Vf Vt L B).
  destruct (String.eqb interval "month"); [unfold month_index; lia | reflexivity].
Qed.

Lemma iter_buckets_count_witness :
  exists l,
    _iter_buckets (Examples.at_ 2024 1 30 0 0) (Examples.end_of 2024 3 2) "week"
      = Py.Ok l /\
    Z.of_nat (length l) = 5.
Proof.
  destruct (iter_buckets_count (Examples.at_ 2024 1 30 0 0)
              (Examples.end_of 2024 3 2) "week")
    as (l & B & C); try reflexivity.
  exists l. split; [exact B|]. rewrite C. reflexivity.
Defined.

Lemma start_of_day_valid t :
  valid_date (dt_date t) = true -> valid_datetime (start_of_day t) = true.
Proof. intros V. unfold valid_datetime, start_of_day. simpl. rewrite V. reflexivity. Qed.

Lemma midnight_leb d t :
  date_leb d (dt_date t) = true -> valid_datetime t = true ->
  datetime_leb (Datetime d 0 0 0 0) t = true.
Proof.
  intros L V. unfold valid_datetime in V. rewrite !andb_true_iff in V.
  destruct V as ((((((((_ & H1) & _) & M1) & _) & S1) & _) & U1) & _).
  apply Z.leb_le in H1, M1, S1, U1.
  destruct t as [[y2 m2 d2] h mi se us], d as [y1 m1 d1].
  unfold datetime_leb, date_leb, datetime_fields, date_fields in *.
  cbn [dt_date hour minute second microsecond year month day app cmp_fields] in *.
  destruct (y1 ?= y2); [|reflexivity|discriminate L].
  destruct (m1 ?= m2); [|reflexivity|discriminate L].
  destruct (d1 ?= d2); [|reflexivity|discriminate L].
  destruct (Z.compare_spec 0 h); [|reflexivity|lia].
  destruct (Z.compare_spec 0 mi); [|reflexivity|lia].
  destruct (Z.compare_spec 0 se); [|reflexivity|lia].
  destruct (Z.compare_spec 0 us); [reflexivity|reflexivity|lia].
Qed.

(** X3. When no start is given, the period is the [days] days that end with
    the day of [date_to] (today when no end is given either): it starts at
    midnight [days - 1] days earlier, and its daily trend has [days]
    buckets. *)
Theorem default_range_has_days_buckets now date_to days :
  let t := match date_to with Some t => t | None => end_of_day now end in
  valid_datetime t = true ->
  1 <= days <= toordinal (dt_date t) ->
  has_next t "day" = true ->
  exists f l,
    _default_range_if_empty now None date_to days = Py.Ok (f, t) /\
    valid_datetime f = true /\
    datetime_leb f t = true /\
    (hour f, minute f, second f, microsecond f) = (0, 0, 0, 0) /\
    toordinal (dt_date f) = toordinal (dt_date t) - (days - 1) /\
    _iter_buckets f t "day" = Py.Ok l /\
    Z.of_nat (length l) = days.
Proof.
  intros t Vt D N.
  pose proof (valid_dt_date _ Vt) as Vd.
  pose proof (toordinal_range _ Vd) as R.
  set (o := toordinal (dt_date t) + - (days - 1)).
  assert (Ro : 1 <= o <= _MAXORDINAL) by (unfold o; lia).
  destruct (fromordinal_spec o (proj1 Ro)) as [Eo _].
  pose proof (fromordinal_valid o Ro) as Vo.
  set (f := Datetime (fromordinal o) 0 0 0 0).
  assert (Vf : valid_datetime f = true) by (unfold valid_datetime, f; cbn [dt_date hour minute second microsecond]; rewrite Vo; reflexivity).
  assert (L : datetime_leb f t = true).
  { apply midnight_leb; [|exact Vt].
    rewrite (leb_ord toordinal day_inv cmp_toordinal _ _ Vo Vd).
    apply Z.leb_le. rewrite Eo. unfold o. lia. }
  destruct (iter_buckets_range f t "day" Vf Vt L N) as (l & _ & _ & B & _).
  exists f, l.
  split.
  { unfold _default_range_if_empty. fold t. unfold sub_days.
    rewrite add_days_in_range by (fold o; lia). fold o.
    rewrite !bind_ok. reflexivity. }
  split; [exact Vf|]. split; [exact L|]. split; [reflexivity|].
  split; [unfold f; cbn [dt_date]; rewrite Eo; unfold o; lia|].
  split; [exact B|].
  rewrite (iter_buckets_length f t "day" l Vf Vt L B).
  cbn [String.eqb Ascii.eqb Bool.eqb]. unfold f. cbn [dt_date]. rewrite Eo. unfold o. lia.
Qed.

Lemma default_range_witness :
  exists f l,
    _default_range_if_empty (Examples.at_ 2024 1 30 9 30) None None 30
      = Py.Ok (f, Examples.end_of 2024 1 30) /\
    f = Examples.at_ 2024 1 1 0 0 /\
    _iter_buckets f (Examples.end_of 2024 1 30) "day" = Py.Ok l /\
    Z.of_nat (length l) = 30.
Proof.
  destruct (default_range_has_days_buckets (Examples.at_ 2024 1 30 9 30) None 30)
    as (f & l & E & _ & _ & _ & _ & B & C).
  - reflexivity.
  - vm_compute. split; discriminate.
  - reflexivity.
  - exists f, l. split; [exact E|]. split; [|split; [exact B | exact C]].
    vm_compute in E. injection E as <-. reflexivity.
Defined.

End RangeProperties.

Module RoundFacts.
Import PyFacts BuiltinFacts.

Lemma round_half_even_mono x y :
  (x <= y)%Q -> Py.round_half_even x <= Py.round_half_even y.
Proof.
  intros H. pose proof (Qfloor_resp_le x y H) as F.
  destruct (Z.eq_dec (Qfloor x) (Qfloor y)) as [E|NE].
  - unfold Py.round_half_even. rewrite <- E.
    remember (inject_Z (Qfloor x)) as f eqn:Hf. clear Hf.
    assert (D : (x - f <= y - f)%Q) by lra.
    set (dx := (x - f)%Q) in *.
    set (dy := (y - f)%Q) in *.
    destruct (Qcompare_spec dx (1 # 2)) as [Cx|Cx|Cx],
             (Qcompare_spec dy (1 # 2)) as [Cy|Cy|Cy];
      try (destruct (Z.even (Qfloor x))); try lia; exfalso; lra.
  - assert (A : Py.round_half_even x <= Qfloor x + 1).
    { unfold Py.round_half_even.
      destruct (_ ?= _)%Q; [destruct (Z.even _)| |]; lia. }
    assert (B : Qfloor y <= Py.round_half_even y).
    { unfold Py.round_half_even.
      destruct (_ ?= _)%Q; [destruct (Z.even _)| |]; lia. }
    lia.
Qed.

Lemma round_mono x y n : (x <= y)%Q -> (Py.round x n <= Py.round y n)%Q.
Proof.
  intros H. unfold Py.round.
  assert (M : 0 < 10 ^ Z.of_nat n) by (apply Z.pow_pos_nonneg; lia).
  set (m := 10 ^ Z.of_nat n) in *.
  assert (Mq : (0 < inject_Z m)%Q) by (rewrite <- (Zlt_Qlt 0); exact M).
  apply Qmult_le_compat_r; [|apply Qlt_le_weak, Qinv_lt_0_compat, Mq].
  rewrite <- Zle_Qle. apply round_half_even_mono.
  apply Qmult_le_compat_r; [exact H | apply Qlt_le_weak, Mq].
Qed.

End RoundFacts.

Module EfficiencyBuckets.
Import Calendar Models Done ReportsTicket Durations.
Import BucketFacts PyFacts BuiltinFacts RoundFacts.

Lemma leq_true t sec :
  (inject_Z t <= sec)%Q -> Qle_bool (inject_Z t) sec = true.
Proof. apply Qle_bool_iff. Qed.

Lemma leq_false t sec :
  (sec < inject_Z t)%Q -> Qle_bool (inject_Z t) sec = false.
Proof.
  intros H. apply not_true_iff_false. intros C. apply Qle_bool_iff in C.
  apply (Qlt_not_le _ _ H C).
Qed.

Lemma buckets_bounds :
  exists l0 l1 l2 l3 l4 l5 l6,
    _BUCKETS = [(0, Some 3600, l0); (3600, Some 14400, l1);
                (14400, Some 28800, l2); (28800, Some 86400, l3);
                (86400, Some 259200, l4); (259200, Some 604800, l5);
                (604800, None, l6)].
Proof. repeat eexists. Qed.

Ltac leq_facts sec :=
  repeat first
    [ rewrite (leq_true 0 sec) by (unfold inject_Z in *; lra)
    | rewrite (leq_true 3600 sec) by (unfold inject_Z in *; lra)
    | rewrite (leq_false 3600 sec) by (unfold inject_Z in *; lra)
    | rewrite (leq_true 14400 sec) by (unfold inject_Z in *; lra)
    | rewrite (leq_false 14400 sec) by (unfold inject_Z in *; lra)
    | rewrite (leq_true 28800 sec) by (unfold inject_Z in *; lra)
    | rewrite (leq_false 28800 sec) by (unfold inject_Z in *; lra)
    | rewrite (leq_true 86400 sec) by (unfold inject_Z in *; lra)
    | rewrite (leq_false 86400 sec) by (unfold inject_Z in *; lra)
    | rewrite (leq_true 259200 sec) by (unfold inject_Z in *; lra)
    | rewrite (leq_false 259200 sec) by (unfold inject_Z in *; lra)
    | rewrite (leq_true 604800 sec) by (unfold inject_Z in *; lra)
    | rewrite (leq_false 604800 sec) by (unfold inject_Z in *; lra) ].

(** A duration that is not negative lies in one bucket, and the loop over
    the buckets stops at that one. *)
Lemma bucket_of sec :
  (0 <= sec)%Q ->
  exists j, (j < 7)%nat /\
    (forall bc, count_in_bucket sec 0 _BUCKETS bc = alter Z.succ j bc) /\
    (forall i b, _BUCKETS !! i = Some b -> in_bucket sec b = bool_decide (i = j)).
Proof.
  intros H0. destruct buckets_bounds as (l0 & l1 & l2 & l3 & l4 & l5 & l6 & ->).
  assert (C : (sec < inject_Z 3600 \/
               (inject_Z 3600 <= sec /\ sec < inject_Z 14400) \/
               (inject_Z 14400 <= sec /\ sec < inject_Z 28800) \/
               (inject_Z 28800 <= sec /\ sec < inject_Z 86400) \/
               (inject_Z 86400 <= sec /\ sec < inject_Z 259200) \/
               (inject_Z 259200 <= sec /\ sec < inject_Z 604800) \/
               inject_Z 604800 <= sec)%Q).
  { destruct (Qlt_le_dec sec (inject_Z 3600)); [tauto|].
    destruct (Qlt_le_dec sec (inject_Z 14400)); [tauto|].
    destruct (Qlt_le_dec sec (inject_Z 28800)); [tauto|].
    destruct (Qlt_le_dec sec (inject_Z 86400)); [tauto|].
    destruct (Qlt_le_dec sec (inject_Z 259200)); [tauto|].
    destruct (Qlt_le_dec sec (inject_Z 604800)); tauto. }
  assert (Z0 : (inject_Z 0 <= sec)%Q) by exact H0.
  destruct C as [C|[C|[C|[C|[C|[C|C]]]]]];
    [exists 0%nat | exists 1%nat | exists 2%nat | exists 3%nat
    | exists 4%nat | exists 5%nat | exists 6%nat];
    (split; [lia|]); (split;
      [ intros bc; cbn [count_in_bucket in_bucket]; unfold Py.gtb;
        leq_facts sec; reflexivity
      | intros i b E;
        destruct i as [|[|[|[|[|[|[|i]]]]]]]; try discriminate E;
        injection E as <-; cbn [in_bucket]; unfold Py.gtb;
        leq_facts sec; reflexivity ]).
Qed.

Lemma count_in_app b l1 l2 : count_in b (l1 ++ l2) = count_in b l1 + count_in b l2.
Proof. unfold count_in. rewrite List.filter_app, length_app. lia. Qed.

Lemma eff_step_buckets st ur : buckets_ok st -> buckets_ok (eff_step st ur).
Proof.
  intros (L & C & S & M). destruct ur as [u row]. unfold eff_step.
  destruct (negb _); [repeat split; assumption|].
  destruct (Py.gtb 0 _) eqn:G; [repeat split; assumption|].
  apply gtb_false in G.
  destruct (bucket_of _ G) as (j & Hj & A & B).
  unfold buckets_ok. cbn [bucket_counts done_secs samples].
  rewrite A. split; [rewrite length_alter; exact L|].
  split.
  - intros i b E. rewrite count_in_app. unfold count_in at 2.
    cbn [List.filter]. rewrite (B i b E).
    destruct (decide (i = j)) as [->|NE].
    + rewrite bool_decide_eq_true_2 by reflexivity.
      rewrite list_lookup_alter, (C j b E). simpl.
      destruct (decide (j = j)) as [_|N]; [f_equal; lia | contradiction].
    + rewrite bool_decide_eq_false_2 by exact NE.
      rewrite list_lookup_alter_ne by congruence. rewrite (C i b E).
      simpl. f_equal. lia.
  - split.
    + rewrite sum_alter by lia. rewrite S, length_app. simpl. lia.
    + destruct (Nat.ltb_spec (length (samples st)) 50) as [Lt|Ge];
        rewrite !length_app; cbn [length]; lia.
Qed.

Lemma eff_fold_buckets rows : forall st,
  buckets_ok st -> buckets_ok (fold_left eff_step rows st).
Proof.
  induction rows as [|r rows IH]; intros st H; simpl; [exact H|].
  apply IH, eff_step_buckets, H.
Qed.

Lemma eff_init_buckets :
  buckets_ok {| done_secs := []; bucket_counts := replicate (length _BUCKETS) 0;
                samples := [] |}.
Proof.
  split; [reflexivity|]. split; [|split; reflexivity].
  intros i b E. destruct i as [|[|[|[|[|[|[|i]]]]]]]; try discriminate E;
    reflexivity.
Qed.

(** The durations the loop collects are those of the done rows that were
    not updated before their creation. *)
Lemma eff_fold_durations rows : forall st,
  done_secs (fold_left eff_step rows st) =
  done_secs st ++
  omap (fun ur : datetime * PDTicket =>
    let sec := total_seconds (fst ur) (create_dt (snd ur)) in
    if _is_done (ticket_status (snd ur)) && Qle_bool 0 sec then Some sec
    else None) rows.
Proof.
  induction rows as [|[u row] rows IH]; intros st;
    cbn -[total_seconds Qle_bool eff_step _is_done].
  - rewrite app_nil_r. reflexivity.
  - rewrite IH. unfold eff_step, Py.gtb.
    destruct (_is_done (ticket_status row)); cbn [negb andb]; [|reflexivity].
    destruct (Qle_bool 0 _); cbn [negb done_secs]; [|reflexivity].
    rewrite <- app_assoc. reflexivity.
Qed.

End EfficiencyBuckets.

(** ** Percentiles and the efficiency report *)

Module EfficiencyProperties.
Import Calendar Models Done ReportsTicket Durations.
Import BucketFacts SortFacts PyFacts BuiltinFacts RoundFacts PercentileFacts.
Import EfficiencyFacts EfficiencyBuckets.

Lemma omap_length_le {A B} (f : A -> option B) l :
  (length (omap f l) <= length l)%nat.
Proof.
  induction l as [|x l IH]; [reflexivity|].
  change (omap f (x :: l))
    with (match f x with Some y => y :: omap f l | None => omap f l end).
  destruct (f x); simpl; lia.
Qed.

Lemma q_done_length db params : (length (q_done db params) <= 2000)%nat.
Proof. unfold q_done. rewrite length_take. lia. Qed.

Lemma done_durations_length db params :
  (length (done_durations db params) <= 2000)%nat.
Proof.
  unfold done_durations. etransitivity; [apply omap_length_le|].
  apply q_done_length.
Qed.

Lemma hours_mono x y n :
  (x <= y)%Q -> (Py.round (x / 3600) n <= Py.round (y / 3600) n)%Q.
Proof.
  intros H. apply round_mono. apply Qmult_le_compat_r; [exact H | discriminate].
Qed.

(** X18. The bars of the efficiency report: slot [i] counts the kept durations
    [sec] with [lo <= sec < hi] for the bounds of bucket [i] (no upper bound
    for the last), so a duration on a bound is counted in the bucket that
    starts there; the slots add up to [done_count], which is at most 2000,
    and the samples are the first fifty of the kept rows. *)
Theorem efficiency_buckets_count_durations db now params :
  exists rep,
    _query_efficiency db now params = Py.Ok rep /\
    let ds := done_durations db params in
    done_count (eff_kpi_ rep) = Z.of_nat (length ds) /\
    done_count (eff_kpi_ rep) <= 2000 /\
    length (eff_series rep) = 7%nat /\
    (forall i b, _BUCKETS !! i = Some b ->
       eff_series rep !! i = Some (count_in b ds)) /\
    Py.sum (eff_series rep) = done_count (eff_kpi_ rep) /\
    Z.of_nat (length (eff_samples rep)) = Z.min 50 (done_count (eff_kpi_ rep)).
Proof.
  destruct (query_efficiency_nonneg db now params) as (rep & R & _).
  exists rep. split; [exact R|]. revert R. unfold _query_efficiency.
  pose proof (eff_fold_buckets (q_done db params) _ eff_init_buckets) as O.
  pose proof (eff_fold_durations (q_done db params)
    {| done_secs := []; bucket_counts := replicate (length _BUCKETS) 0;
       samples := [] |}) as D.
  cbn [done_secs app] in D. fold (done_durations db params) in D.
  set (st := fold_left eff_step _ _) in *.
  destruct O as (L & C & S & M).
  rewrite !percentile_refines by (unfold Qle; simpl; lia).
  destruct (Z.of_nat (length (done_secs st)) =? 0);
    rewrite !bind_ok; intros [= <-];
    cbn [eff_kpi_ done_count eff_series eff_samples].
  all: rewrite <- D.
  all: split; [reflexivity|].
  all: split;
    [ rewrite D; pose proof (done_durations_length db params); lia |].
  all: split; [exact L|]; split; [exact C|]; split; [exact S|].
  all: rewrite M; lia.
Qed.


(** X19. The median of the report is at most its ninetieth percentile. *)
Theorem efficiency_median_at_most_p90 db now params :
  exists rep,
    _query_efficiency db now params = Py.Ok rep /\
    (median_hours (eff_kpi_ rep) <= p90_hours (eff_kpi_ rep))%Q.
Proof.
  destruct (query_efficiency_nonneg db now params) as (rep & R & _).
  exists rep. split; [exact R|]. revert R. unfold _query_efficiency.
  set (st := fold_left eff_step _ _).
  rewrite !percentile_refines by (unfold Qle; simpl; lia).
  destruct (Z.of_nat (length (done_secs st)) =? 0).
  - rewrite !bind_ok. intros [= <-]. apply Qle_refl.
  - rewrite !bind_ok. intros [= <-]. cbn [eff_kpi_ median_hours p90_hours].
    apply hours_mono, percentile_spec_mono; unfold Qle; simpl; lia.
Qed.





End EfficiencyProperties.

(** ** Totals of the category report *)

Module CategoryProperties.
Import Calendar Models Done ReportsTicket.
Import SortFacts PyFacts BuiltinFacts CategoryFacts CategoryRows.

Lemma count_type_cons sid r rows :
  count_type sid (r :: rows) =
  Z.b2z (type_eqb (ticket_type r) sid) + count_type sid rows.
Proof.
  unfold count_type. cbn [List.filter].
  destruct (type_eqb (ticket_type r) sid); cbn [length Z.b2z]; lia.
Qed.

Lemma one_key t keys :
  NoDup keys -> In t keys ->
  Py.sum (map (fun k => Z.b2z (type_eqb t k)) keys) = 1.
Proof.
  induction 1 as [|k keys Hk N IH]; intros I; [destruct I|].
  cbn [map]. rewrite sum_cons. destruct (type_eqb t k) eqn:E.
  - apply type_eqb_eq in E. subst k.
    rewrite (sum_map_ext _ (fun _ => 0)), sum_map_zero; [reflexivity|].
    intros x Hx. destruct (type_eqb t x) eqn:Ex; [|reflexivity].
    apply type_eqb_eq in Ex. subst x. exfalso. apply Hk, list_elem_of_In, Hx.
  - destruct I as [->|I].
    + assert (T : type_eqb t t = true) by (apply type_eqb_eq; reflexivity).
      congruence.
    + rewrite (IH I). reflexivity.
Qed.

(** Each row is counted under one key. *)
Lemma counts_add_up keys rows :
  NoDup keys -> (forall r, In r rows -> In (ticket_type r) keys) ->
  Py.sum (map (fun k => count_type k rows) keys) = Z.of_nat (length rows).
Proof.
  intros N. induction rows as [|r rows IH]; intros H.
  - apply sum_map_zero.
  - rewrite (sum_map_ext _ (fun k => Z.b2z (type_eqb (ticket_type r) k) +
                                     count_type k rows))
      by (intros; apply count_type_cons).
    rewrite sum_map_add, one_key, IH; [cbn [length]; lia | | exact N |].
    + intros x Hx. apply H. right. exact Hx.
    + apply H. left. reflexivity.
Qed.

Lemma count_type_pos rows k : In k (map ticket_type rows) -> 1 <= count_type k rows.
Proof.
  intros H. apply in_map_iff in H. destruct H as (r & <- & I).
  unfold count_type.
  assert (I' : In r (List.filter (fun x => type_eqb (ticket_type x) (ticket_type r)) rows)).
  { apply filter_In. split; [exact I | apply type_eqb_eq; reflexivity]. }
  destruct (List.filter _ rows); [destruct I' | cbn [length]; lia].
Qed.

Lemma count_type_incl f rows k :
  0 <= count_type k (List.filter f rows) <= count_type k rows.
Proof.
  unfold count_type. split; [lia|]. apply inj_le.
  induction rows as [|r rows IH]; [reflexivity|]. cbn [List.filter].
  destruct (f r); cbn [List.filter]; destruct (type_eqb _ _); cbn [length]; lia.
Qed.

Lemma filter_and {A} (f g : A -> bool) l :
  List.filter (fun x => f x && g x) l = List.filter g (List.filter f l).
Proof.
  induction l as [|x l IH]; [reflexivity|]. cbn [List.filter].
  destruct (f x); cbn [andb List.filter]; [destruct (g x)|]; rewrite IH; reflexivity.
Qed.

(** The loop that looks for the top category keeps the first row of a
    list in descending order. *)
Lemma top_of_sorted (rows : list cat_row) first rest :
  rows = first :: rest -> 0 < c_count first ->
  Forall (fun r => c_count r <= c_count first) rest ->
  fold_left (fun (t : string * Z) (row : cat_row) =>
    if snd t <? c_count row then (c_type_name row, c_count row) else t)
    rows ("", 0) = (c_type_name first, c_count first).
Proof.
  intros -> P F. cbn [fold_left snd].
  destruct (Z.ltb_spec 0 (c_count first)); [|lia].
  induction F as [|r rest Hr F IH]; [reflexivity|].
  cbn [fold_left snd]. destruct (Z.ltb_spec (c_count first) (c_count r)); [lia|].
  exact IH.
Qed.

Section Report.
Variables (db : list PDTicket) (types : list PDType) (params : Params.t).

Let base := sample db types params.
Let closed := closed_sample db types params.
Let keys := remove_dups (map ticket_type base).
Let all_keys :=
  sort_by (fun a b => count_type b base <=? count_type a base) keys.

Lemma keys_nodup : NoDup keys.
Proof. apply NoDup_remove_dups. Qed.

Lemma keys_types r : In r base -> In (ticket_type r) keys.
Proof.
  intros H. apply list_elem_of_In, elem_of_remove_dups, list_elem_of_In.
  apply in_map. exact H.
Qed.

Lemma total_is_sample :
  fold_left Z.add (map snd (group_by_type base)) 0 = Z.of_nat (length base).
Proof.
  unfold group_by_type. rewrite map_map. cbn [snd].
  exact (counts_add_up keys base keys_nodup keys_types).
Qed.

Lemma sort_keys_ext :
  sort_by (fun a b => dict_get (group_by_type base) b 0 <=?
                      dict_get (group_by_type base) a 0)
    (map fst (group_by_type base)) = all_keys.
Proof.
  rewrite group_keys. unfold all_keys, keys.
  generalize (remove_dups (map ticket_type base)). intros l.
  induction l as [|x l IH]; [reflexivity|]. cbn [sort_by]. rewrite IH.
  generalize (sort_by (fun a b => count_type b base <=? count_type a base) l).
  intros s. induction s as [|y s IHs]; [reflexivity|]. cbn [insert_sorted].
  rewrite !dict_get_group. destruct (_ <=? _); [reflexivity|]. rewrite IHs.
  reflexivity.
Qed.

(** The report in terms of the counts of the two samples. *)
Lemma report_rows :
  base <> [] ->
  let rep := _query_project_category db types params in
  cat_rows rep = map (row_of db types params) all_keys /\
  cat_total rep = Z.of_nat (length base) /\
  cat_categories rep = Z.of_nat (length all_keys) /\
  pie_counts rep = map c_count (cat_rows rep) /\
  stack_open rep = map c_open (cat_rows rep) /\
  stack_closed rep = map c_closed (cat_rows rep) /\
  pie_labels rep = map c_type_name (cat_rows rep) /\
  (cat_top_label rep, cat_top_count rep) =
    fold_left (fun (t : string * Z) (row : cat_row) =>
      if snd t <? c_count row then (c_type_name row, c_count row) else t)
      (cat_rows rep) ("", 0) /\
  cat_top_pct rep = pct (cat_top_count rep) (cat_total rep) 1 /\
  cat_closed_pct rep =
    pct (Py.sum (map c_closed (cat_rows rep))) (cat_total rep) 1.
Proof.
  intros NE. unfold _query_project_category.
  change (List.filter (in_base types params) db) with base.
  change (List.filter (in_closed types params) db) with closed.
  destruct (group_by_type base) as [|g0 gs] eqn:G.
  { exfalso. apply NE. unfold group_by_type in G.
    apply map_eq_nil in G.
    destruct base as [|r b] eqn:B; [reflexivity|].
    assert (I : In (ticket_type r) (remove_dups (map ticket_type (r :: b)))).
    { apply list_elem_of_In, elem_of_remove_dups. left. }
    rewrite G in I. destruct I. }
  rewrite <- G. clear G g0 gs. cbv zeta.
  rewrite total_is_sample, sort_keys_ext.
  cbn [cat_rows cat_total cat_categories pie_counts stack_open stack_closed
       pie_labels cat_top_label cat_top_count cat_top_pct cat_closed_pct].
  assert (R : map (fun sid =>
      {| c_type_sid := sid;
         c_type_name := name_map types sid;
         c_count := dict_get (group_by_type base) sid 0;
         c_percent := pct (dict_get (group_by_type base) sid 0)
                        (Z.of_nat (length base)) 2;
         c_open := Z.max (dict_get (group_by_type base) sid 0 -
                          dict_get (group_by_type closed) sid 0) 0;
         c_closed := dict_get (group_by_type closed) sid 0 |}) all_keys
    = map (row_of db types params) all_keys).
  { apply map_ext. intros sid. unfold row_of. rewrite !dict_get_group.
    reflexivity. }
  rewrite R. split_and!; try reflexivity.
  destruct (fold_left _ _ _); reflexivity.
Qed.

Lemma all_keys_perm : Permutation keys all_keys.
Proof. apply sort_by_perm. Qed.

Lemma closed_le sid : 0 <= count_type sid closed <= count_type sid base.
Proof.
  unfold closed, base, closed_sample, sample.
  replace (List.filter (in_closed types params) db)
    with (List.filter (fun r => updated_by (Params.date_to params) r &&
                                _done_sql_expr r)
            (List.filter (in_base types params) db)).
  - apply count_type_incl.
  - rewrite <- filter_and. apply filter_ext. intros r. unfold in_closed.
    rewrite andb_assoc. reflexivity.
Qed.

End Report.

Lemma empty_report db types params :
  sample db types params = [] ->
  _query_project_category db types params = {|
    pie_labels := []; pie_counts := [];
    stack_open := []; stack_closed := [];
    cat_total := 0; cat_categories := 0;
    cat_top_label := ""; cat_top_count := 0; cat_top_pct := 0;
    cat_closed_pct := 0; cat_rows := [] |}.
Proof.
  unfold sample, _query_project_category. intros ->. reflexivity.
Qed.

Lemma rows_facts db types params :
  Forall (fun row =>
    1 <= c_count row /\ 0 <= c_open row /\ 0 <= c_closed row /\
    c_open row + c_closed row = c_count row)
    (map (row_of db types params)
       (sort_by (fun a b => count_type b (sample db types params) <=?
                            count_type a (sample db types params))
          (remove_dups (map ticket_type (sample db types params))))).
Proof.
  apply Forall_map, Forall_forall. intros sid H.
  apply (proj1 (list_elem_of_In _ _)) in H.
  apply (proj1 (sort_by_In _ _ _)) in H.
  apply (proj2 (list_elem_of_In _ _)) in H.
  apply (proj1 (elem_of_remove_dups _ _)) in H.
  apply (proj1 (list_elem_of_In _ _)) in H.
  pose proof (count_type_pos _ _ H) as P.
  pose proof (closed_le db types params sid) as C.
  unfold row_of. cbn [c_count c_closed c_open]. lia.
Qed.

Lemma counts_add_up_report db types params :
  let rep := _query_project_category db types params in
  cat_total rep = Z.of_nat (length (sample db types params)) /\
  Py.sum (pie_counts rep) = cat_total rep /\
  Py.sum (stack_open rep) + Py.sum (stack_closed rep) = cat_total rep /\
  cat_categories rep = Z.of_nat (length (cat_rows rep)) /\
  NoDup (map c_type_sid (cat_rows rep)) /\
  StronglySorted (fun x y => y <= x) (pie_counts rep) /\
  Forall (fun row =>
    1 <= c_count row /\ 0 <= c_open row /\ 0 <= c_closed row /\
    c_open row + c_closed row = c_count row) (cat_rows rep).
Proof.
  destruct (sample db types params) as [|r0 rs] eqn:B.
  { rewrite (empty_report db types params B). cbv zeta.
    cbn [cat_total pie_counts stack_open stack_closed cat_categories cat_rows
         map length].
    split_and!; try reflexivity; constructor. }
  assert (NE : sample db types params <> []) by (rewrite B; discriminate).
  destruct (report_rows db types params NE)
    as (R & T & K & P & O & C & _).
  cbv zeta. rewrite P, O, C, K, T, R. rewrite <- B. clear B r0 rs NE R T K P O C.
  set (base := sample db types params).
  set (keys := remove_dups (map ticket_type base)).
  set (all_keys := sort_by _ keys).
  pose proof (rows_facts db types params) as F.
  fold base in F. fold keys in F. fold all_keys in F.
  rewrite !map_map. cbn [row_of c_count c_open c_closed c_type_sid].
  fold base.
  assert (S : Py.sum (map (fun x => count_type x base) all_keys) =
              Z.of_nat (length base)).
  { rewrite <- (sum_perm _ _ (Permutation_map _ (all_keys_perm db types params))).
    apply counts_add_up; [apply keys_nodup|].
    intros r H. apply keys_types. exact H. }
  split; [reflexivity|]. split; [exact S|].
  split.
  { rewrite <- sum_map_add, <- S. apply sum_map_ext. intros sid H.
    rewrite Forall_map, Forall_forall in F.
    apply list_elem_of_In in H. specialize (F sid H).
    cbn [row_of c_count c_open c_closed] in F. fold base in F. lia. }
  split; [rewrite length_map; reflexivity|].
  split.
  { rewrite map_id. unfold all_keys.
    rewrite <- (sort_by_perm _ keys). apply NoDup_remove_dups. }
  split; [|exact F].
  exact (sort_by_desc_sorted (fun k => count_type k base) keys).
Qed.

(** X22. The counts of the category report add up: the total is the size of
    the sample, the counts of the rows and their open and closed parts sum
    to it, each category has one row of at least one ticket, and the rows
    are in the order of their counts, largest first. *)
Theorem category_counts_add_up db types params :
  let rep := _query_project_category db types params in
  cat_total rep = Z.of_nat (length (sample db types params)) /\
  Py.sum (pie_counts rep) = cat_total rep /\
  Py.sum (stack_open rep) + Py.sum (stack_closed rep) = cat_total rep /\
  cat_categories rep = Z.of_nat (length (cat_rows rep)) /\
  NoDup (map c_type_sid (cat_rows rep)) /\
  StronglySorted (fun x y => y <= x) (pie_counts rep) /\
  Forall (fun row =>
    1 <= c_count row /\ 0 <= c_open row /\ 0 <= c_closed row /\
    c_open row + c_closed row = c_count row) (cat_rows rep).
Proof. apply counts_add_up_report. Qed.

Lemma closed_sum_le (rows : list cat_row) :
  Forall (fun row =>
    1 <= c_count row /\ 0 <= c_open row /\ 0 <= c_closed row /\
    c_open row + c_closed row = c_count row) rows ->
  0 <= Py.sum (map c_closed rows) <= Py.sum (map c_count rows).
Proof.
  induction 1 as [|x l (A & B & C & D) F IH]; [cbn; lia|].
  cbn [map]. rewrite !sum_cons. lia.
Qed.

(** X23. The top category of the KPI block is the first row, no row has more
    tickets, and the two percentages of the block are percentages. *)
Theorem category_top_is_first_row db types params first rest :
  let rep := _query_project_category db types params in
  cat_rows rep = first :: rest ->
  cat_top_label rep = c_type_name first /\
  cat_top_count rep = c_count first /\
  Forall (fun row => c_count row <= cat_top_count rep) (cat_rows rep) /\
  (0 <= cat_top_pct rep)%Q /\ (cat_top_pct rep <= 100)%Q /\
  (0 <= cat_closed_pct rep)%Q /\ (cat_closed_pct rep <= 100)%Q.
Proof.
  cbv zeta. intros E.
  destruct (sample db types params) as [|r0 rs] eqn:B.
  { rewrite (empty_report db types params B) in E. discriminate E. }
  assert (NE : sample db types params <> []) by (rewrite B; discriminate).
  destruct (counts_add_up_report db types params)
    as (T & S & OC & _ & _ & D & F).
  destruct (report_rows db types params NE)
    as (_ & _ & _ & P & O & C & _ & Top & TP & CP).
  rewrite P in D. rewrite E in F, D, Top.
  inversion F as [|? ? (F1 & F2 & F3 & F4) F']; subst.
  cbn [map] in D. inversion D as [|? ? _ D']; subst.
  rewrite (top_of_sorted (first :: rest) first rest eq_refl) in Top;
    [|lia|rewrite Forall_map in D'; exact D'].
  injection Top as TL TC.
  split; [exact TL|]. split; [exact TC|].
  split.
  { rewrite E, TC. constructor; [lia|]. rewrite Forall_map in D'. exact D'. }
  rewrite TP, CP. unfold pct.
  assert (Tot : cat_total (_query_project_category db types params) =
                Py.sum (map c_count (first :: rest))) by (rewrite <- E, <- P; symmetry; exact S).
  assert (Cl : 0 <= Py.sum (map c_closed (first :: rest)) <=
               Py.sum (map c_count (first :: rest))).
  { apply closed_sum_le. exact F. }
  assert (Cn : c_count first <= Py.sum (map c_count (first :: rest))).
  { cbn [map]. rewrite sum_cons.
    assert (0 <= Py.sum (map c_count rest)); [|lia].
    apply sum_nonneg, Forall_map. eapply Forall_impl; [exact F'|].
    intros x (A & _). lia. }
  rewrite E, Tot, TC.
  destruct (percent_bounds (c_count first)
              (Py.sum (map c_count (first :: rest))) 1) as [A1 A2]; [lia|].
  destruct (percent_bounds (Py.sum (map c_closed (first :: rest)))
              (Py.sum (map c_count (first :: rest))) 1) as [B1 B2]; [lia|].
  split_and!; assumption.
Qed.


Lemma category_top_witness :
  exists first rest,
    cat_rows (_query_project_category
                [Examples.closed_late; Examples.verified] []
                Examples.first_days) = first :: rest /\
    cat_top_count (_query_project_category
                     [Examples.closed_late; Examples.verified] []
                     Examples.first_days) = c_count first /\
    c_count first = 2.
Proof.
  destruct (cat_rows (_query_project_category
                        [Examples.closed_late; Examples.verified] []
                        Examples.first_days)) as [|first rest] eqn:E;
    [vm_compute in E; discriminate E|].
  exists first, rest. split; [reflexivity|].
  destruct (category_top_is_first_row
              [Examples.closed_late; Examples.verified] []
              Examples.first_days first rest E) as (_ & T & _).
  split; [exact T|].
  vm_compute in E. injection E as <- _. reflexivity.
Defined.

End CategoryProperties.

Module ProgressLoopFacts.
Import Calendar CalendarFacts Models Done Buckets BucketFacts CoverFacts.
Import Trend TrendFacts BuiltinFacts PercentileFacts Progress.

Lemma drop_index (l : list Z) i x :
  l !! i = Some x -> drop i l = x :: drop (S i) l.
Proof.
  revert i. induction l as [|y l IH]; intros [|i] H; try discriminate.
  - injection H as <-. reflexivity.
  - simpl in *. apply IH. exact H.
Qed.

Lemma index_lookup (l : list Z) i x :
  l !! i = Some x -> Py.index l (Z.of_nat i) = Py.Ok x.
Proof.
  intros H. pose proof (lookup_lt_Some _ _ _ H) as B.
  rewrite (index_nth l (Z.of_nat i) 0) by lia. rewrite Nat2Z.id.
  f_equal. apply nth_lookup_Some. exact H.
Qed.

(** The running backlog: each slot adds what was created and takes what
    was closed in its bucket. *)
Lemma backlog_loop_spec created closed n : forall a running,
  (a + n)%nat = length created -> length closed = length created ->
  exists l,
    backlog_loop (seq a n) running created closed =
      Py.Ok (l, running + Py.sum (drop a created) - Py.sum (drop a closed)) /\
    length l = n /\
    (forall i, (i < n)%nat ->
       exists c d,
         created !! (a + i)%nat = Some c /\ closed !! (a + i)%nat = Some d /\
         l !! i =
           Some (running + Py.sum (take (S i) (drop a created))
                 - Py.sum (take (S i) (drop a closed)))).
Proof.
  induction n as [|n IH]; intros a running E1 E2.
  - exists []. cbn [seq backlog_loop].
    rewrite !drop_ge by lia. split; [f_equal; f_equal; unfold Py.sum; simpl; lia|].
    split; [reflexivity|]. intros i Hi. lia.
  - destruct (lookup_lt_is_Some_2 created a ltac:(lia)) as [c Hc].
    destruct (lookup_lt_is_Some_2 closed a ltac:(lia)) as [d Hd].
    cbn [seq backlog_loop].
    rewrite (index_lookup _ _ _ Hc), bind_ok, (index_lookup _ _ _ Hd), bind_ok.
    destruct (IH (S a) (running + (c - d)) ltac:(lia) E2) as (l & R & L & S).
    rewrite R, bind_ok. cbn [fst snd].
    exists (running + (c - d) :: l).
    rewrite (drop_index _ _ _ Hc), (drop_index _ _ _ Hd), !sum_cons.
    split; [f_equal; f_equal; lia|]. split; [cbn [length]; lia|].
    intros [|i] Hi.
    + exists c, d. rewrite Nat.add_0_r. split; [exact Hc|]. split; [exact Hd|].
      cbn [take lookup list_lookup]. rewrite !sum_cons.
      unfold Py.sum. simpl. f_equal. lia.
    + destruct (S i ltac:(lia)) as (c' & d' & C' & D' & V).
      exists c', d'. replace (a + Datatypes.S i)%nat with (Datatypes.S a + i)%nat by lia.
      split; [exact C'|]. split; [exact D'|].
      change ((running + (c - d) :: l) !! Datatypes.S i) with (l !! i).
      rewrite V. cbn [take]. rewrite !sum_cons. f_equal. lia.
Qed.

Lemma backlog_loop_all created closed running :
  length closed = length created ->
  exists l,
    backlog_loop (seq 0 (length created)) running created closed =
      Py.Ok (l, running + Py.sum created - Py.sum closed) /\
    length l = length created /\
    (forall i, (i < length created)%nat ->
       l !! i = Some (running + Py.sum (take (S i) created)
                      - Py.sum (take (S i) closed))).
Proof.
  intros E.
  destruct (backlog_loop_spec created closed (length created) 0 running
              ltac:(lia) E) as (l & R & L & V).
  rewrite !drop_0 in R. exists l. split; [exact R|]. split; [exact L|].
  intros i Hi. destruct (V i Hi) as (c & d & _ & _ & W).
  rewrite !drop_0 in W. exact W.
Qed.

End ProgressLoopFacts.

(** ** The backlog and the progress percentage *)

Module ProgressProperties.
Import Calendar CalendarFacts Models Done Buckets BucketFacts CoverFacts.
Import Trend TrendFacts TrendProperties BuiltinFacts PercentileFacts.
Import ReportsTicket Progress ProgressLoopFacts.

Lemma new_in_range db pid date_from date_to :
  Forall ReportsSla.ticket_valid db ->
  Forall (in_range date_from date_to)
    (map create_dt (List.filter (in_new pid date_from date_to) db)).
Proof.
  intros F. apply Forall_map.
  eapply Forall_impl; [apply Forall_filter_both, F|].
  intros r [[V _] S]. unfold in_new in S.
  rewrite !andb_true_iff in S. unfold in_range. simpl. tauto.
Qed.

Lemma closed_updates_in_range db pid date_from date_to :
  Forall ReportsSla.ticket_valid db ->
  Forall (in_range date_from date_to) (closed_updates db pid date_from date_to).
Proof.
  intros F. unfold closed_updates.
  induction F as [|r db [_ V] F IH]; [constructor|]. cbn [List.filter].
  destruct (in_updated pid date_from date_to r) eqn:C; [|assumption].
  cbn [omap list_omap].
  destruct (_is_done (ticket_status r)); [|assumption].
  unfold in_updated in C. destruct (update_dt r) as [u|]; [|discriminate].
  constructor; [|assumption].
  rewrite !andb_true_iff in C. unfold in_range.
  split; [apply V; reflexivity | tauto].
Qed.

Lemma closed_updates_length db pid date_from date_to :
  length (closed_updates db pid date_from date_to) =
  length (List.filter
    (fun r => in_updated pid date_from date_to r && _is_done (ticket_status r))
    db).
Proof.
  unfold closed_updates. induction db as [|r db IH]; [reflexivity|].
  cbn [List.filter].
  destruct (in_updated pid date_from date_to r) eqn:C; cbn [andb];
    [|assumption].
  cbn [omap list_omap].
  destruct (_is_done (ticket_status r)); cbn [List.filter].
  - unfold in_updated in C. destruct (update_dt r); [|discriminate].
    cbn [length]. f_equal. assumption.
  - assumption.
Qed.

Lemma filter_length_impl {A} (f g : A -> bool) l :
  (forall x, In x l -> f x = true -> g x = true) ->
  (length (List.filter f l) <= length (List.filter g l))%nat.
Proof.
  induction l as [|x l IH]; intros H; [reflexivity|]. cbn [List.filter].
  assert (IH' : (length (List.filter f l) <= length (List.filter g l))%nat).
  { apply IH. intros y I. apply H. right. exact I. }
  destruct (f x) eqn:F.
  - rewrite (H x (or_introl eq_refl) F). cbn [length]. lia.
  - destruct (g x); cbn [length]; lia.
Qed.

Lemma last_lookup_pred {A} (l : list A) :
  l <> [] -> last l = l !! pred (length l).
Proof. intros _. apply last_lookup. Qed.

(** X24. The backlog is conserved: the created and closed totals count the
    tickets of the project created, and the done ones updated, in the
    period; the backlog at the end is the backlog at the start plus the
    created minus the closed; and each slot of the backlog series is the
    start plus the created minus the closed of the buckets so far, the last
    slot being the backlog at the end. *)
Theorem backlog_is_conserved db now params pid :
  project_of params = Some pid ->
  valid_datetime (Params.date_from params) = true ->
  valid_datetime (Params.date_to params) = true ->
  datetime_leb (Params.date_from params) (Params.date_to params) = true ->
  has_next (Params.date_to params) (Params.interval_or_day params) = true ->
  Forall ReportsSla.ticket_valid db ->
  exists rep,
    _query_project_progress db now params = Py.Ok rep /\
    kpi_created rep =
      Z.of_nat (length (List.filter
        (in_new pid (Params.date_from params) (Params.date_to params)) db)) /\
    kpi_closed rep =
      Z.of_nat (length (List.filter
        (fun r => in_updated pid (Params.date_from params)
                    (Params.date_to params) r &&
                  _is_done (ticket_status r)) db)) /\
    kpi_backlog_end rep =
      kpi_backlog_start rep + kpi_created rep - kpi_closed rep /\
    length (created_series rep) = length (labels rep) /\
    length (closed_series rep) = length (labels rep) /\
    length (backlog_series rep) = length (labels rep) /\
    (forall i, (i < length (labels rep))%nat ->
       backlog_series rep !! i =
         Some (kpi_backlog_start rep
               + Py.sum (take (S i) (created_series rep))
               - Py.sum (take (S i) (closed_series rep)))) /\
    last (backlog_series rep) = Some (kpi_backlog_end rep).
Proof.
  intros P Vf Vt L N F.
  destruct (iter_buckets_range _ _ _ Vf Vt L N)
    as (l & first & _ & B & Hh & _).
  unfold _query_project_progress. rewrite P, B, bind_ok.
  destruct (fill_series_sum _ _ _ l _ Vf Vt B
              (new_in_range db pid _ _ F) (replicate (length l) 0))
    as (s1 & R1 & E1 & S1); [apply length_replicate|].
  destruct (fill_series_sum _ _ _ l _ Vf Vt B
              (closed_updates_in_range db pid _ _ F) (replicate (length l) 0))
    as (s2 & R2 & E2 & S2); [apply length_replicate|].
  rewrite R1, bind_ok, R2, bind_ok.
  destruct (backlog_loop_all s1 s2
              (backlog_start_of db pid (Params.date_from params))
              ltac:(lia)) as (bl & RB & LB & V).
  rewrite E1 in RB, LB, V. rewrite RB, bind_ok.
  eexists. split; [reflexivity|].
  cbn [labels created_series closed_series backlog_series kpi_created
       kpi_closed kpi_backlog_start kpi_backlog_end fst snd].
  rewrite S1, S2, sum_replicate, closed_updates_length, length_map.
  split; [reflexivity|]. split; [reflexivity|]. split; [lia|].
  split; [exact E1|]. split; [exact E2|]. split; [exact LB|].
  split; [exact V|].
  assert (NE : l <> []) by (destruct l; [discriminate Hh | discriminate]).
  rewrite last_lookup, LB.
  assert (0 < length l)%nat by (destruct l; [contradiction | cbn; lia]).
  rewrite V by lia.
  replace (S (pred (length l))) with (length l) by lia.
  rewrite <- E1 at 1. rewrite <- E2 at 1. rewrite !firstn_all.
  rewrite S1, S2, sum_replicate, closed_updates_length, length_map.
  f_equal; lia.
Qed.

Lemma backlog_witness :
  exists rep,
    _query_project_progress Examples.scenarios Examples.now_ Examples.first_days
      = Py.Ok rep /\
    kpi_created rep = 3 /\ kpi_closed rep = 2 /\
    kpi_backlog_end rep =
      kpi_backlog_start rep + kpi_created rep - kpi_closed rep.
Proof.
  destruct (backlog_is_conserved Examples.scenarios Examples.now_
              Examples.first_days 1)
    as (rep & R & C & D & E & _); [by_computation.. | valid_rows |].
  exists rep. split; [exact R|].
  split; [rewrite C; by_computation|]. split; [rewrite D; by_computation|].
  exact E.
Defined.

(** X25. When no ticket is updated before it was created, the progress of a
    project is a percentage. *)
Theorem progress_is_a_percentage db now params pid :
  project_of params = Some pid ->
  valid_datetime (Params.date_from params) = true ->
  valid_datetime (Params.date_to params) = true ->
  datetime_leb (Params.date_from params) (Params.date_to params) = true ->
  has_next (Params.date_to params) (Params.interval_or_day params) = true ->
  Forall ReportsSla.ticket_valid db ->
  Forall (fun r => forall u, update_dt r = Some u ->
                     datetime_leb (create_dt r) u = true) db ->
  exists rep,
    _query_project_progress db now params = Py.Ok rep /\
    (0 <= kpi_progress_pct rep)%Q /\ (kpi_progress_pct rep <= 100)%Q.
Proof.
  intros P Vf Vt L N F O.
  destruct (iter_buckets_range _ _ _ Vf Vt L N) as (l & _ & _ & B & _).
  unfold _query_project_progress. rewrite P, B, bind_ok.
  destruct (fill_series_sum _ _ _ l _ Vf Vt B
              (new_in_range db pid _ _ F) (replicate (length l) 0))
    as (s1 & R1 & E1 & S1); [apply length_replicate|].
  destruct (fill_series_sum _ _ _ l _ Vf Vt B
              (closed_updates_in_range db pid _ _ F) (replicate (length l) 0))
    as (s2 & R2 & E2 & S2); [apply length_replicate|].
  rewrite R1, bind_ok, R2, bind_ok.
  destruct (backlog_loop_all s1 s2
              (backlog_start_of db pid (Params.date_from params))
              ltac:(lia)) as (bl & RB & _).
  rewrite E1 in RB. rewrite RB, bind_ok. eexists. split; [reflexivity|].
  cbn [kpi_progress_pct]. unfold pct. apply percent_bounds.
  unfold closed_up_to, total_exist. split; [lia|]. apply inj_le.
  apply filter_length_impl. intros r I H.
  rewrite !andb_true_iff in H. destruct H as (((H1 & H2) & H3) & _).
  rewrite H1, H2. cbn [andb]. unfold updated_by in H3.
  destruct (update_dt r) as [u|] eqn:U; [|discriminate].
  rewrite Forall_forall in O. apply list_elem_of_In in I.
  exact (datetime_leb_trans _ _ _ (O r I u U) H3).
Qed.

Lemma progress_percentage_witness :
  exists rep,
    _query_project_progress Examples.scenarios Examples.now_ Examples.first_days
      = Py.Ok rep /\
    (kpi_progress_pct rep <= 100)%Q.
Proof.
  destruct (progress_is_a_percentage Examples.scenarios Examples.now_
              Examples.first_days 1)
    as (rep & R & _ & T); [by_computation.. | valid_rows | |].
  - unfold Examples.scenarios.
    repeat (constructor;
      [intros ? E; vm_compute in E; inversion E; by_computation|]).
    constructor.
  - exists rep. split; assumption.
Defined.

Lemma datetime_leb_total a b :
  datetime_leb a b = true \/ datetime_leb b a = true.
Proof.
  unfold datetime_leb.
  rewrite (cmp_fields_antisym (datetime_fields a) (datetime_fields b)).
  destruct (cmp_fields (datetime_fields a) (datetime_fields b)); simpl; auto.
Qed.

Lemma In_drop {A} n : forall (l : list A) y, In y (drop n l) -> In y l.
Proof.
  induction n as [|n IH]; intros [|a l] y H; simpl in *; try contradiction.
  - exact H.
  - right. apply IH. exact H.
Qed.

Lemma sorted_split {A} (R : A -> A -> Prop) n l :
  StronglySorted R l ->
  forall x y, In x (take n l) -> In y (drop n l) -> R x y.
Proof.
  intros S. revert n. induction S as [|a l S IH F]; intros [|n] x y Hx Hy;
    simpl in *; try contradiction.
  destruct Hx as [<-|Hx].
  - rewrite Forall_forall in F. apply F, list_elem_of_In.
    exact (In_drop n l y Hy).
  - exact (IH n x y Hx Hy).
Qed.

(** X26. The list of open tickets shows the oldest twenty: it has as many
    entries as there are open tickets, twenty at most, in the order of their
    creation, and no open ticket left out was created before a listed
    one. *)
Theorem open_items_are_the_oldest db pid now :
  exists later,
    Permutation (List.filter (is_open_now pid) db) (open_rows db pid ++ later) /\
    map oi_ticket_sid (open_items db pid now) =
      map ticket_sid (open_rows db pid) /\
    Z.of_nat (length (open_items db pid now)) = Z.min 20 (open_now db pid) /\
    StronglySorted
      (fun a b => datetime_leb (oi_created_at a) (oi_created_at b) = true)
      (open_items db pid now) /\
    (forall x y, In x (open_rows db pid) -> In y later ->
       datetime_leb (create_dt x) (create_dt y) = true).
Proof.
  set (leb := fun a b : PDTicket => datetime_leb (create_dt a) (create_dt b)).
  set (sorted := sort_by leb (List.filter (is_open_now pid) db)).
  assert (S : StronglySorted (fun a b => leb a b = true) sorted).
  { apply SortFacts.sort_by_sorted.
    - intros a b. apply datetime_leb_total.
    - intros a b c. apply datetime_leb_trans. }
  exists (drop 20 sorted). unfold open_items, open_rows. fold leb. fold sorted.
  split.
  { rewrite take_drop. apply SortFacts.sort_by_perm. }
  split; [rewrite map_map; reflexivity|].
  split.
  { rewrite length_map, length_take. unfold sorted.
    rewrite SortFacts.sort_by_length. unfold open_now. lia. }
  split.
  { apply (SortFacts.StronglySorted_take _ 20) in S.
    induction S as [|x l S IH F]; simpl; constructor; [exact IH|].
    apply Forall_map. exact F. }
  intros x y. apply (sorted_split _ 20 sorted S).
Qed.

End ProgressProperties.

Module PaletteProperties.
Import Palette.

Lemma palette_lookup n i :
  (i < Z.to_nat (Z.max n 0))%nat -> _palette n !! i = Some (colour (Z.of_nat i)).
Proof.
  intros H. unfold _palette.
  change (map ?f ?l) with (f <$> l). rewrite list_lookup_fmap.
  rewrite lookup_seq_lt by exact H. reflexivity.
Qed.

Lemma palette_take n m :
  n <= m -> _palette n = take (Z.to_nat (Z.max n 0)) (_palette m).
Proof.
  intros H. unfold _palette.
  rewrite firstn_map. f_equal.
  rewrite take_seq. f_equal. lia.
Qed.

Lemma append_length a b : String.length (a +:+ b) = (String.length a + String.length b)%nat.
Proof. induction a as [|c a IH]; simpl; [reflexivity | rewrite IH; reflexivity]. Qed.

Lemma append_cancel_r s : forall a b, a +:+ s = b +:+ s -> a = b.
Proof.
  induction a as [|c a IH]; intros [|d b] H.
  - reflexivity.
  - apply (f_equal String.length) in H. rewrite !append_length in H.
    cbn [String.length] in H. lia.
  - apply (f_equal String.length) in H. rewrite !append_length in H.
    cbn [String.length] in H. lia.
  - change (String c (a +:+ s) = String d (b +:+ s)) in H.
    injection H as -> H. f_equal. apply IH. exact H.
Qed.

Lemma colour_hue i j : colour i = colour j -> hue i = hue j.
Proof.
  unfold colour. intros H. apply String.app_inj in H.
  apply append_cancel_r in H. apply pretty_Z_inj in H. exact H.
Qed.

Lemma hues_distinct : NoDup (map (fun i => hue (Z.of_nat i)) (seq 0 360)).
Proof. apply (bool_decide_unpack _). vm_compute. reflexivity. Qed.

Lemma first_360_distinct : NoDup (_palette 360).
Proof.
  unfold _palette. change (Z.to_nat (Z.max 360 0)) with 360%nat.
  pose proof hues_distinct as N. revert N.
  generalize (seq 0 360). intros l.
  induction l as [|x l IH]; intros N; cbn [map]; [constructor|].
  cbn [map] in N. apply NoDup_cons in N. destruct N as [N1 N2].
  apply NoDup_cons. split; [|apply IH; exact N2].
  intros C. apply N1.
  apply list_elem_of_In, in_map_iff in C. destruct C as (y & E & I).
  apply list_elem_of_In, in_map_iff. exists y. split; [|exact I].
  apply colour_hue. exact E.
Qed.

(** X27. The palette has one colour for each of [n] items (none for a negative
    [n]); its colours are pairwise distinct up to 360 items, and from then on
    they repeat: item [i + 360] has the colour of item [i]. *)
Theorem palette_colours_distinct_up_to_360 n :
  Z.of_nat (length (_palette n)) = Z.max n 0 /\
  (n <= 360 <-> NoDup (_palette n)) /\
  (forall i, colour (i + 360) = colour i).
Proof.
  split; [unfold _palette; rewrite length_map, length_seq; lia|].
  split.
  - split.
    + intros H. rewrite (palette_take n 360 H).
      apply (sublist_NoDup _ (_palette 360) first_360_distinct).
      apply sublist_take.
    + intros N. destruct (Z_le_gt_dec n 360) as [L|G]; [exact L|exfalso].
      assert (A : _palette n !! 0%nat = Some (colour 0))
        by (apply (palette_lookup n 0); lia).
      assert (B : _palette n !! 360%nat = Some (colour 0)).
      { rewrite (palette_lookup n 360) by lia. reflexivity. }
      pose proof (NoDup_lookup _ _ _ _ N A B) as C. discriminate C.
  - intros i. unfold colour, hue.
    replace ((i + 360) * 37) with (i * 37 + 37 * 360) by lia.
    rewrite Z.mod_add by lia. reflexivity.
Qed.

End PaletteProperties.

Module SequenceProperties.
Import Calendar Sequence.

Lemma iter_length n s :
  String.length (Nat.iter n (String "0"%char) s) = (n + String.length s)%nat.
Proof. induction n as [|n IH]; simpl; [reflexivity | rewrite IH; reflexivity]. Qed.

Lemma zero_pad_length width s : (width <= String.length (zero_pad width s))%nat.
Proof. unfold zero_pad. rewrite iter_length. lia. Qed.

Lemma prefix_length a : forall b,
  String.prefix a b = true -> (String.length a <= String.length b)%nat.
Proof.
  induction a as [|c a IH]; intros [|d b] H; simpl in *; try lia; try discriminate.
  destruct (Ascii.ascii_dec c d); [|discriminate]. apply IH in H. lia.
Qed.

Lemma short_numbers :
  Forall (fun n => (String.length (pretty n) <= 3)%nat) (seqZ 0 1000).
Proof. apply (bool_decide_unpack _). vm_compute. reflexivity. Qed.

(** A counter below 1000 is written with fewer digits than a year. *)
Lemma year_is_no_prefix now n :
  0 <= year (dt_date now) -> 0 <= n < 1000 ->
  String.prefix (format_0d 4 (year (dt_date now))) (pretty n) = false.
Proof.
  intros Y N. apply not_true_iff_false. intros C. apply prefix_length in C.
  unfold format_0d in C. destruct (Z.ltb_spec (year (dt_date now)) 0); [lia|].
  pose proof (zero_pad_length 4 (pretty (year (dt_date now)))).
  pose proof short_numbers as S. rewrite Forall_forall in S.
  specialize (S n). rewrite elem_of_seqZ in S. specialize (S ltac:(lia)). lia.
Qed.

(** X28. Under the rule [DAILY] a counter below 1000 is set back on every
    call: the number that comes out ends with [0001], the stored counter is
    1, and the next call gives the same form number again. *)
Theorem daily_rule_repeats_the_first_number now seq :
  reset_rule seq = "DAILY" ->
  1000 <= year (dt_date now) <= 9999 ->
  0 <= current_no seq < 1000 ->
  let first := next_form_no now seq in
  let second := next_form_no now (snd first) in
  fst first = expand (_today_tokens now) (prefix seq) +:+ "0001" /\
  current_no (snd first) = 1 /\
  fst second = fst first /\
  snd second = snd first.
Proof.
  intros R Y N.
  assert (E : forall s, reset_rule s = "DAILY" -> 0 <= current_no s < 1000 ->
    next_form_no now s =
      (expand (_today_tokens now) (prefix s) +:+ "0001",
       {| code := code s; prefix := prefix s; current_no := 1;
          reset_rule := reset_rule s |})).
  { intros s Rs Ns. unfold next_form_no.
    rewrite Rs, (year_is_no_prefix now (current_no s)) by lia. reflexivity. }
  cbv zeta. pose proof (E seq R N) as E1. rewrite E1. cbn [fst snd current_no].
  pose proof (E {| code := code seq; prefix := prefix seq; current_no := 1;
                   reset_rule := reset_rule seq |} R ltac:(cbn; lia)) as E2.
  rewrite E2. cbn [fst snd code prefix reset_rule].
  split_and!; reflexivity.
Qed.

Lemma daily_rule_witness :
  fst (next_form_no Examples.now_
         {| code := "TK"; prefix := "TK-{YYYY}{MM}{DD}-"; current_no := 7;
            reset_rule := "DAILY" |}) = "TK-20240111-0001" /\
  fst (next_form_no Examples.now_
         (snd (next_form_no Examples.now_
            {| code := "TK"; prefix := "TK-{YYYY}{MM}{DD}-"; current_no := 7;
               reset_rule := "DAILY" |}))) = "TK-20240111-0001".
Proof.
  destruct (daily_rule_repeats_the_first_number Examples.now_
              {| code := "TK"; prefix := "TK-{YYYY}{MM}{DD}-"; current_no := 7;
                 reset_rule := "DAILY" |})
    as (A & _ & B & _).
  - reflexivity.
  - vm_compute. split; discriminate.
  - vm_compute. split; [discriminate | reflexivity].
  - rewrite B, A. split; vm_compute; reflexivity.
Defined.

End SequenceProperties.
